(** * k9sight: the interactive core (Navigator, Dashboard, Root Controller)

    A shallow embedding of the Bubble Tea state machine of k9sight:
    [components.Navigator] (navigator.go), the overlay widgets
    (action_menu.go, the result viewer, the help panel), [views.Dashboard]
    and the root [app.Model], with the favourites of [config.Config],
    the string helpers of packages k8s and styles, and the sorting and
    filtering of log lines (logs.go).  Go values of type [int] are integers in
    two's complement on 64 bits; a nil pointer is [None]; a run-time panic
    (nil dereference, index out of range) is the outcome [Panic]. *)

From Stdlib Require Import ZArith List String Ascii Bool Lia Permutation Sorted.
Import ListNotations.
Open Scope string_scope.
Open Scope Z_scope.
Set Warnings "-register-all".

(** ** Go runtime: machine integers, slices, panics *)

Module Go.

Definition min_int : Z := - 2 ^ 63.
Definition max_int : Z := 2 ^ 63 - 1.

(** The value stored in an [int] after an arithmetic result [z]. *)
Definition wrap (z : Z) : Z := (z + 2 ^ 63) mod 2 ^ 64 - 2 ^ 63.

Definition is_int (z : Z) : Prop := min_int <= z <= max_int.

Definition add (a b : Z) : Z := wrap (a + b).
Definition sub (a b : Z) : Z := wrap (a - b).
(** Go's [/] truncates toward zero. *)
Definition div (a b : Z) : Z := wrap (Z.quot a b).
(** Go's [%] takes the sign of the dividend. *)
Definition rem (a b : Z) : Z := Z.rem a b.

Definition len {A : Type} (l : list A) : Z := Z.of_nat (List.length l).

(** The line feed of a Go string literal. *)
Definition nl : string := String (ascii_of_nat 10) EmptyString.

Inductive outcome (A : Type) : Type :=
| Done (a : A)
| Panic.
Arguments Done {A} a.
Arguments Panic {A}.

Definition bind {A B : Type} (o : outcome A) (f : A -> outcome B) : outcome B :=
  match o with
  | Done a => f a
  | Panic => Panic
  end.

(** [l[i]]: panics when [i] is out of range. *)
Definition index {A : Type} (l : list A) (i : Z) : outcome A :=
  if (i <? 0) || (len l <=? i) then Panic
  else match nth_error l (Z.to_nat i) with
       | Some a => Done a
       | None => Panic
       end.

(** [strings.Contains]: [sub] occurs in [s] as a contiguous run of bytes. *)
Fixpoint Contains (s sub : string) : bool :=
  if String.prefix sub s then true
  else match s with
       | EmptyString => false
       | String _ s' => Contains s' sub
       end.

(** [strings.ToLower] restricted to ASCII text: 'A'..'Z' are shifted, every
    other byte is kept. *)
Definition lower_ascii (c : ascii) : ascii :=
  let n := nat_of_ascii c in
  if (Nat.leb 65 n && Nat.leb n 90)%bool then ascii_of_nat (n + 32) else c.

Fixpoint ToLowerASCII (s : string) : string :=
  match s with
  | EmptyString => EmptyString
  | String c s' => String (lower_ascii c) (ToLowerASCII s')
  end.

End Go.

Notation "x <- o ;; k" := (Go.bind o (fun x => k))
  (at level 61, o at next level, right associativity).

(** ** package k8s: the data the UI browses (client.go) *)

Module K8s.

Definition ResourceType := string.

Definition ResourcePods : ResourceType := "pods".
Definition ResourceDeployments : ResourceType := "deployments".
Definition ResourceStatefulSets : ResourceType := "statefulsets".
Definition ResourceDaemonSets : ResourceType := "daemonsets".
Definition ResourceJobs : ResourceType := "jobs".
Definition ResourceCronJobs : ResourceType := "cronjobs".

Definition AllResourceTypes : list ResourceType :=
  [ ResourceDeployments; ResourceStatefulSets; ResourceDaemonSets;
    ResourceJobs; ResourceCronJobs; ResourcePods ].

Record WorkloadInfo := {
  wName : string;
  wNamespace : string;
  wType : ResourceType;
  wReady : string;
  wReplicas : Z;
  wAge : string;
  wStatus : string;
  wLabels : list (string * string);
  wRestartCount : Z
}.

Record ContainerInfo := {
  cName : string;
  cImage : string;
  cReady : bool;
  cRestartCount : Z;
  cState : string;
  cReason : string;
  cPorts : list Z
}.

Record PodInfo := {
  pName : string;
  pNamespace : string;
  pNode : string;
  pStatus : string;
  pReady : string;
  pRestarts : Z;
  pAge : string;
  pIP : string;
  pLabels : list (string * string);
  pContainers : list ContainerInfo;
  pPhase : string;
  pOwnerRef : string;
  pOwnerKind : string
}.

Record LogLine := {
  lContainer : string;
  lContent : string;
  lIsError : bool
}.

Record EventInfo := {
  eType : string;
  eReason : string;
  eMessage : string;
  eSource : string;
  eAge : string;
  eCount : Z;
  eObject : string
}.

Record ContainerMetrics := {
  mName : string;
  mCPUUsage : string;
  mMemoryUsage : string
}.

Record PodMetrics := {
  pmName : string;
  pmNamespace : string;
  pmContainers : list ContainerMetrics
}.

Record RelatedResources := {
  rServices : list string;
  rIngresses : list string;
  rConfigMaps : list string;
  rSecrets : list string
}.

Record DebugHelper := {
  hIssue : string;
  hSeverity : string;
  hSuggestions : list string
}.

(** [k8s.Client]: the two fields the UI reads and writes. *)
Record Client := {
  context : string;
  namespace : string
}.

Definition SetNamespace (ns : string) (c : Client) : Client :=
  {| context := context c; namespace := ns |}.

End K8s.

(** ** package config *)

Module Config.

Record t := {
  LastNamespace : string;
  LastContext : string;
  LastResourceType : string;
  FavoriteItems : list string;
  LogLineLimit : Z;
  RefreshInterval : Z;
  Theme : string
}.

Definition DefaultConfig : t :=
  {| LastNamespace := "default";
     LastContext := "";
     LastResourceType := "deployments";
     FavoriteItems := [];
     LogLineLimit := 500;
     RefreshInterval := 5;
     Theme := "default" |}.

Definition SetLastNamespace (ns : string) (c : t) : t :=
  {| LastNamespace := ns;
     LastContext := LastContext c;
     LastResourceType := LastResourceType c;
     FavoriteItems := FavoriteItems c;
     LogLineLimit := LogLineLimit c;
     RefreshInterval := RefreshInterval c;
     Theme := Theme c |}.

Definition SetLastResourceType (rt : string) (c : t) : t :=
  {| LastNamespace := LastNamespace c;
     LastContext := LastContext c;
     LastResourceType := rt;
     FavoriteItems := FavoriteItems c;
     LogLineLimit := LogLineLimit c;
     RefreshInterval := RefreshInterval c;
     Theme := Theme c |}.

End Config.

(** ** Bubble Tea: messages and commands

    [tea.Msg] is an open interface in Go; the constructors below are the
    message types this program declares or inspects.  A [tea.Cmd] is a
    closure run off the event loop; each constructor records which closure
    it is and the variables it captured. *)

Module Tea.

(** [components.MenuItem] *)
Record MenuItem := {
  miLabel : string;
  miValue : string;
  miShortcut : string
}.

(** [components.PodActionItem] *)
Record PodActionItem := {
  Label : string;
  Description : string;
  Action : string;
  Command : string
}.

(** The [interface{}] payload of a [ConfirmResult]: a [*k8s.PodInfo]
    (possibly nil) or a value of another dynamic type. *)
Inductive Payload : Type :=
| PodPtr (p : option K8s.PodInfo)
| OtherPayload.

Inductive Msg : Type :=
| KeyMsg (key : string)                 (* carries [msg.String()] *)
| WindowSizeMsg (width height : Z)
| SpinnerTickMsg
| loadedMsg (workloads : list K8s.WorkloadInfo) (namespaces : list string)
            (err : option string)
| podsLoadedMsg (pods : list K8s.PodInfo) (err : option string)
| dashboardDataMsg (logs : list K8s.LogLine) (events : list K8s.EventInfo)
                   (metrics : option K8s.PodMetrics)
                   (related : option K8s.RelatedResources)
                   (helpers : list K8s.DebugHelper)
| tickMsg
| ExecFinishedMsg (err : option string)
| DescribeOutputMsg (title content : string) (err : option string)
| ActionMenuResult (item : MenuItem) (copied : bool) (err : option string)
| PodActionMenuResult (item : PodActionItem)
| ConfirmResult (confirmed : bool) (action : string) (data : Payload)
| DeletePodRequest (ns podName : string)
| LibMsg (tag : string).                (* any message of the widget libraries *)

Inductive Cmd : Type :=
| CmdNil                                (* the nil command *)
| CmdBatch (cmds : list Cmd)            (* [tea.Batch(cmds...)]: all run concurrently *)
| CmdQuit                               (* [tea.Quit] *)
| CmdTick (seconds : Z)                 (* [tea.Tick(d, ...)] delivering [tickMsg] *)
| CmdEmit (m : Msg)                     (* [func() tea.Msg { return m }] *)
| CmdLib (tag : string)                 (* a command built by a bubbles widget *)
| CmdDescribe (cmdStr podName : string) (* runs [sh -c cmdStr], yields DescribeOutputMsg *)
| CmdExecProcess (cmdStr : string)      (* [tea.ExecProcess]: hands the terminal over *)
| CmdDeletePodRequest (pod : option K8s.PodInfo)
                                        (* yields DeletePodRequest{pod.Namespace, pod.Name} *)
| CmdLoadInitialData
| CmdLoadWorkloads (rt : K8s.ResourceType)
| CmdLoadPods (w : K8s.WorkloadInfo)
| CmdLoadDashboardData (p : K8s.PodInfo).

(** The commands the runtime starts for [c]: nil commands are dropped and
    batches are flattened. *)
Fixpoint atoms (c : Cmd) : list Cmd :=
  match c with
  | CmdNil => []
  | CmdBatch cs => (fix go (l : list Cmd) : list Cmd :=
                      match l with
                      | [] => []
                      | x :: r => (atoms x ++ go r)%list
                      end) cs
  | _ => [c]
  end.

Definition is_tick (c : Cmd) : bool :=
  match c with CmdTick _ => true | _ => false end.

Definition is_fetch (c : Cmd) : bool :=
  match c with CmdLoadDashboardData _ => true | _ => false end.

Definition is_delete (c : Cmd) : bool :=
  match c with CmdDeletePodRequest _ => true | _ => false end.

Definition is_exec (c : Cmd) : bool :=
  match c with CmdExecProcess _ => true | _ => false end.

Definition is_load (c : Cmd) : bool :=
  match c with
  | CmdLoadInitialData | CmdLoadWorkloads _ | CmdLoadPods _ => true
  | _ => false
  end.

(** Side effects performed inside the message-handling step itself. *)
Inductive Effect : Type :=
| EffClipboard (text : string)          (* [components.CopyToClipboard(text)] *)
| EffSaveConfig (c : Config.t).         (* [config.Save()] *)

End Tea.

(** ** package keys *)

Module Keys.

(** A [key.Binding]: the key names it matches (all bindings are enabled). *)
Definition Binding := list string.

(** [key.Matches(msg, b)] *)
Definition Matches (k : string) (b : Binding) : bool :=
  existsb (String.eqb k) b.

Record KeyMap := {
  Up : Binding; Down : Binding; Left : Binding; Right : Binding;
  Home : Binding; End_ : Binding; PageUp : Binding; PageDown : Binding;
  Enter : Binding; Back : Binding; Quit : Binding; Help : Binding;
  Refresh : Binding; Search : Binding; Clear : Binding;
  NextPanel : Binding; PrevPanel : Binding;
  Panel1 : Binding; Panel2 : Binding; Panel3 : Binding; Panel4 : Binding;
  Namespace : Binding; ResourceType : Binding;
  ToggleFollow : Binding; JumpToError : Binding; ToggleWrap : Binding;
  ToggleAllEvents : Binding;
  ToggleFullView : Binding;
  (* read by the Dashboard; their bindings are declared in a revision of
     the key map that is not part of the sources at hand *)
  PodActions : Binding; CopyCommands : Binding
}.

Definition DefaultKeyMap (podActions copyCommands : Binding) : KeyMap :=
  {| Up := ["up"; "k"]; Down := ["down"; "j"];
     Left := ["left"; "h"]; Right := ["right"; "l"];
     Home := ["g"; "home"]; End_ := ["G"; "end"];
     PageUp := ["pgup"; "ctrl+u"]; PageDown := ["pgdown"; "ctrl+d"];
     Enter := ["enter"]; Back := ["esc"]; Quit := ["q"; "ctrl+c"];
     Help := ["?"]; Refresh := ["r"]; Search := ["/"]; Clear := ["c"];
     NextPanel := ["tab"]; PrevPanel := ["shift+tab"];
     Panel1 := ["1"]; Panel2 := ["2"]; Panel3 := ["3"]; Panel4 := ["4"];
     Namespace := ["n"]; ResourceType := ["t"];
     ToggleFollow := ["f"]; JumpToError := ["e"]; ToggleWrap := ["w"];
     ToggleAllEvents := ["a"];
     ToggleFullView := ["v"];
     PodActions := podActions; CopyCommands := copyCommands |}.

End Keys.

(** ** package components: the widgets *)

(** [components.HelpPanel] (declared in manifest.go) *)
Module HelpPanel.

Record t := {
  width : Z;
  height : Z;
  visible : bool
}.

Definition New : t := {| width := 0; height := 0; visible := false |}.

Definition SetSize (w h : Z) (p : t) : t :=
  {| width := w; height := h; visible := visible p |}.
Definition Toggle (p : t) : t :=
  {| width := width p; height := height p; visible := negb (visible p) |}.
Definition Show (p : t) : t :=
  {| width := width p; height := height p; visible := true |}.
Definition Hide (p : t) : t :=
  {| width := width p; height := height p; visible := false |}.
Definition IsVisible (p : t) : bool := visible p.

End HelpPanel.

Module Breadcrumb.

Record t := {
  items : list string;
  width : Z
}.

Definition New : t := {| items := []; width := 0 |}.
Definition SetItems (l : list string) (b : t) : t :=
  {| items := l; width := width b |}.
Definition SetWidth (w : Z) (b : t) : t :=
  {| items := items b; width := w |}.

End Breadcrumb.

Module StatusBar.

Record t := {
  context : string;
  namespace : string;
  resource : string;
  status : string;
  width : Z
}.

Definition New : t :=
  {| context := ""; namespace := ""; resource := ""; status := ""; width := 0 |}.
Definition SetWidth (w : Z) (s : t) : t :=
  {| context := context s; namespace := namespace s; resource := resource s;
     status := status s; width := w |}.

End StatusBar.

Module ConfirmDialog.

(** Modelled from the spec: [components.ConfirmDialog], whose declaration
    is not among the sources.  The spec makes it a modal widget that is
    visible or hidden and that is opened "carrying the action kind and
    target identity as an opaque payload"; the Dashboard calls
    [Show(title, message, action, data)] and [IsVisible()]. *)
Record t := {
  title : string;
  message : string;
  action : string;
  data : Tea.Payload;
  visible : bool
}.

Definition New : t :=
  {| title := ""; message := ""; action := ""; data := Tea.OtherPayload;
     visible := false |}.

Definition Show (ttl msg act : string) (d : Tea.Payload) (c : t) : t :=
  {| title := ttl; message := msg; action := act; data := d; visible := true |}.

Definition IsVisible (c : t) : bool := visible c.

End ConfirmDialog.

(** What the program takes from outside its own sources: the bubbles
    widgets (text input, viewport, spinner), the Go standard library, the
    clipboard, and the parts of package components that the Dashboard
    drives through their methods only. *)
Class Externals := {
  (** [strings.ToLower] *)
  ToLower : string -> string;
  (** the two bindings of [keys.DefaultKeyMap()] that the sources do not show *)
  key_PodActions : Keys.Binding;
  key_CopyCommands : Keys.Binding;
  (** [components.CopyToClipboard]: the error it reports, if any *)
  CopyToClipboard : string -> option string;
  (** bubbles/textinput *)
  TextInput : Type;
  ti_New : TextInput;
  ti_Value : TextInput -> string;
  ti_SetValue : string -> TextInput -> TextInput;
  ti_Focus : TextInput -> TextInput;
  ti_Update : Tea.Msg -> TextInput -> TextInput * option string;
  (** bubbles/viewport *)
  Viewport : Type;
  vp_zero : Viewport;
  vp_New : Z -> Z -> Viewport;
  vp_SetContent : string -> Viewport -> Viewport;
  vp_GotoTop : Viewport -> Viewport;
  vp_GotoBottom : Viewport -> Viewport;
  vp_Update : Tea.Msg -> Viewport -> Viewport * option string;
  (** bubbles/spinner *)
  Spinner : Type;
  sp_New : Spinner;
  sp_Update : Tea.Msg -> Spinner -> Spinner * option string;
  (** the four content panels; their commands are those of their viewport *)
  LogsPanel : Type;
  logs_New : LogsPanel;
  logs_Update : Tea.Msg -> LogsPanel -> LogsPanel * option string;
  logs_IsSearching : LogsPanel -> bool;
  logs_SelectedContainer : LogsPanel -> string;
  logs_SetLogs : list K8s.LogLine -> LogsPanel -> LogsPanel;
  logs_SetContainers : list string -> LogsPanel -> LogsPanel;
  EventsPanel : Type;
  events_New : EventsPanel;
  events_Update : Tea.Msg -> EventsPanel -> EventsPanel * option string;
  events_SetEvents : list K8s.EventInfo -> EventsPanel -> EventsPanel;
  MetricsPanel : Type;
  metrics_New : MetricsPanel;
  metrics_Update : Tea.Msg -> MetricsPanel -> MetricsPanel * option string;
  metrics_SetMetrics : option K8s.PodMetrics -> MetricsPanel -> MetricsPanel;
  metrics_SetPod : K8s.PodInfo -> MetricsPanel -> MetricsPanel;
  ManifestPanel : Type;
  manifest_New : ManifestPanel;
  manifest_Update : Tea.Msg -> ManifestPanel -> ManifestPanel * option string;
  manifest_SetPod : K8s.PodInfo -> ManifestPanel -> ManifestPanel;
  manifest_SetRelated : option K8s.RelatedResources -> ManifestPanel -> ManifestPanel;
  manifest_SetHelpers : list K8s.DebugHelper -> ManifestPanel -> ManifestPanel;
  (** [ConfirmDialog.Update]: the new dialog and, when it answers, the
      fields of the ConfirmResult its command yields *)
  confirm_Update : Tea.Msg -> ConfirmDialog.t ->
                   ConfirmDialog.t * option (bool * string * Tea.Payload)
}.

(** The command of a bubbles widget: nil or one of the library's own. *)
Definition lib_cmd (c : option string) : Tea.Cmd :=
  match c with
  | None => Tea.CmdNil
  | Some tag => Tea.CmdLib tag
  end.

Definition confirm_cmd (c : option (bool * string * Tea.Payload)) : Tea.Cmd :=
  match c with
  | None => Tea.CmdNil
  | Some (confirmed, action, data) =>
      Tea.CmdEmit (Tea.ConfirmResult confirmed action data)
  end.

(** The index selected by a one-character key '1'..'9'. *)
Definition shortcut_index (k : string) : option Z :=
  match k with
  | String c EmptyString =>
      let n := nat_of_ascii c in
      if (Nat.leb 49 n && Nat.leb n 57)%bool then Some (Z.of_nat (n - 49)) else None
  | _ => None
  end.

Module ResultViewer.
Section WithExternals.
Context `{E : Externals}.

Record t := {
  title : string;
  viewport : Viewport;
  visible : bool;
  ready : bool;
  width : Z;
  height : Z
}.

Definition New : t :=
  {| title := ""; viewport := vp_zero; visible := false; ready := false;
     width := 0; height := 0 |}.

Definition IsVisible (r : t) : bool := visible r.

Definition Hide (r : t) : t :=
  {| title := title r; viewport := viewport r; visible := false;
     ready := ready r; width := width r; height := height r |}.

Definition with_viewport (v : Viewport) (r : t) : t :=
  {| title := title r; viewport := v; visible := visible r;
     ready := ready r; width := width r; height := height r |}.

Definition Show (ttl content : string) (w h : Z) (r : t) : t :=
  let viewportHeight := Z.max (Go.sub h 6) 5 in
  let viewportWidth := Z.max (Go.sub w 6) 20 in
  {| title := ttl;
     viewport := vp_SetContent content (vp_New viewportWidth viewportHeight);
     visible := true; ready := true; width := w; height := h |}.

Definition Update (msg : Tea.Msg) (r : t) : t * Tea.Cmd :=
  if negb (visible r) then (r, Tea.CmdNil)
  else
    let forward :=
      let '(v, c) := vp_Update msg (viewport r) in
      (with_viewport v r, lib_cmd c) in
    match msg with
    | Tea.KeyMsg k =>
        if (k =? "esc")%string || (k =? "q")%string then (Hide r, Tea.CmdNil)
        else if (k =? "g")%string
             then (with_viewport (vp_GotoTop (viewport r)) r, Tea.CmdNil)
        else if (k =? "G")%string
             then (with_viewport (vp_GotoBottom (viewport r)) r, Tea.CmdNil)
        else forward
    | _ => forward
    end.

End WithExternals.
End ResultViewer.

(** [components.ActionMenu] (action_menu.go): the copy-command menu *)
Module ActionMenu.
Section WithExternals.
Context `{E : Externals}.

Record t := {
  title : string;
  items : list Tea.MenuItem;
  selected : Z;
  visible : bool
}.

Definition New : t :=
  {| title := ""; items := []; selected := 0; visible := false |}.

Definition with_selected (i : Z) (m : t) : t :=
  {| title := title m; items := items m; selected := i; visible := visible m |}.

Definition Hide (m : t) : t :=
  {| title := title m; items := items m; selected := selected m; visible := false |}.

Definition Show (ttl : string) (its : list Tea.MenuItem) (m : t) : t :=
  {| title := ttl; items := its; selected := 0; visible := true |}.

Definition IsVisible (m : t) : bool := visible m.

(** Copies [items[i]] and closes the menu. *)
Definition choose (i : Z) (m : t) : Go.outcome (t * Tea.Cmd * list Tea.Effect) :=
  item <- Go.index (items m) i ;;
  let err := CopyToClipboard (Tea.miValue item) in
  Go.Done (Hide m, Tea.CmdEmit (Tea.ActionMenuResult item true err),
           [Tea.EffClipboard (Tea.miValue item)]).

Definition Update (msg : Tea.Msg) (m : t)
  : Go.outcome (t * Tea.Cmd * list Tea.Effect) :=
  if negb (visible m) then Go.Done (m, Tea.CmdNil, [])
  else
    match msg with
    | Tea.KeyMsg k =>
        if (k =? "esc")%string || (k =? "q")%string then
          Go.Done (Hide m, Tea.CmdNil, [])
        else if (k =? "up")%string || (k =? "k")%string then
          Go.Done (if 0 <? selected m then with_selected (Go.sub (selected m) 1) m
                   else m, Tea.CmdNil, [])
        else if (k =? "down")%string || (k =? "j")%string then
          Go.Done (if selected m <? Go.sub (Go.len (items m)) 1
                   then with_selected (Go.add (selected m) 1) m
                   else m, Tea.CmdNil, [])
        else if (k =? "enter")%string then
          if (0 <=? selected m) && (selected m <? Go.len (items m))
          then choose (selected m) m
          else Go.Done (m, Tea.CmdNil, [])
        else
          match shortcut_index k with
          | Some idx =>
              if idx <? Go.len (items m) then choose idx m
              else Go.Done (m, Tea.CmdNil, [])
          | None => Go.Done (m, Tea.CmdNil, [])
          end
    | _ => Go.Done (m, Tea.CmdNil, [])
    end.

(** [KubectlCommands] *)
Definition item (label value : string) : Tea.MenuItem :=
  {| Tea.miLabel := label; Tea.miValue := value; Tea.miShortcut := "" |}.

Definition KubectlCommands (namespace podName containerName : string)
           (containers : list string) : Go.outcome (list Tea.MenuItem) :=
  let on := "-n " ++ namespace ++ " " ++ podName in
  let base :=
    [ item "Get pod logs" ("kubectl logs " ++ on);
      item "Get pod logs (follow)" ("kubectl logs " ++ on ++ " -f");
      item "Describe pod" ("kubectl describe pod " ++ on);
      item "Get pod YAML" ("kubectl get pod " ++ on ++ " -o yaml");
      item "Exec into pod (sh)" ("kubectl exec -it " ++ on ++ " -- sh");
      item "Exec into pod (bash)" ("kubectl exec -it " ++ on ++ " -- bash");
      item "Delete pod" ("kubectl delete pod " ++ on) ] in
  let items1 :=
    if (1 <? Go.len containers) && negb (containerName =? "")%string then
      ([ item ("Logs for container '" ++ containerName ++ "'")
              ("kubectl logs " ++ on ++ " -c " ++ containerName);
         item ("Exec into '" ++ containerName ++ "' (sh)")
              ("kubectl exec -it " ++ on ++ " -c " ++ containerName ++ " -- sh") ]
         ++ base)%list
    else base in
  if negb (containerName =? "")%string then
    Go.Done (items1 ++ [ item "Get previous container logs"
               ("kubectl logs " ++ on ++ " -c " ++ containerName ++ " --previous") ])%list
  else if 0 <? Go.len containers then
    c0 <- Go.index containers 0 ;;
    Go.Done (items1 ++ [ item "Get previous container logs"
               ("kubectl logs " ++ on ++ " -c " ++ c0 ++ " --previous") ])%list
  else Go.Done items1.

End WithExternals.
End ActionMenu.

(** [components.PodActionMenu] (action_menu.go) *)
Module PodActionMenu.

Record t := {
  title : string;
  items : list Tea.PodActionItem;
  selected : Z;
  visible : bool
}.

Definition New : t :=
  {| title := ""; items := []; selected := 0; visible := false |}.

Definition with_selected (i : Z) (m : t) : t :=
  {| title := title m; items := items m; selected := i; visible := visible m |}.

Definition Hide (m : t) : t :=
  {| title := title m; items := items m; selected := selected m; visible := false |}.

Definition Show (ttl : string) (its : list Tea.PodActionItem) (m : t) : t :=
  {| title := ttl; items := its; selected := 0; visible := true |}.

Definition IsVisible (m : t) : bool := visible m.

(** Reports [items[i]] as the chosen action and closes the menu. *)
Definition choose (i : Z) (m : t) : Go.outcome (t * Tea.Cmd) :=
  item <- Go.index (items m) i ;;
  Go.Done (Hide m, Tea.CmdEmit (Tea.PodActionMenuResult item)).

Definition Update (msg : Tea.Msg) (m : t) : Go.outcome (t * Tea.Cmd) :=
  if negb (visible m) then Go.Done (m, Tea.CmdNil)
  else
    match msg with
    | Tea.KeyMsg k =>
        if (k =? "esc")%string || (k =? "q")%string then
          Go.Done (Hide m, Tea.CmdNil)
        else if (k =? "up")%string || (k =? "k")%string then
          Go.Done (if 0 <? selected m then with_selected (Go.sub (selected m) 1) m
                   else m, Tea.CmdNil)
        else if (k =? "down")%string || (k =? "j")%string then
          Go.Done (if selected m <? Go.sub (Go.len (items m)) 1
                   then with_selected (Go.add (selected m) 1) m
                   else m, Tea.CmdNil)
        else if (k =? "enter")%string then
          if (0 <=? selected m) && (selected m <? Go.len (items m))
          then choose (selected m) m
          else Go.Done (m, Tea.CmdNil)
        else
          match shortcut_index k with
          | Some idx =>
              if idx <? Go.len (items m) then choose idx m
              else Go.Done (m, Tea.CmdNil)
          | None => Go.Done (m, Tea.CmdNil)
          end
    | _ => Go.Done (m, Tea.CmdNil)
    end.

Definition action (label description act command : string) : Tea.PodActionItem :=
  {| Tea.Label := label; Tea.Description := description;
     Tea.Action := act; Tea.Command := command |}.

(** [PodActions] *)
Definition PodActions (namespace podName : string) (containers : list string)
  : list Tea.PodActionItem :=
  let on := "-n " ++ namespace ++ " " ++ podName in
  let execs :=
    if Go.len containers =? 1 then
      [ action "Exec (sh)" "opens shell in terminal" "exec"
               ("kubectl exec -it " ++ on ++ " -- sh");
        action "Exec (bash)" "opens shell in terminal" "exec"
               ("kubectl exec -it " ++ on ++ " -- bash") ]
    else if 1 <? Go.len containers then
      map (fun container =>
             action ("Exec into '" ++ container ++ "' (sh)")
                    "opens shell in terminal" "exec"
                    ("kubectl exec -it " ++ on ++ " -c " ++ container ++ " -- sh"))
          containers
    else [] in
  ([ action "Delete Pod" "(requires confirmation)" "delete"
            ("kubectl delete pod " ++ on) ]
   ++ execs
   ++ [ action "Port Forward :8080" "runs in terminal, Ctrl+C to stop" "port-forward"
               ("kubectl port-forward " ++ on ++ " 8080:8080");
        action "Describe Pod" "shows pod details" "describe"
               ("kubectl describe pod " ++ on);
        action "Copy logs command" "to clipboard" "copy"
               ("kubectl logs " ++ on ++ " -f") ])%list.

End PodActionMenu.

(** [components.Navigator] (navigator.go) *)
Module Navigator.

Inductive NavigatorMode : Type :=
| ModeWorkloads
| ModePods
| ModeNamespace
| ModeResourceType.

Record VisibleRange := {
  start : Z;
  end_ : Z
}.

Section WithExternals.
Context `{E : Externals}.

Record t := {
  workloads : list K8s.WorkloadInfo;
  pods : list K8s.PodInfo;
  namespaces : list string;
  cursor : Z;
  mode : NavigatorMode;
  width : Z;
  height : Z;
  searchInput : TextInput;
  searching : bool;
  searchQuery : string;
  resourceType : K8s.ResourceType;
  keys : Keys.KeyMap
}.

Definition NewNavigator : t :=
  {| workloads := []; pods := []; namespaces := []; cursor := 0;
     mode := ModeWorkloads; width := 0; height := 0;
     searchInput := ti_New; searching := false; searchQuery := "";
     resourceType := K8s.ResourceDeployments;
     keys := Keys.DefaultKeyMap key_PodActions key_CopyCommands |}.

Definition with_workloads (x : list K8s.WorkloadInfo) (n : t) : t :=
  {| workloads := x; pods := pods n; namespaces := namespaces n; cursor := cursor n;
     mode := mode n; width := width n; height := height n;
     searchInput := searchInput n; searching := searching n;
     searchQuery := searchQuery n; resourceType := resourceType n; keys := keys n |}.

Definition with_pods (x : list K8s.PodInfo) (n : t) : t :=
  {| workloads := workloads n; pods := x; namespaces := namespaces n;
     cursor := cursor n; mode := mode n; width := width n; height := height n;
     searchInput := searchInput n; searching := searching n;
     searchQuery := searchQuery n; resourceType := resourceType n; keys := keys n |}.

Definition with_namespaces (x : list string) (n : t) : t :=
  {| workloads := workloads n; pods := pods n; namespaces := x; cursor := cursor n;
     mode := mode n; width := width n; height := height n;
     searchInput := searchInput n; searching := searching n;
     searchQuery := searchQuery n; resourceType := resourceType n; keys := keys n |}.

Definition with_cursor (x : Z) (n : t) : t :=
  {| workloads := workloads n; pods := pods n; namespaces := namespaces n;
     cursor := x; mode := mode n; width := width n; height := height n;
     searchInput := searchInput n; searching := searching n;
     searchQuery := searchQuery n; resourceType := resourceType n; keys := keys n |}.

Definition with_mode (x : NavigatorMode) (n : t) : t :=
  {| workloads := workloads n; pods := pods n; namespaces := namespaces n;
     cursor := cursor n; mode := x; width := width n; height := height n;
     searchInput := searchInput n; searching := searching n;
     searchQuery := searchQuery n; resourceType := resourceType n; keys := keys n |}.

Definition with_width (x : Z) (n : t) : t :=
  {| workloads := workloads n; pods := pods n; namespaces := namespaces n;
     cursor := cursor n; mode := mode n; width := x; height := height n;
     searchInput := searchInput n; searching := searching n;
     searchQuery := searchQuery n; resourceType := resourceType n; keys := keys n |}.

Definition with_height (x : Z) (n : t) : t :=
  {| workloads := workloads n; pods := pods n; namespaces := namespaces n;
     cursor := cursor n; mode := mode n; width := width n; height := x;
     searchInput := searchInput n; searching := searching n;
     searchQuery := searchQuery n; resourceType := resourceType n; keys := keys n |}.

Definition with_searchInput (x : TextInput) (n : t) : t :=
  {| workloads := workloads n; pods := pods n; namespaces := namespaces n;
     cursor := cursor n; mode := mode n; width := width n; height := height n;
     searchInput := x; searching := searching n; searchQuery := searchQuery n;
     resourceType := resourceType n; keys := keys n |}.

Definition with_searching (x : bool) (n : t) : t :=
  {| workloads := workloads n; pods := pods n; namespaces := namespaces n;
     cursor := cursor n; mode := mode n; width := width n; height := height n;
     searchInput := searchInput n; searching := x; searchQuery := searchQuery n;
     resourceType := resourceType n; keys := keys n |}.

Definition with_searchQuery (x : string) (n : t) : t :=
  {| workloads := workloads n; pods := pods n; namespaces := namespaces n;
     cursor := cursor n; mode := mode n; width := width n; height := height n;
     searchInput := searchInput n; searching := searching n; searchQuery := x;
     resourceType := resourceType n; keys := keys n |}.

Definition with_resourceType (x : K8s.ResourceType) (n : t) : t :=
  {| workloads := workloads n; pods := pods n; namespaces := namespaces n;
     cursor := cursor n; mode := mode n; width := width n; height := height n;
     searchInput := searchInput n; searching := searching n;
     searchQuery := searchQuery n; resourceType := x; keys := keys n |}.

Definition filteredWorkloads (n : t) : list K8s.WorkloadInfo :=
  if (searchQuery n =? "")%string then workloads n
  else
    let query := ToLower (searchQuery n) in
    filter (fun w => Go.Contains (ToLower (K8s.wName w)) query
                     || Go.Contains (ToLower (K8s.wStatus w)) query)
           (workloads n).

Definition filteredPods (n : t) : list K8s.PodInfo :=
  if (searchQuery n =? "")%string then pods n
  else
    let query := ToLower (searchQuery n) in
    filter (fun p => Go.Contains (ToLower (K8s.pName p)) query
                     || Go.Contains (ToLower (K8s.pStatus p)) query
                     || Go.Contains (ToLower (K8s.pNode p)) query)
           (pods n).

Definition filteredNamespaces (n : t) : list string :=
  if (searchQuery n =? "")%string then namespaces n
  else
    let query := ToLower (searchQuery n) in
    filter (fun ns => Go.Contains (ToLower ns) query) (namespaces n).

Definition maxItems (n : t) : Z :=
  match mode n with
  | ModeWorkloads => Go.len (filteredWorkloads n)
  | ModePods => Go.len (filteredPods n)
  | ModeNamespace => Go.len (filteredNamespaces n)
  | ModeResourceType => Go.len K8s.AllResourceTypes
  end.

Definition moveUp (n : t) : t :=
  if 0 <? cursor n then with_cursor (Go.sub (cursor n) 1) n else n.

Definition moveDown (n : t) : t :=
  let max := Go.sub (maxItems n) 1 in
  if cursor n <? max then with_cursor (Go.add (cursor n) 1) n else n.

Definition pageUp (n : t) : t :=
  let c := Go.sub (cursor n) 10 in
  with_cursor (if c <? 0 then 0 else c) n.

Definition pageDown (n : t) : t :=
  let max := Go.sub (maxItems n) 1 in
  let c := Go.add (cursor n) 10 in
  let c := if max <? c then max else c in
  with_cursor (if c <? 0 then 0 else c) n.

Definition visibleRange (total : Z) (n : t) : VisibleRange :=
  let maxVisible := Go.sub (height n) 8 in
  let maxVisible := if maxVisible <? 5 then 15 else maxVisible in
  if maxVisible <? total then
    let start0 := Go.sub (cursor n) (Go.div maxVisible 2) in
    let start0 := if start0 <? 0 then 0 else start0 in
    let end0 := Go.add start0 maxVisible in
    if total <? end0 then
      let start1 := Go.sub total maxVisible in
      {| start := if start1 <? 0 then 0 else start1; end_ := total |}
    else {| start := start0; end_ := end0 |}
  else {| start := 0; end_ := total |}.

Definition SetWorkloads (ws : list K8s.WorkloadInfo) (n : t) : t :=
  let n := with_workloads ws n in
  if Go.len (filteredWorkloads n) <=? cursor n then with_cursor 0 n else n.

Definition SetPods (ps : list K8s.PodInfo) (n : t) : t :=
  with_cursor 0 (with_pods ps n).

Definition SetNamespaces (nss : list string) (n : t) : t :=
  with_namespaces nss n.

Definition SetResourceType (rt : K8s.ResourceType) (n : t) : t :=
  with_resourceType rt n.

Definition ClearSearch (n : t) : t :=
  with_cursor 0
    (with_searching false
       (with_searchInput (ti_SetValue "" (searchInput n))
          (with_searchQuery "" n))).

Definition CloseSearch (n : t) : t :=
  with_searchQuery (ti_Value (searchInput n)) (with_searching false n).

Definition SetMode (m : NavigatorMode) (n : t) : t :=
  ClearSearch (with_cursor 0 (with_mode m n)).

Definition SetSize (w h : Z) (n : t) : t :=
  with_height h (with_width w n).

Definition Mode (n : t) : NavigatorMode := mode n.
Definition IsSearching (n : t) : bool := searching n.
Definition HasFilter (n : t) : bool := negb (searchQuery n =? "")%string.
Definition ResourceType (n : t) : K8s.ResourceType := resourceType n.

Definition Update (msg : Tea.Msg) (n : t) : t * Tea.Cmd :=
  match msg with
  | Tea.KeyMsg k =>
      if searching n then
        if (k =? "enter")%string || (k =? "esc")%string then
          (with_cursor 0
             (with_searchQuery (ti_Value (searchInput n))
                (with_searching false n)),
           Tea.CmdNil)
        else
          let '(ti, c) := ti_Update msg (searchInput n) in
          (with_cursor 0 (with_searchQuery (ti_Value ti) (with_searchInput ti n)),
           lib_cmd c)
      else if Keys.Matches k (Keys.Up (keys n)) then (moveUp n, Tea.CmdNil)
      else if Keys.Matches k (Keys.Down (keys n)) then (moveDown n, Tea.CmdNil)
      else if Keys.Matches k (Keys.Home (keys n)) then (with_cursor 0 n, Tea.CmdNil)
      else if Keys.Matches k (Keys.End_ (keys n)) then
        let c := Go.sub (maxItems n) 1 in
        (with_cursor (if c <? 0 then 0 else c) n, Tea.CmdNil)
      else if Keys.Matches k (Keys.PageUp (keys n)) then (pageUp n, Tea.CmdNil)
      else if Keys.Matches k (Keys.PageDown (keys n)) then (pageDown n, Tea.CmdNil)
      else if Keys.Matches k (Keys.Search (keys n)) then
        (with_searchInput (ti_Focus (ti_SetValue (searchQuery n) (searchInput n)))
           (with_searching true n),
         Tea.CmdLib "textinput.Blink")
      else if Keys.Matches k (Keys.Clear (keys n)) then (ClearSearch n, Tea.CmdNil)
      else (n, Tea.CmdNil)
  | _ => (n, Tea.CmdNil)
  end.

Definition SelectedWorkload (n : t) : Go.outcome (option K8s.WorkloadInfo) :=
  let workloads := filteredWorkloads n in
  if (0 <=? cursor n) && (cursor n <? Go.len workloads) then
    w <- Go.index workloads (cursor n) ;; Go.Done (Some w)
  else Go.Done None.

Definition SelectedPod (n : t) : Go.outcome (option K8s.PodInfo) :=
  let pods := filteredPods n in
  if (0 <=? cursor n) && (cursor n <? Go.len pods) then
    p <- Go.index pods (cursor n) ;; Go.Done (Some p)
  else Go.Done None.

Definition SelectedNamespace (n : t) : Go.outcome string :=
  let namespaces := filteredNamespaces n in
  if (0 <=? cursor n) && (cursor n <? Go.len namespaces) then
    Go.index namespaces (cursor n)
  else Go.Done "".

Definition SelectedResourceType (n : t) : Go.outcome K8s.ResourceType :=
  if (0 <=? cursor n) && (cursor n <? Go.len K8s.AllResourceTypes) then
    Go.index K8s.AllResourceTypes (cursor n)
  else Go.Done K8s.ResourceDeployments.

(** The collection the cursor addresses in the current mode, by length. *)
Definition cursor_ok (n : t) : Prop :=
  (0 < maxItems n -> 0 <= cursor n <= maxItems n - 1)
  /\ (maxItems n = 0 -> cursor n = 0).

End WithExternals.
End Navigator.

(** [views.Dashboard] *)
Module Dashboard.

(** [PanelFocus] is an [int]; the four named values are 0..3. *)
Definition FocusLogs : Z := 0.
Definition FocusEvents : Z := 1.
Definition FocusMetrics : Z := 2.
Definition FocusManifest : Z := 3.

Section WithExternals.
Context `{E : Externals}.

Record t := {
  pod : option K8s.PodInfo;
  logs : LogsPanel;
  events : EventsPanel;
  metrics : MetricsPanel;
  manifest : ManifestPanel;
  breadcrumb : Breadcrumb.t;
  help : HelpPanel.t;
  actionMenu : ActionMenu.t;
  podActionMenu : PodActionMenu.t;
  confirmDialog : ConfirmDialog.t;
  resultViewer : ResultViewer.t;
  focus : Z;
  fullscreen : bool;
  width : Z;
  height : Z;
  keys : Keys.KeyMap;
  statusMsg : string;
  namespace : string;
  context : string;
  pendingAction : option Tea.PodActionItem
}.

Definition NewDashboard : t :=
  {| pod := None; logs := logs_New; events := events_New; metrics := metrics_New;
     manifest := manifest_New; breadcrumb := Breadcrumb.New; help := HelpPanel.New;
     actionMenu := ActionMenu.New; podActionMenu := PodActionMenu.New;
     confirmDialog := ConfirmDialog.New; resultViewer := ResultViewer.New;
     focus := FocusLogs; fullscreen := false; width := 0; height := 0;
     keys := Keys.DefaultKeyMap key_PodActions key_CopyCommands;
     statusMsg := ""; namespace := ""; context := ""; pendingAction := None |}.

Definition with_pod (x : option K8s.PodInfo) (d : t) : t :=
  {| pod := x; logs := logs d; events := events d; metrics := metrics d;
     manifest := manifest d; breadcrumb := breadcrumb d; help := help d;
     actionMenu := actionMenu d; podActionMenu := podActionMenu d;
     confirmDialog := confirmDialog d; resultViewer := resultViewer d;
     focus := focus d; fullscreen := fullscreen d; width := width d;
     height := height d; keys := keys d; statusMsg := statusMsg d;
     namespace := namespace d; context := context d;
     pendingAction := pendingAction d |}.

Definition with_logs (x : LogsPanel) (d : t) : t :=
  {| pod := pod d; logs := x; events := events d; metrics := metrics d;
     manifest := manifest d; breadcrumb := breadcrumb d; help := help d;
     actionMenu := actionMenu d; podActionMenu := podActionMenu d;
     confirmDialog := confirmDialog d; resultViewer := resultViewer d;
     focus := focus d; fullscreen := fullscreen d; width := width d;
     height := height d; keys := keys d; statusMsg := statusMsg d;
     namespace := namespace d; context := context d;
     pendingAction := pendingAction d |}.

Definition with_events (x : EventsPanel) (d : t) : t :=
  {| pod := pod d; logs := logs d; events := x; metrics := metrics d;
     manifest := manifest d; breadcrumb := breadcrumb d; help := help d;
     actionMenu := actionMenu d; podActionMenu := podActionMenu d;
     confirmDialog := confirmDialog d; resultViewer := resultViewer d;
     focus := focus d; fullscreen := fullscreen d; width := width d;
     height := height d; keys := keys d; statusMsg := statusMsg d;
     namespace := namespace d; context := context d;
     pendingAction := pendingAction d |}.

Definition with_metrics (x : MetricsPanel) (d : t) : t :=
  {| pod := pod d; logs := logs d; events := events d; metrics := x;
     manifest := manifest d; breadcrumb := breadcrumb d; help := help d;
     actionMenu := actionMenu d; podActionMenu := podActionMenu d;
     confirmDialog := confirmDialog d; resultViewer := resultViewer d;
     focus := focus d; fullscreen := fullscreen d; width := width d;
     height := height d; keys := keys d; statusMsg := statusMsg d;
     namespace := namespace d; context := context d;
     pendingAction := pendingAction d |}.

Definition with_manifest (x : ManifestPanel) (d : t) : t :=
  {| pod := pod d; logs := logs d; events := events d; metrics := metrics d;
     manifest := x; breadcrumb := breadcrumb d; help := help d;
     actionMenu := actionMenu d; podActionMenu := podActionMenu d;
     confirmDialog := confirmDialog d; resultViewer := resultViewer d;
     focus := focus d; fullscreen := fullscreen d; width := width d;
     height := height d; keys := keys d; statusMsg := statusMsg d;
     namespace := namespace d; context := context d;
     pendingAction := pendingAction d |}.

Definition with_breadcrumb (x : Breadcrumb.t) (d : t) : t :=
  {| pod := pod d; logs := logs d; events := events d; metrics := metrics d;
     manifest := manifest d; breadcrumb := x; help := help d;
     actionMenu := actionMenu d; podActionMenu := podActionMenu d;
     confirmDialog := confirmDialog d; resultViewer := resultViewer d;
     focus := focus d; fullscreen := fullscreen d; width := width d;
     height := height d; keys := keys d; statusMsg := statusMsg d;
     namespace := namespace d; context := context d;
     pendingAction := pendingAction d |}.

Definition with_help (x : HelpPanel.t) (d : t) : t :=
  {| pod := pod d; logs := logs d; events := events d; metrics := metrics d;
     manifest := manifest d; breadcrumb := breadcrumb d; help := x;
     actionMenu := actionMenu d; podActionMenu := podActionMenu d;
     confirmDialog := confirmDialog d; resultViewer := resultViewer d;
     focus := focus d; fullscreen := fullscreen d; width := width d;
     height := height d; keys := keys d; statusMsg := statusMsg d;
     namespace := namespace d; context := context d;
     pendingAction := pendingAction d |}.

Definition with_actionMenu (x : ActionMenu.t) (d : t) : t :=
  {| pod := pod d; logs := logs d; events := events d; metrics := metrics d;
     manifest := manifest d; breadcrumb := breadcrumb d; help := help d;
     actionMenu := x; podActionMenu := podActionMenu d;
     confirmDialog := confirmDialog d; resultViewer := resultViewer d;
     focus := focus d; fullscreen := fullscreen d; width := width d;
     height := height d; keys := keys d; statusMsg := statusMsg d;
     namespace := namespace d; context := context d;
     pendingAction := pendingAction d |}.

Definition with_podActionMenu (x : PodActionMenu.t) (d : t) : t :=
  {| pod := pod d; logs := logs d; events := events d; metrics := metrics d;
     manifest := manifest d; breadcrumb := breadcrumb d; help := help d;
     actionMenu := actionMenu d; podActionMenu := x;
     confirmDialog := confirmDialog d; resultViewer := resultViewer d;
     focus := focus d; fullscreen := fullscreen d; width := width d;
     height := height d; keys := keys d; statusMsg := statusMsg d;
     namespace := namespace d; context := context d;
     pendingAction := pendingAction d |}.

Definition with_confirmDialog (x : ConfirmDialog.t) (d : t) : t :=
  {| pod := pod d; logs := logs d; events := events d; metrics := metrics d;
     manifest := manifest d; breadcrumb := breadcrumb d; help := help d;
     actionMenu := actionMenu d; podActionMenu := podActionMenu d;
     confirmDialog := x; resultViewer := resultViewer d; focus := focus d;
     fullscreen := fullscreen d; width := width d; height := height d;
     keys := keys d; statusMsg := statusMsg d; namespace := namespace d;
     context := context d; pendingAction := pendingAction d |}.

Definition with_resultViewer (x : ResultViewer.t) (d : t) : t :=
  {| pod := pod d; logs := logs d; events := events d; metrics := metrics d;
     manifest := manifest d; breadcrumb := breadcrumb d; help := help d;
     actionMenu := actionMenu d; podActionMenu := podActionMenu d;
     confirmDialog := confirmDialog d; resultViewer := x; focus := focus d;
     fullscreen := fullscreen d; width := width d; height := height d;
     keys := keys d; statusMsg := statusMsg d; namespace := namespace d;
     context := context d; pendingAction := pendingAction d |}.

Definition with_focus (x : Z) (d : t) : t :=
  {| pod := pod d; logs := logs d; events := events d; metrics := metrics d;
     manifest := manifest d; breadcrumb := breadcrumb d; help := help d;
     actionMenu := actionMenu d; podActionMenu := podActionMenu d;
     confirmDialog := confirmDialog d; resultViewer := resultViewer d; focus := x;
     fullscreen := fullscreen d; width := width d; height := height d;
     keys := keys d; statusMsg := statusMsg d; namespace := namespace d;
     context := context d; pendingAction := pendingAction d |}.

Definition with_fullscreen (x : bool) (d : t) : t :=
  {| pod := pod d; logs := logs d; events := events d; metrics := metrics d;
     manifest := manifest d; breadcrumb := breadcrumb d; help := help d;
     actionMenu := actionMenu d; podActionMenu := podActionMenu d;
     confirmDialog := confirmDialog d; resultViewer := resultViewer d;
     focus := focus d; fullscreen := x; width := width d; height := height d;
     keys := keys d; statusMsg := statusMsg d; namespace := namespace d;
     context := context d; pendingAction := pendingAction d |}.

Definition with_width (x : Z) (d : t) : t :=
  {| pod := pod d; logs := logs d; events := events d; metrics := metrics d;
     manifest := manifest d; breadcrumb := breadcrumb d; help := help d;
     actionMenu := actionMenu d; podActionMenu := podActionMenu d;
     confirmDialog := confirmDialog d; resultViewer := resultViewer d;
     focus := focus d; fullscreen := fullscreen d; width := x; height := height d;
     keys := keys d; statusMsg := statusMsg d; namespace := namespace d;
     context := context d; pendingAction := pendingAction d |}.

Definition with_height (x : Z) (d : t) : t :=
  {| pod := pod d; logs := logs d; events := events d; metrics := metrics d;
     manifest := manifest d; breadcrumb := breadcrumb d; help := help d;
     actionMenu := actionMenu d; podActionMenu := podActionMenu d;
     confirmDialog := confirmDialog d; resultViewer := resultViewer d;
     focus := focus d; fullscreen := fullscreen d; width := width d; height := x;
     keys := keys d; statusMsg := statusMsg d; namespace := namespace d;
     context := context d; pendingAction := pendingAction d |}.

Definition with_statusMsg (x : string) (d : t) : t :=
  {| pod := pod d; logs := logs d; events := events d; metrics := metrics d;
     manifest := manifest d; breadcrumb := breadcrumb d; help := help d;
     actionMenu := actionMenu d; podActionMenu := podActionMenu d;
     confirmDialog := confirmDialog d; resultViewer := resultViewer d;
     focus := focus d; fullscreen := fullscreen d; width := width d;
     height := height d; keys := keys d; statusMsg := x; namespace := namespace d;
     context := context d; pendingAction := pendingAction d |}.

Definition with_namespace (x : string) (d : t) : t :=
  {| pod := pod d; logs := logs d; events := events d; metrics := metrics d;
     manifest := manifest d; breadcrumb := breadcrumb d; help := help d;
     actionMenu := actionMenu d; podActionMenu := podActionMenu d;
     confirmDialog := confirmDialog d; resultViewer := resultViewer d;
     focus := focus d; fullscreen := fullscreen d; width := width d;
     height := height d; keys := keys d; statusMsg := statusMsg d; namespace := x;
     context := context d; pendingAction := pendingAction d |}.

Definition with_context (x : string) (d : t) : t :=
  {| pod := pod d; logs := logs d; events := events d; metrics := metrics d;
     manifest := manifest d; breadcrumb := breadcrumb d; help := help d;
     actionMenu := actionMenu d; podActionMenu := podActionMenu d;
     confirmDialog := confirmDialog d; resultViewer := resultViewer d;
     focus := focus d; fullscreen := fullscreen d; width := width d;
     height := height d; keys := keys d; statusMsg := statusMsg d;
     namespace := namespace d; context := x; pendingAction := pendingAction d |}.

Definition with_pendingAction (x : option Tea.PodActionItem) (d : t) : t :=
  {| pod := pod d; logs := logs d; events := events d; metrics := metrics d;
     manifest := manifest d; breadcrumb := breadcrumb d; help := help d;
     actionMenu := actionMenu d; podActionMenu := podActionMenu d;
     confirmDialog := confirmDialog d; resultViewer := resultViewer d;
     focus := focus d; fullscreen := fullscreen d; width := width d;
     height := height d; keys := keys d; statusMsg := statusMsg d;
     namespace := namespace d; context := context d; pendingAction := x |}.

Definition nextPanel (d : t) : t :=
  with_focus (Go.rem (Go.add (focus d) 1) 4) d.

Definition prevPanel (d : t) : t :=
  with_focus (Go.rem (Go.add (focus d) 3) 4) d.

(** [d.pod.Name]: dereferencing a nil [d.pod] panics. *)
Definition podName (d : t) : Go.outcome string :=
  match pod d with
  | Some p => Go.Done (K8s.pName p)
  | None => Go.Panic
  end.

Definition containerNames (p : K8s.PodInfo) : list string :=
  map K8s.cName (K8s.pContainers p).

(** The last [switch d.focus] of [Update]: the focused panel gets [msg]. *)
Definition toFocusedPanel (msg : Tea.Msg) (d : t) : t * Tea.Cmd :=
  if focus d =? FocusLogs then
    let '(l, c) := logs_Update msg (logs d) in
    (with_logs l d, Tea.CmdBatch [lib_cmd c])
  else if focus d =? FocusEvents then
    let '(e, c) := events_Update msg (events d) in
    (with_events e d, Tea.CmdBatch [lib_cmd c])
  else if focus d =? FocusMetrics then
    let '(m, c) := metrics_Update msg (metrics d) in
    (with_metrics m d, Tea.CmdBatch [lib_cmd c])
  else if focus d =? FocusManifest then
    let '(m, c) := manifest_Update msg (manifest d) in
    (with_manifest m d, Tea.CmdBatch [lib_cmd c])
  else (d, Tea.CmdBatch []).

(** The [PodActionMenuResult] branch of [Update]. *)
Definition onPodAction (item : Tea.PodActionItem) (d : t)
  : Go.outcome (t * Tea.Cmd * list Tea.Effect) :=
  let act := Tea.Action item in
  if (act =? "delete")%string then
    name <- podName d ;;
    Go.Done (with_confirmDialog
               (ConfirmDialog.Show "Delete Pod"
                  ("Are you sure you want to delete pod '" ++ name ++ "'?")
                  "delete" (Tea.PodPtr (pod d)) (confirmDialog d)) d,
             Tea.CmdNil, [])
  else if (act =? "exec")%string then
    let d := with_pendingAction (Some item) d in
    name <- podName d ;;
    Go.Done (with_confirmDialog
               (ConfirmDialog.Show "Exec into Pod"
                  ("Open shell in '" ++ name
                   ++ "'?" ++ Go.nl
                   ++ "This will suspend the UI until you exit the shell.")
                  "exec" (Tea.PodPtr (pod d)) (confirmDialog d)) d,
             Tea.CmdNil, [])
  else if (act =? "port-forward")%string then
    let d := with_pendingAction (Some item) d in
    name <- podName d ;;
    Go.Done (with_confirmDialog
               (ConfirmDialog.Show "Port Forward"
                  ("Start port forwarding for '" ++ name
                   ++ "'?" ++ Go.nl
                   ++ "Press Ctrl+C in terminal to stop and return.")
                  "port-forward" (Tea.PodPtr (pod d)) (confirmDialog d)) d,
             Tea.CmdNil, [])
  else if (act =? "describe")%string then
    let d := with_statusMsg "Loading describe..." d in
    name <- podName d ;;
    Go.Done (d, Tea.CmdDescribe (Tea.Command item) name, [])
  else if (act =? "copy")%string then
    let status :=
      match CopyToClipboard (Tea.Command item) with
      | None => "Copied: " ++ Tea.Label item
      | Some e => "Copy failed: " ++ e
      end in
    Go.Done (with_statusMsg status d, Tea.CmdNil,
             [Tea.EffClipboard (Tea.Command item)])
  else Go.Done (d, Tea.CmdNil, []).

(** The [ConfirmResult] branch of [Update]. *)
Definition onConfirmResult (confirmed : bool) (action : string)
           (data : Tea.Payload) (d : t) : t * Tea.Cmd :=
  if confirmed then
    if (action =? "delete")%string then
      match data with
      | Tea.PodPtr p =>
          (with_statusMsg "Deleting pod..." d, Tea.CmdDeletePodRequest p)
      | Tea.OtherPayload => (d, Tea.CmdNil)
      end
    else if (action =? "exec")%string || (action =? "port-forward")%string then
      match pendingAction d with
      | Some a => (with_pendingAction None d, Tea.CmdExecProcess (Tea.Command a))
      | None => (d, Tea.CmdNil)
      end
    else (d, Tea.CmdNil)
  else (with_pendingAction None d, Tea.CmdNil).

(** The key bindings of the Dashboard itself, tried once no overlay is
    visible and the logs panel is not searching. *)
Definition onKey (k : string) (d : t) : Go.outcome (t * Tea.Cmd * list Tea.Effect) :=
  let d := with_statusMsg "" d in
  if Keys.Matches k (Keys.PodActions (keys d)) then
    match pod d with
    | Some p =>
        let items := PodActionMenu.PodActions (namespace d) (K8s.pName p)
                                              (containerNames p) in
        Go.Done (with_podActionMenu
                   (PodActionMenu.Show "Pod Actions" items (podActionMenu d)) d,
                 Tea.CmdNil, [])
    | None => Go.Done (d, Tea.CmdNil, [])
    end
  else if Keys.Matches k (Keys.CopyCommands (keys d)) then
    match pod d with
    | Some p =>
        items <- ActionMenu.KubectlCommands (namespace d) (K8s.pName p)
                   (logs_SelectedContainer (logs d)) (containerNames p) ;;
        Go.Done (with_actionMenu
                   (ActionMenu.Show "Copy kubectl command" items (actionMenu d)) d,
                 Tea.CmdNil, [])
    | None => Go.Done (d, Tea.CmdNil, [])
    end
  else if Keys.Matches k (Keys.Help (keys d)) then
    Go.Done (with_help (HelpPanel.Toggle (help d)) d, Tea.CmdNil, [])
  else if Keys.Matches k (Keys.NextPanel (keys d)) then
    Go.Done (nextPanel d, Tea.CmdNil, [])
  else if Keys.Matches k (Keys.PrevPanel (keys d)) then
    Go.Done (prevPanel d, Tea.CmdNil, [])
  else if Keys.Matches k (Keys.Panel1 (keys d)) then
    Go.Done (with_focus FocusLogs d, Tea.CmdNil, [])
  else if Keys.Matches k (Keys.Panel2 (keys d)) then
    Go.Done (with_focus FocusEvents d, Tea.CmdNil, [])
  else if Keys.Matches k (Keys.Panel3 (keys d)) then
    Go.Done (with_focus FocusMetrics d, Tea.CmdNil, [])
  else if Keys.Matches k (Keys.Panel4 (keys d)) then
    Go.Done (with_focus FocusManifest d, Tea.CmdNil, [])
  else if Keys.Matches k (Keys.ToggleFullView (keys d)) then
    Go.Done (with_fullscreen (negb (fullscreen d)) d, Tea.CmdNil, [])
  else
    let '(d', c) := toFocusedPanel (Tea.KeyMsg k) d in
    Go.Done (d', c, []).

Definition Update (msg : Tea.Msg) (d : t)
  : Go.outcome (t * Tea.Cmd * list Tea.Effect) :=
  match msg with
  | Tea.ExecFinishedMsg err =>
      let status :=
        match err with
        | Some e => "Command failed: " ++ e
        | None => "Command completed"
        end in
      Go.Done (with_statusMsg status d, Tea.CmdNil, [])
  | Tea.DescribeOutputMsg title content err =>
      match err with
      | Some e => Go.Done (with_statusMsg ("Describe failed: " ++ e) d, Tea.CmdNil, [])
      | None =>
          Go.Done (with_resultViewer
                     (ResultViewer.Show title content (Go.sub (width d) 4)
                        (Go.sub (height d) 4) (resultViewer d)) d,
                   Tea.CmdNil, [])
      end
  | Tea.ActionMenuResult item copied err =>
      match err with
      | None =>
          if copied
          then Go.Done (with_statusMsg ("Copied: " ++ Tea.miLabel item) d,
                        Tea.CmdNil, [])
          else Go.Done (d, Tea.CmdNil, [])
      | Some e => Go.Done (with_statusMsg ("Copy failed: " ++ e) d, Tea.CmdNil, [])
      end
  | Tea.PodActionMenuResult item => onPodAction item d
  | Tea.ConfirmResult confirmed action data =>
      let '(d', c) := onConfirmResult confirmed action data d in
      Go.Done (d', c, [])
  | Tea.KeyMsg k =>
      if ConfirmDialog.IsVisible (confirmDialog d) then
        let '(cd, c) := confirm_Update msg (confirmDialog d) in
        Go.Done (with_confirmDialog cd d, confirm_cmd c, [])
      else if ResultViewer.IsVisible (resultViewer d) then
        let '(rv, c) := ResultViewer.Update msg (resultViewer d) in
        Go.Done (with_resultViewer rv d, c, [])
      else if PodActionMenu.IsVisible (podActionMenu d) then
        r <- PodActionMenu.Update msg (podActionMenu d) ;;
        let '(pm, c) := r in
        Go.Done (with_podActionMenu pm d, c, [])
      else if ActionMenu.IsVisible (actionMenu d) then
        r <- ActionMenu.Update msg (actionMenu d) ;;
        let '(am, c, effs) := r in
        Go.Done (with_actionMenu am d, c, effs)
      else if HelpPanel.IsVisible (help d) then
        if (k =? "?")%string || (k =? "esc")%string
        then Go.Done (with_help (HelpPanel.Hide (help d)) d, Tea.CmdNil, [])
        else Go.Done (d, Tea.CmdNil, [])
      else if (focus d =? FocusLogs) && logs_IsSearching (logs d) then
        let '(l, c) := logs_Update msg (logs d) in
        Go.Done (with_logs l d, lib_cmd c, [])
      else onKey k d
  | _ =>
      let '(d', c) := toFocusedPanel msg d in
      Go.Done (d', c, [])
  end.

Definition SetPod (p : K8s.PodInfo) (d : t) : t :=
  with_logs (logs_SetContainers (containerNames p) (logs d))
    (with_metrics (metrics_SetPod p (metrics d))
       (with_manifest (manifest_SetPod p (manifest d))
          (with_pod (Some p) d))).

Definition SetLogs (l : list K8s.LogLine) (d : t) : t :=
  with_logs (logs_SetLogs l (logs d)) d.
Definition SetEvents (l : list K8s.EventInfo) (d : t) : t :=
  with_events (events_SetEvents l (events d)) d.
Definition SetMetrics (m : option K8s.PodMetrics) (d : t) : t :=
  with_metrics (metrics_SetMetrics m (metrics d)) d.
Definition SetRelated (r : option K8s.RelatedResources) (d : t) : t :=
  with_manifest (manifest_SetRelated r (manifest d)) d.
Definition SetHelpers (h : list K8s.DebugHelper) (d : t) : t :=
  with_manifest (manifest_SetHelpers h (manifest d)) d.

Definition SetSize (w h : Z) (d : t) : t :=
  with_help (HelpPanel.SetSize w h (help d))
    (with_breadcrumb (Breadcrumb.SetWidth w (breadcrumb d))
       (with_height h (with_width w d))).

Definition SetBreadcrumb (items : list string) (d : t) : t :=
  with_breadcrumb (Breadcrumb.SetItems items (breadcrumb d)) d.
Definition SetContext (ctx : string) (d : t) : t := with_context ctx d.
Definition SetNamespace (ns : string) (d : t) : t := with_namespace ns d.

Definition HasActiveOverlay (d : t) : bool :=
  ResultViewer.IsVisible (resultViewer d)
  || ConfirmDialog.IsVisible (confirmDialog d)
  || PodActionMenu.IsVisible (podActionMenu d)
  || ActionMenu.IsVisible (actionMenu d)
  || HelpPanel.IsVisible (help d).

End WithExternals.
End Dashboard.

(** [app.Model]: the root controller *)
Module App.

Inductive ViewState : Type :=
| ViewNavigator
| ViewDashboard.

(** Which branch of [Model.View] draws the screen. *)
Inductive Screen : Type :=
| ScreenError (e : string)      (* "Error: " + m.err.Error(), nothing else *)
| ScreenLoading                 (* the centred spinner *)
| ScreenHelp                    (* the floating help modal *)
| ScreenNavigator               (* navigator content above the footer *)
| ScreenDashboard.              (* dashboard content above the footer *)

Section WithExternals.
Context `{E : Externals}.

Record t := {
  k8sClient : K8s.Client;
  config : Config.t;
  navigator : Navigator.t;
  dashboard : Dashboard.t;
  statusBar : StatusBar.t;
  help : HelpPanel.t;
  spinner : Spinner;
  view : ViewState;
  width : Z;
  height : Z;
  loading : bool;
  err : option string;
  keys : Keys.KeyMap;
  workload : option K8s.WorkloadInfo;
  pod : option K8s.PodInfo
}.

(** [New()] once the client and the configuration are at hand. *)
Definition New (client : K8s.Client) (cfg : Config.t) : t :=
  {| k8sClient := K8s.SetNamespace (Config.LastNamespace cfg) client;
     config := cfg;
     navigator := Navigator.NewNavigator;
     dashboard := Dashboard.NewDashboard;
     statusBar := StatusBar.New;
     help := HelpPanel.New;
     spinner := sp_New;
     view := ViewNavigator;
     width := 0; height := 0;
     loading := true;
     err := None;
     keys := Keys.DefaultKeyMap key_PodActions key_CopyCommands;
     workload := None;
     pod := None |}.

Definition with_k8sClient (x : K8s.Client) (m : t) : t :=
  {| k8sClient := x; config := config m; navigator := navigator m;
     dashboard := dashboard m; statusBar := statusBar m; help := help m;
     spinner := spinner m; view := view m; width := width m; height := height m;
     loading := loading m; err := err m; keys := keys m; workload := workload m;
     pod := pod m |}.

Definition with_config (x : Config.t) (m : t) : t :=
  {| k8sClient := k8sClient m; config := x; navigator := navigator m;
     dashboard := dashboard m; statusBar := statusBar m; help := help m;
     spinner := spinner m; view := view m; width := width m; height := height m;
     loading := loading m; err := err m; keys := keys m; workload := workload m;
     pod := pod m |}.

Definition with_navigator (x : Navigator.t) (m : t) : t :=
  {| k8sClient := k8sClient m; config := config m; navigator := x;
     dashboard := dashboard m; statusBar := statusBar m; help := help m;
     spinner := spinner m; view := view m; width := width m; height := height m;
     loading := loading m; err := err m; keys := keys m; workload := workload m;
     pod := pod m |}.

Definition with_dashboard (x : Dashboard.t) (m : t) : t :=
  {| k8sClient := k8sClient m; config := config m; navigator := navigator m;
     dashboard := x; statusBar := statusBar m; help := help m; spinner := spinner m;
     view := view m; width := width m; height := height m; loading := loading m;
     err := err m; keys := keys m; workload := workload m; pod := pod m |}.

Definition with_statusBar (x : StatusBar.t) (m : t) : t :=
  {| k8sClient := k8sClient m; config := config m; navigator := navigator m;
     dashboard := dashboard m; statusBar := x; help := help m; spinner := spinner m;
     view := view m; width := width m; height := height m; loading := loading m;
     err := err m; keys := keys m; workload := workload m; pod := pod m |}.

Definition with_help (x : HelpPanel.t) (m : t) : t :=
  {| k8sClient := k8sClient m; config := config m; navigator := navigator m;
     dashboard := dashboard m; statusBar := statusBar m; help := x;
     spinner := spinner m; view := view m; width := width m; height := height m;
     loading := loading m; err := err m; keys := keys m; workload := workload m;
     pod := pod m |}.

Definition with_spinner (x : Spinner) (m : t) : t :=
  {| k8sClient := k8sClient m; config := config m; navigator := navigator m;
     dashboard := dashboard m; statusBar := statusBar m; help := help m;
     spinner := x; view := view m; width := width m; height := height m;
     loading := loading m; err := err m; keys := keys m; workload := workload m;
     pod := pod m |}.

Definition with_view (x : ViewState) (m : t) : t :=
  {| k8sClient := k8sClient m; config := config m; navigator := navigator m;
     dashboard := dashboard m; statusBar := statusBar m; help := help m;
     spinner := spinner m; view := x; width := width m; height := height m;
     loading := loading m; err := err m; keys := keys m; workload := workload m;
     pod := pod m |}.

Definition with_width (x : Z) (m : t) : t :=
  {| k8sClient := k8sClient m; config := config m; navigator := navigator m;
     dashboard := dashboard m; statusBar := statusBar m; help := help m;
     spinner := spinner m; view := view m; width := x; height := height m;
     loading := loading m; err := err m; keys := keys m; workload := workload m;
     pod := pod m |}.

Definition with_height (x : Z) (m : t) : t :=
  {| k8sClient := k8sClient m; config := config m; navigator := navigator m;
     dashboard := dashboard m; statusBar := statusBar m; help := help m;
     spinner := spinner m; view := view m; width := width m; height := x;
     loading := loading m; err := err m; keys := keys m; workload := workload m;
     pod := pod m |}.

Definition with_loading (x : bool) (m : t) : t :=
  {| k8sClient := k8sClient m; config := config m; navigator := navigator m;
     dashboard := dashboard m; statusBar := statusBar m; help := help m;
     spinner := spinner m; view := view m; width := width m; height := height m;
     loading := x; err := err m; keys := keys m; workload := workload m;
     pod := pod m |}.

Definition with_err (x : option string) (m : t) : t :=
  {| k8sClient := k8sClient m; config := config m; navigator := navigator m;
     dashboard := dashboard m; statusBar := statusBar m; help := help m;
     spinner := spinner m; view := view m; width := width m; height := height m;
     loading := loading m; err := x; keys := keys m; workload := workload m;
     pod := pod m |}.

Definition with_workload (x : option K8s.WorkloadInfo) (m : t) : t :=
  {| k8sClient := k8sClient m; config := config m; navigator := navigator m;
     dashboard := dashboard m; statusBar := statusBar m; help := help m;
     spinner := spinner m; view := view m; width := width m; height := height m;
     loading := loading m; err := err m; keys := keys m; workload := x;
     pod := pod m |}.

Definition with_pod (x : option K8s.PodInfo) (m : t) : t :=
  {| k8sClient := k8sClient m; config := config m; navigator := navigator m;
     dashboard := dashboard m; statusBar := statusBar m; help := help m;
     spinner := spinner m; view := view m; width := width m; height := height m;
     loading := loading m; err := err m; keys := keys m; workload := workload m;
     pod := x |}.

(** The commands below are closures over the model; they read the
    namespace from the shared client when they run. *)
Definition loadInitialData (m : t) : Tea.Cmd := Tea.CmdLoadInitialData.

Definition loadWorkloads (m : t) : Tea.Cmd :=
  Tea.CmdLoadWorkloads (Navigator.ResourceType (navigator m)).

Definition loadPods (w : K8s.WorkloadInfo) (m : t) : Tea.Cmd :=
  Tea.CmdLoadPods w.

Definition loadDashboardData (p : K8s.PodInfo) (m : t) : Tea.Cmd :=
  Tea.CmdLoadDashboardData p.

Definition tickCmd (m : t) : Tea.Cmd :=
  Tea.CmdTick (Config.RefreshInterval (config m)).

Definition Init (m : t) : Tea.Cmd :=
  Tea.CmdBatch [Tea.CmdLib "spinner.Tick"; loadInitialData m].

Definition setMode (mode : Navigator.NavigatorMode) (m : t) : t :=
  with_navigator (Navigator.SetMode mode (navigator m)) m.

Definition handleBack (m : t) : t * Tea.Cmd :=
  match view m with
  | ViewDashboard =>
      let m := with_pod None (with_view ViewNavigator m) in
      match workload m with
      | Some _ => (setMode Navigator.ModePods m, Tea.CmdNil)
      | None => (setMode Navigator.ModeWorkloads m, Tea.CmdNil)
      end
  | ViewNavigator =>
      match Navigator.Mode (navigator m) with
      | Navigator.ModePods =>
          let m := with_workload None (setMode Navigator.ModeWorkloads m) in
          (m, loadWorkloads m)
      | Navigator.ModeNamespace => (setMode Navigator.ModeWorkloads m, Tea.CmdNil)
      | Navigator.ModeResourceType => (setMode Navigator.ModeWorkloads m, Tea.CmdNil)
      | Navigator.ModeWorkloads => (m, Tea.CmdNil)
      end
  end.

Definition handleEnter (m : t) : Go.outcome (t * Tea.Cmd) :=
  match view m with
  | ViewNavigator =>
      match Navigator.Mode (navigator m) with
      | Navigator.ModeWorkloads =>
          sel <- Navigator.SelectedWorkload (navigator m) ;;
          match sel with
          | Some w =>
              let m := with_loading true (with_workload (Some w) m) in
              Go.Done (m, loadPods w m)
          | None => Go.Done (m, Tea.CmdNil)
          end
      | Navigator.ModePods =>
          sel <- Navigator.SelectedPod (navigator m) ;;
          match sel with
          | Some p =>
              let m := with_view ViewDashboard (with_pod (Some p) m) in
              let m := with_dashboard (Dashboard.SetPod p (dashboard m)) m in
              match workload m with
              | None => Go.Panic          (* m.workload.Name *)
              | Some w =>
                  let d := Dashboard.SetBreadcrumb
                             [ K8s.namespace (k8sClient m);
                               Navigator.ResourceType (navigator m);
                               K8s.wName w; K8s.pName p ] (dashboard m) in
                  let d := Dashboard.SetContext (K8s.context (k8sClient m)) d in
                  let d := Dashboard.SetNamespace (K8s.namespace (k8sClient m)) d in
                  let m := with_loading true (with_dashboard d m) in
                  Go.Done (m, Tea.CmdBatch [loadDashboardData p m; tickCmd m])
              end
          | None => Go.Done (m, Tea.CmdNil)
          end
      | Navigator.ModeNamespace =>
          ns <- Navigator.SelectedNamespace (navigator m) ;;
          if negb (ns =? "")%string then
            let m := with_k8sClient (K8s.SetNamespace ns (k8sClient m)) m in
            let m := with_config (Config.SetLastNamespace ns (config m)) m in
            let m := with_loading true (setMode Navigator.ModeWorkloads m) in
            Go.Done (m, loadWorkloads m)
          else Go.Done (m, Tea.CmdNil)
      | Navigator.ModeResourceType =>
          rt <- Navigator.SelectedResourceType (navigator m) ;;
          let m := with_navigator (Navigator.SetResourceType rt (navigator m)) m in
          let m := with_config (Config.SetLastResourceType rt (config m)) m in
          let m := with_loading true (setMode Navigator.ModeWorkloads m) in
          Go.Done (m, loadWorkloads m)
      end
  | ViewDashboard => Go.Done (m, Tea.CmdNil)
  end.

(** [refresh] has a pointer receiver: it sets [loading] on the model
    that [Update] then returns. *)
Definition refresh (m : t) : t * Tea.Cmd :=
  match view m with
  | ViewNavigator =>
      let m := with_loading true m in (m, loadWorkloads m)
  | ViewDashboard =>
      match pod m with
      | Some p => let m := with_loading true m in (m, loadDashboardData p m)
      | None => (m, Tea.CmdNil)
      end
  end.

Definition saveConfig (m : t) : list Tea.Effect := [Tea.EffSaveConfig (config m)].

(** The last [switch m.view] of [Update]: the active view gets [msg]. *)
Definition toView (msg : Tea.Msg) (m : t)
  : Go.outcome (t * Tea.Cmd * list Tea.Effect) :=
  match view m with
  | ViewNavigator =>
      let isResourceTypeKey :=
        match msg with
        | Tea.KeyMsg k => Keys.Matches k (Keys.ResourceType (keys m))
        | _ => false
        end in
      if negb (Navigator.IsSearching (navigator m)) && isResourceTypeKey then
        Go.Done (setMode Navigator.ModeResourceType m, Tea.CmdNil, [])
      else
        let '(n, c) := Navigator.Update msg (navigator m) in
        Go.Done (with_navigator n m, Tea.CmdBatch [c], [])
  | ViewDashboard =>
      r <- Dashboard.Update msg (dashboard m) ;;
      let '(d, c, effs) := r in
      Go.Done (with_dashboard d m, Tea.CmdBatch [c], effs)
  end.

Definition Update (msg : Tea.Msg) (m : t)
  : Go.outcome (t * Tea.Cmd * list Tea.Effect) :=
  match msg with
  | Tea.WindowSizeMsg w h =>
      let m := with_height h (with_width w m) in
      let m := with_navigator (Navigator.SetSize w (Go.sub h 2) (navigator m)) m in
      let m := with_dashboard (Dashboard.SetSize w (Go.sub h 2) (dashboard m)) m in
      let m := with_statusBar (StatusBar.SetWidth w (statusBar m)) m in
      let m := with_help (HelpPanel.SetSize w h (help m)) m in
      Go.Done (m, Tea.CmdNil, [])
  | Tea.SpinnerTickMsg =>
      let '(sp, c) := sp_Update msg (spinner m) in
      Go.Done (with_spinner sp m, lib_cmd c, [])
  | Tea.loadedMsg workloads namespaces e =>
      let m := with_loading false m in
      match e with
      | Some _ => Go.Done (with_err e m, Tea.CmdNil, [])
      | None =>
          let n := Navigator.SetWorkloads workloads (navigator m) in
          let n := Navigator.SetNamespaces namespaces n in
          Go.Done (with_navigator n m, Tea.CmdNil, [])
      end
  | Tea.podsLoadedMsg pods e =>
      let m := with_loading false m in
      match e with
      | Some _ => Go.Done (with_err e m, Tea.CmdNil, [])
      | None =>
          let n := Navigator.SetPods pods (navigator m) in
          let n := Navigator.SetMode Navigator.ModePods n in
          Go.Done (with_navigator n m, Tea.CmdNil, [])
      end
  | Tea.dashboardDataMsg logs events metrics related helpers =>
      let m := with_loading false m in
      let d := Dashboard.SetLogs logs (dashboard m) in
      let d := Dashboard.SetEvents events d in
      let d := Dashboard.SetMetrics metrics d in
      let d := Dashboard.SetRelated related d in
      let d := Dashboard.SetHelpers helpers d in
      Go.Done (with_dashboard d m, Tea.CmdNil, [])
  | Tea.tickMsg =>
      match view m, pod m with
      | ViewDashboard, Some p =>
          Go.Done (m, Tea.CmdBatch [loadDashboardData p m; tickCmd m], [])
      | _, _ => Go.Done (m, tickCmd m, [])
      end
  | Tea.KeyMsg k =>
      if HelpPanel.IsVisible (help m) then
        if (k =? "?")%string || (k =? "esc")%string
        then Go.Done (with_help (HelpPanel.Hide (help m)) m, Tea.CmdNil, [])
        else Go.Done (m, Tea.CmdNil, [])
      else if match view m with ViewNavigator => true | ViewDashboard => false end
              && Navigator.IsSearching (navigator m) then
        if (k =? "esc")%string then
          Go.Done (with_navigator (Navigator.CloseSearch (navigator m)) m,
                   Tea.CmdNil, [])
        else if (k =? "enter")%string then
          Go.Done (with_navigator (Navigator.CloseSearch (navigator m)) m,
                   Tea.CmdNil, [])
        else if (k =? "ctrl+c")%string then
          Go.Done (m, Tea.CmdQuit, saveConfig m)
        else
          let '(n, c) := Navigator.Update msg (navigator m) in
          Go.Done (with_navigator n m, c, [])
      else if Keys.Matches k (Keys.Quit (keys m)) then
        Go.Done (m, Tea.CmdQuit, saveConfig m)
      else if Keys.Matches k (Keys.Help (keys m)) then
        Go.Done (with_help (HelpPanel.Toggle (help m)) m, Tea.CmdNil, [])
      else if Keys.Matches k (Keys.Refresh (keys m)) then
        let '(m', c) := refresh m in Go.Done (m', c, [])
      else if Keys.Matches k (Keys.Namespace (keys m)) then
        match view m with
        | ViewNavigator => Go.Done (setMode Navigator.ModeNamespace m, Tea.CmdNil, [])
        | ViewDashboard => toView msg m
        end
      else if Keys.Matches k (Keys.Back (keys m)) then
        let '(m', c) := handleBack m in Go.Done (m', c, [])
      else if Keys.Matches k (Keys.Enter (keys m)) then
        r <- handleEnter m ;;
        let '(m', c) := r in Go.Done (m', c, [])
      else toView msg m
  | _ => toView msg m
  end.

Definition View (m : t) : Screen :=
  match err m with
  | Some e => ScreenError e
  | None =>
      if loading m then ScreenLoading
      else if HelpPanel.IsVisible (help m) then ScreenHelp
      else match view m with
           | ViewNavigator => ScreenNavigator
           | ViewDashboard => ScreenDashboard
           end
  end.

End WithExternals.
End App.

(** ** The event loop

    Bubble Tea starts every command returned by [Update] on its own
    goroutine and feeds the message each one yields back to [Update], one
    message at a time.  [inflight] holds the commands started and not yet
    completed. *)

Module Loop.
Section WithExternals.
Context `{E : Externals}.

Record t := {
  model : App.t;
  inflight : list Tea.Cmd;
  effects : list Tea.Effect
}.

Inductive Event : Type :=
| Press (key : string)                    (* the user presses a key *)
| Completes (i : nat) (msg : Tea.Msg).    (* [inflight[i]] yields [msg] *)

(** The messages a command may yield when it completes. *)
Definition yields (c : Tea.Cmd) (msg : Tea.Msg) : bool :=
  match c, msg with
  | Tea.CmdTick _, Tea.tickMsg => true
  | Tea.CmdLoadDashboardData _, Tea.dashboardDataMsg _ _ _ _ _ => true
  | Tea.CmdLoadInitialData, Tea.loadedMsg _ _ _ => true
  | Tea.CmdLoadWorkloads _, Tea.loadedMsg _ _ _ => true
  | Tea.CmdLoadPods _, Tea.podsLoadedMsg _ _ => true
  | _, _ => false
  end.

Fixpoint remove_nth {A : Type} (i : nat) (l : list A) : list A :=
  match l, i with
  | [], _ => []
  | _ :: r, O => r
  | x :: r, S j => x :: remove_nth j r
  end.

Definition handle (msg : Tea.Msg) (l : t) : Go.outcome t :=
  r <- App.Update msg (model l) ;;
  let '(m, c, effs) := r in
  Go.Done {| model := m;
             inflight := (inflight l ++ Tea.atoms c)%list;
             effects := (effects l ++ effs)%list |}.

(** One turn of the loop; an event that cannot happen leaves it as it is. *)
Definition step (e : Event) (l : t) : Go.outcome t :=
  match e with
  | Press k => handle (Tea.KeyMsg k) l
  | Completes i msg =>
      match nth_error (inflight l) i with
      | Some c =>
          if yields c msg then
            handle msg {| model := model l;
                          inflight := remove_nth i (inflight l);
                          effects := effects l |}
          else Go.Done l
      | None => Go.Done l
      end
  end.

Fixpoint run (es : list Event) (l : t) : Go.outcome t :=
  match es with
  | [] => Go.Done l
  | e :: r => l' <- step e l ;; run r l'
  end.

(** The program as [tea.NewProgram(model).Run()] starts it. *)
Definition start (m : App.t) : t :=
  {| model := m; inflight := Tea.atoms (App.Init m); effects := [] |}.

Definition count (f : Tea.Cmd -> bool) (l : t) : nat :=
  List.length (filter f (inflight l)).

End WithExternals.
End Loop.

(** ** A concrete environment on which the model runs

    A text input that appends one-character keys, panels without state, a
    clipboard that never fails, and a confirm dialog answering "y"/"enter"
    with yes and "n"/"esc" with no. *)

Module Sample.

Definition input_Update (msg : Tea.Msg) (s : string) : string * option string :=
  match msg with
  | Tea.KeyMsg (String c EmptyString) => (s ++ String c EmptyString, None)
  | _ => (s, None)
  end.

Definition dialog_Update (msg : Tea.Msg) (c : ConfirmDialog.t)
  : ConfirmDialog.t * option (bool * string * Tea.Payload) :=
  let hidden :=
    {| ConfirmDialog.title := ConfirmDialog.title c;
       ConfirmDialog.message := ConfirmDialog.message c;
       ConfirmDialog.action := ConfirmDialog.action c;
       ConfirmDialog.data := ConfirmDialog.data c;
       ConfirmDialog.visible := false |} in
  match msg with
  | Tea.KeyMsg k =>
      if (k =? "y")%string || (k =? "enter")%string then
        (hidden, Some (true, ConfirmDialog.action c, ConfirmDialog.data c))
      else if (k =? "n")%string || (k =? "esc")%string then
        (hidden, Some (false, ConfirmDialog.action c, ConfirmDialog.data c))
      else (c, None)
  | _ => (c, None)
  end.

Definition externals : Externals :=
  {| ToLower := Go.ToLowerASCII;
     key_PodActions := ["a"];
     key_CopyCommands := ["y"];
     CopyToClipboard := fun _ => None;
     TextInput := string;
     ti_New := "";
     ti_Value := fun s => s;
     ti_SetValue := fun v _ => v;
     ti_Focus := fun s => s;
     ti_Update := input_Update;
     Viewport := unit;
     vp_zero := tt;
     vp_New := fun _ _ => tt;
     vp_SetContent := fun _ v => v;
     vp_GotoTop := fun v => v;
     vp_GotoBottom := fun v => v;
     vp_Update := fun _ v => (v, None);
     Spinner := unit;
     sp_New := tt;
     sp_Update := fun _ s => (s, Some "spinner.Tick");
     LogsPanel := unit;
     logs_New := tt;
     logs_Update := fun _ p => (p, None);
     logs_IsSearching := fun _ => false;
     logs_SelectedContainer := fun _ => "";
     logs_SetLogs := fun _ p => p;
     logs_SetContainers := fun _ p => p;
     EventsPanel := unit;
     events_New := tt;
     events_Update := fun _ p => (p, None);
     events_SetEvents := fun _ p => p;
     MetricsPanel := unit;
     metrics_New := tt;
     metrics_Update := fun _ p => (p, None);
     metrics_SetMetrics := fun _ p => p;
     metrics_SetPod := fun _ p => p;
     ManifestPanel := unit;
     manifest_New := tt;
     manifest_Update := fun _ p => (p, None);
     manifest_SetPod := fun _ p => p;
     manifest_SetRelated := fun _ p => p;
     manifest_SetHelpers := fun _ p => p;
     confirm_Update := dialog_Update |}.

Definition workload (name status : string) : K8s.WorkloadInfo :=
  {| K8s.wName := name; K8s.wNamespace := "default";
     K8s.wType := K8s.ResourceDeployments; K8s.wReady := "1/1";
     K8s.wReplicas := 1; K8s.wAge := "3d"; K8s.wStatus := status;
     K8s.wLabels := [("app", name)]; K8s.wRestartCount := 0 |}.

Definition container (name : string) : K8s.ContainerInfo :=
  {| K8s.cName := name; K8s.cImage := "nginx:1.27"; K8s.cReady := true;
     K8s.cRestartCount := 0; K8s.cState := "Running"; K8s.cReason := "";
     K8s.cPorts := [8080] |}.

Definition pod_ (name node status : string) : K8s.PodInfo :=
  {| K8s.pName := name; K8s.pNamespace := "default"; K8s.pNode := node;
     K8s.pStatus := status; K8s.pReady := "1/1"; K8s.pRestarts := 0;
     K8s.pAge := "3d"; K8s.pIP := "10.0.0.7"; K8s.pLabels := [];
     K8s.pContainers := [container "web"]; K8s.pPhase := "Running";
     K8s.pOwnerRef := "web"; K8s.pOwnerKind := "ReplicaSet" |}.

Definition web : K8s.WorkloadInfo := workload "web" "Running".
Definition nginx : K8s.WorkloadInfo := workload "NGINX-ingress" "Running".
Definition db : K8s.WorkloadInfo := workload "db" "Degraded".
Definition web_7f9 : K8s.PodInfo := pod_ "web-7f9" "node-a" "Running".
Definition web_2c4 : K8s.PodInfo := pod_ "web-2c4" "node-b" "Pending".

Definition client : K8s.Client :=
  {| K8s.context := "kind-dev"; K8s.namespace := "default" |}.

(** The model as [New()] builds it from the default configuration. *)
Definition m0 : App.t (E := externals) := App.New client Config.DefaultConfig.

(** The first load has arrived, the user has opened workload "web". *)
Definition browsing_pods : list Loop.Event :=
  [ Loop.Completes 1 (Tea.loadedMsg [web; db] ["default"; "kube-system"] None);
    Loop.Press "enter";
    Loop.Completes 1 (Tea.podsLoadedMsg [web_7f9; web_2c4] None) ].

(** ... and then pod "web-7f9". *)
Definition viewing_pod : list Loop.Event :=
  (browsing_pods ++ [ Loop.Press "enter" ])%list.

(** The model once the events [es] have been handled. *)
Definition after (es : list Loop.Event) : App.t (E := externals) :=
  match Loop.run es (Loop.start m0) with
  | Go.Done l => Loop.model l
  | Go.Panic => m0
  end.

Definition m_viewing : App.t (E := externals) := after viewing_pod.

(** The workloads are listed and the user has pressed "/". *)
Definition searching_workloads : list Loop.Event :=
  [ Loop.Completes 1 (Tea.loadedMsg [web; nginx; db] ["default"] None);
    Loop.Press "/" ].

Definition m_searching : App.t (E := externals) := after searching_workloads.

(** The first load fails; the user refreshes and the retry succeeds. *)
Definition failed_load_then_refresh : list Loop.Event :=
  [ Loop.Completes 1 (Tea.loadedMsg [] [] (Some "connection refused"));
    Loop.Press "r";
    Loop.Completes 1 (Tea.loadedMsg [web; db] ["default"] None) ].

Definition an_item (act : string) : Tea.PodActionItem :=
  PodActionMenu.action "an entry" "" act "kubectl ...".

(** A dashboard showing pod "web-7f9". *)
Definition d0 : Dashboard.t (E := externals) :=
  Dashboard.SetNamespace "default"
    (Dashboard.SetPod web_7f9 Dashboard.NewDashboard).

(** A navigator with three namespaces, the cursor on the last one. *)
Definition n_namespaces : Navigator.t (E := externals) :=
  fst (Navigator.Update (Tea.KeyMsg "j")
    (fst (Navigator.Update (Tea.KeyMsg "j")
       (Navigator.SetMode Navigator.ModeNamespace
          (Navigator.SetNamespaces ["default"; "kube-public"; "kube-system"]
             Navigator.NewNavigator))))).

End Sample.

(** ** Vocabulary of the properties *)

Module Spec.
Section WithExternals.
Context `{E : Externals}.

(** [q] occurs in [s] once both are lower-cased. *)
Definition ci_contains (s q : string) : Prop :=
  exists a b, ToLower s = a ++ ToLower q ++ b.

(** The cursor addresses an element of a collection of [total] items. *)
Definition in_bounds (cursor total : Z) : Prop := 0 <= cursor < total.

(** Sizes and positions of a terminal UI: far from the ends of [int]. *)
Definition small (z : Z) : Prop := - 2 ^ 62 <= z < 2 ^ 62.

(** The rows left for items in a navigator [height] rows high: eight
    rows go to the frame, and fifteen are assumed when fewer than five
    would remain. *)
Definition rows (height : Z) : Z :=
  if height - 8 <? 5 then 15 else height - 8.

End WithExternals.
End Spec.


(** The overlays of the Dashboard and the order in which they claim keys. *)
Module Overlay.
Section WithExternals.
Context `{E : Externals}.

Inductive t : Type :=
| Confirm
| Result
| PodActions
| Actions
| Help.

(** Confirm > ResultViewer > PodActionMenu > ActionMenu > Help *)
Definition priority : list t := [Confirm; Result; PodActions; Actions; Help].

Definition visible (d : Dashboard.t) (o : t) : bool :=
  match o with
  | Confirm => ConfirmDialog.IsVisible (Dashboard.confirmDialog d)
  | Result => ResultViewer.IsVisible (Dashboard.resultViewer d)
  | PodActions => PodActionMenu.IsVisible (Dashboard.podActionMenu d)
  | Actions => ActionMenu.IsVisible (Dashboard.actionMenu d)
  | Help => HelpPanel.IsVisible (Dashboard.help d)
  end.

(** The visible overlay of highest priority. *)
Definition top (d : Dashboard.t) : option t := find (visible d) priority.

(** The key [k] given to overlay [o] and to nothing else: the overlay's
    own [Update] runs (for Help, whose keys the Dashboard reads itself,
    "?" and "esc" hide it) and the rest of the Dashboard is kept. *)
Definition deliver (o : t) (k : string) (d : Dashboard.t)
  : Go.outcome (Dashboard.t * Tea.Cmd * list Tea.Effect) :=
  match o with
  | Confirm =>
      let '(cd, c) := confirm_Update (Tea.KeyMsg k) (Dashboard.confirmDialog d) in
      Go.Done (Dashboard.with_confirmDialog cd d, confirm_cmd c, [])
  | Result =>
      let '(rv, c) := ResultViewer.Update (Tea.KeyMsg k) (Dashboard.resultViewer d) in
      Go.Done (Dashboard.with_resultViewer rv d, c, [])
  | PodActions =>
      r <- PodActionMenu.Update (Tea.KeyMsg k) (Dashboard.podActionMenu d) ;;
      Go.Done (Dashboard.with_podActionMenu (fst r) d, snd r, [])
  | Actions =>
      r <- ActionMenu.Update (Tea.KeyMsg k) (Dashboard.actionMenu d) ;;
      Go.Done (Dashboard.with_actionMenu (fst (fst r)) d, snd (fst r), snd r)
  | Help =>
      if (k =? "?")%string || (k =? "esc")%string
      then Go.Done (Dashboard.with_help (HelpPanel.Hide (Dashboard.help d)) d,
                    Tea.CmdNil, [])
      else Go.Done (d, Tea.CmdNil, [])
  end.

(** [d'] is [d] except, possibly, for the state of overlay [o]. *)
Definition only_changes (o : t) (d d' : Dashboard.t) : Prop :=
  match o with
  | Confirm => d' = Dashboard.with_confirmDialog (Dashboard.confirmDialog d') d
  | Result => d' = Dashboard.with_resultViewer (Dashboard.resultViewer d') d
  | PodActions => d' = Dashboard.with_podActionMenu (Dashboard.podActionMenu d') d
  | Actions => d' = Dashboard.with_actionMenu (Dashboard.actionMenu d') d
  | Help => d' = Dashboard.with_help (Dashboard.help d') d
  end.

Definition panels_kept (d d' : Dashboard.t) : Prop :=
  Dashboard.logs d' = Dashboard.logs d
  /\ Dashboard.events d' = Dashboard.events d
  /\ Dashboard.metrics d' = Dashboard.metrics d
  /\ Dashboard.manifest d' = Dashboard.manifest d.

End WithExternals.
End Overlay.


(** Commands that neither delete a pod nor hand the terminal over. *)
Definition harmless (c : Tea.Cmd) : Prop :=
  existsb Tea.is_delete (Tea.atoms c) = false
  /\ existsb Tea.is_exec (Tea.atoms c) = false.


(** ** Favourites (package config) and string helpers (packages k8s, styles) *)

Module Favorites.

Definition with_FavoriteItems (l : list string) (c : Config.t) : Config.t :=
  {| Config.LastNamespace := Config.LastNamespace c;
     Config.LastContext := Config.LastContext c;
     Config.LastResourceType := Config.LastResourceType c;
     Config.FavoriteItems := l;
     Config.LogLineLimit := Config.LogLineLimit c;
     Config.RefreshInterval := Config.RefreshInterval c;
     Config.Theme := Config.Theme c |}.

(** [IsFavorite] *)
Definition IsFavorite (item : string) (c : Config.t) : bool :=
  existsb (fun f => (f =? item)%string) (Config.FavoriteItems c).

(** [AddFavorite]: returns at the first equal entry, appends otherwise. *)
Definition AddFavorite (item : string) (c : Config.t) : Config.t :=
  if existsb (fun f => (f =? item)%string) (Config.FavoriteItems c) then c
  else with_FavoriteItems (Config.FavoriteItems c ++ [item])%list c.

(** The slice without its first entry equal to [item]. *)
Fixpoint remove_first (item : string) (l : list string) : list string :=
  match l with
  | [] => []
  | f :: r => if (f =? item)%string then r else f :: remove_first item r
  end.

(** [RemoveFavorite]: cuts out the first equal entry and returns. *)
Definition RemoveFavorite (item : string) (c : Config.t) : Config.t :=
  if existsb (fun f => (f =? item)%string) (Config.FavoriteItems c)
  then with_FavoriteItems (remove_first item (Config.FavoriteItems c)) c
  else c.

End Favorites.

Module Util.

(** [len(s)] of a string: its number of bytes. *)
Definition slen (s : string) : Z := Z.of_nat (String.length s).

(** [s[:n]]: panics when [n] is negative or past the end. *)
Definition slice_to (s : string) (n : Z) : Go.outcome string :=
  if (n <? 0) || (slen s <? n) then Go.Panic
  else Go.Done (String.substring 0 (Z.to_nat n) s).

(** [k8s.TruncateString]; [styles.Truncate] has the same body. *)
Definition TruncateString (s : string) (maxLen : Z) : Go.outcome string :=
  if slen s <=? maxLen then Go.Done s
  else if maxLen <=? 3 then slice_to s maxLen
  else r <- slice_to s (Go.sub maxLen 3) ;; Go.Done (r ++ "...").




End Util.


(** ** Invariants of the root controller *)

Module Inv.
Section WithExternals.
Context `{E : Externals}.

(** The Dashboard view always has a pod, the one the Dashboard shows;
    the Navigator view has none selected. *)
Definition view_has_pod (m : App.t) : Prop :=
  match App.view m with
  | App.ViewDashboard =>
      exists p, App.pod m = Some p /\ Dashboard.pod (App.dashboard m) = Some p
  | App.ViewNavigator => App.pod m = None
  end.

(** The namespace the client queries is the one the preferences record. *)
Definition namespace_in_sync (m : App.t) : Prop :=
  K8s.namespace (App.k8sClient m) = Config.LastNamespace (App.config m).

(** The text filter has the focus only in the Navigator view and never
    together with the help overlay. *)
Definition search_exclusive (m : App.t) : Prop :=
  Navigator.IsSearching (App.navigator m) = true ->
  App.view m = App.ViewNavigator /\ HelpPanel.IsVisible (App.help m) = false.

End WithExternals.
End Inv.

Module Scenario.

(** Enter is pressed twice on workload "web"; the first pods result
    arrives, the user goes back, and then the second result arrives. *)
Definition stale_pods_result : list Loop.Event :=
  [ Loop.Completes 1 (Tea.loadedMsg [Sample.web; Sample.db] ["default"] None);
    Loop.Press "enter";
    Loop.Press "enter";
    Loop.Completes 1 (Tea.podsLoadedMsg [Sample.web_7f9; Sample.web_2c4] None);
    Loop.Press "esc";
    Loop.Completes 1 (Tea.podsLoadedMsg [Sample.web_7f9; Sample.web_2c4] None) ].

Definition m_stale : App.t (E := Sample.externals) := Sample.after stale_pods_result.

(** The help overlay is open over the workloads list. *)
Definition m_help : App.t (E := Sample.externals) :=
  Sample.after
    [ Loop.Completes 1 (Tea.loadedMsg [Sample.web; Sample.db] ["default"] None);
      Loop.Press "?" ].

End Scenario.


(** ** package k8s: the log lines of a pod (logs.go) *)

Module Logs.

(** [LogLine] with its time stamp, an instant counted in nanoseconds. *)
Record LogLine := {
  Timestamp : Z;
  Container : string;
  Content : string;
  IsError : bool
}.

(** [logs[i] = x]: panics when [i] is out of range. *)
Fixpoint store (logs : list LogLine) (i : nat) (x : LogLine)
  : Go.outcome (list LogLine) :=
  match logs, i with
  | [], _ => Go.Panic
  | _ :: r, O => Go.Done (x :: r)
  | y :: r, S k => r' <- store r k x ;; Go.Done (y :: r')
  end.

(** The body of the inner loop of [sortLogsByTime]:
    [if logs[j].Timestamp.Before(logs[i].Timestamp) { swap }]. *)
Definition exchange (i j : nat) (logs : list LogLine) : Go.outcome (list LogLine) :=
  b <- Go.index logs (Z.of_nat j) ;;
  a <- Go.index logs (Z.of_nat i) ;;
  if Timestamp b <? Timestamp a
  then l <- store logs i b ;; store l j a
  else Go.Done logs.

(** [for k := from; k < from + n; k++ { logs = body k logs }] *)
Definition for_range (from n : nat)
           (body : nat -> list LogLine -> Go.outcome (list LogLine))
           (logs : list LogLine) : Go.outcome (list LogLine) :=
  fold_left (fun acc k => l <- acc ;; body k l) (seq from n) (Go.Done logs).

(** [for j := i + 1; j < len(logs); j++]: the swaps keep [len(logs)]. *)
Definition inner (i : nat) (logs : list LogLine) : Go.outcome (list LogLine) :=
  for_range (S i) (List.length logs - S i) (exchange i) logs.

(** [sortLogsByTime]: [for i := 0; i < len(logs)-1; i++]. *)
Definition sortLogsByTime (logs : list LogLine) : Go.outcome (list LogLine) :=
  for_range 0 (List.length logs - 1) inner logs.

(** Earlier or at the same instant. *)
Definition not_after (a b : LogLine) : Prop := Timestamp a <= Timestamp b.

Section WithExternals.
Context `{E : Externals}.

Definition errorIndicators : list string :=
  ["error"; "err:"; "fatal"; "panic"; "exception";
   "failed"; "failure"; "crash"; "critical"].

(** [isErrorLine] *)
Definition isErrorLine (content : string) : bool :=
  let lower := ToLower content in
  existsb (fun indicator => Go.Contains lower indicator) errorIndicators.

(** [SearchLogs] *)
Definition SearchLogs (logs : list LogLine) (query : string) : list LogLine :=
  if (query =? "")%string then logs
  else
    let query := ToLower query in
    filter (fun log => Go.Contains (ToLower (Content log)) query) logs.

(** [FilterErrorLogs] *)
Definition FilterErrorLogs (logs : list LogLine) : list LogLine :=
  filter IsError logs.

End WithExternals.

(** Four lines of two containers, as [GetAllContainerLogs] appends them. *)
Definition sample : list LogLine :=
  [ {| Timestamp := 30; Container := "web"; Content := "ready"; IsError := false |};
    {| Timestamp := 50; Container := "web"; Content := "ERROR: timeout"; IsError := true |};
    {| Timestamp := 10; Container := "proxy"; Content := "listening"; IsError := false |};
    {| Timestamp := 40; Container := "proxy"; Content := "upstream error"; IsError := true |} ].

End Logs.

(** * Properties *)

(** ** Machine integers, slices and strings *)

Lemma wrap_id (z : Z) : Go.is_int z -> Go.wrap z = z.
Proof.
  unfold Go.is_int, Go.min_int, Go.max_int, Go.wrap. intros H.
  rewrite Z.mod_small; lia.
Qed.

Lemma sub_exact (a b : Z) : Go.is_int (a - b) -> Go.sub a b = a - b.
Proof. apply wrap_id. Qed.

Lemma add_exact (a b : Z) : Go.is_int (a + b) -> Go.add a b = a + b.
Proof. apply wrap_id. Qed.

Lemma len_nonneg {A : Type} (l : list A) : 0 <= Go.len l.
Proof. unfold Go.len. lia. Qed.

Lemma index_in_range {A : Type} (l : list A) (i : Z) :
  0 <= i < Go.len l ->
  exists a, Go.index l i = Go.Done a /\ nth_error l (Z.to_nat i) = Some a.
Proof.
  intros H. unfold Go.index.
  destruct (i <? 0) eqn:H0; [apply Z.ltb_lt in H0; lia|].
  destruct (Go.len l <=? i) eqn:H1; [apply Z.leb_le in H1; lia|]. simpl.
  destruct (nth_error l (Z.to_nat i)) as [a|] eqn:Hn.
  - exists a. split; reflexivity.
  - apply nth_error_None in Hn. unfold Go.len in H. lia.
Qed.

Lemma prefix_nil (s : string) : String.prefix "" s = true.
Proof. destruct s; reflexivity. Qed.

Lemma prefix_app (p s : string) :
  String.prefix p s = true <-> exists r, s = p ++ r.
Proof.
  revert s. induction p as [|a p IH]; intros s.
  - rewrite prefix_nil. split; [intros _; exists s; reflexivity | reflexivity].
  - destruct s as [|b s]; simpl.
    + split; [discriminate | intros [r Hr]; discriminate].
    + destruct (ascii_dec a b) as [->|Hab].
      * rewrite IH. split; intros [r Hr]; exists r.
        -- now rewrite Hr.
        -- now inversion Hr.
      * split; [discriminate | intros [r Hr]; inversion Hr; congruence].
Qed.

Lemma Contains_unfold (s sub : string) :
  Go.Contains s sub =
  if String.prefix sub s then true
  else match s with
       | EmptyString => false
       | String _ s' => Go.Contains s' sub
       end.
Proof. destruct s; reflexivity. Qed.

(** [Go.Contains] decides the substring relation. *)
Lemma Contains_spec (s sub : string) :
  Go.Contains s sub = true <-> exists a b, s = a ++ sub ++ b.
Proof.
  split.
  - induction s as [|c s IH]; rewrite Contains_unfold;
      destruct (String.prefix sub _) eqn:Hp; try discriminate.
    + intros _. apply prefix_app in Hp as [r Hr]. exists "", r. exact Hr.
    + intros _. apply prefix_app in Hp as [r Hr]. exists "", r. exact Hr.
    + intros H. destruct (IH H) as (a & b & ->). exists (String c a), b. reflexivity.
  - intros (a & b & ->). induction a as [|c a IH]; rewrite Contains_unfold.
    + replace (String.prefix sub ("" ++ sub ++ b)) with true; [reflexivity|].
      symmetry. apply prefix_app. now exists b.
    + destruct (String.prefix sub _); [reflexivity | exact IH].
Qed.

Lemma filter_all {A : Type} (l : list A) : filter (fun _ => true) l = l.
Proof. induction l as [|x l IH]; simpl; [reflexivity | now rewrite IH]. Qed.

(** ** Navigator: filtering and selection *)

Section NavigatorFilter.
Context `{E : Externals}.

Lemma ci_contains_iff (s q : string) :
  Go.Contains (ToLower s) (ToLower q) = true <-> Spec.ci_contains s q.
Proof. apply Contains_spec. Qed.

(** C9.  The filter is a case-insensitive substring match on a key that
    depends on the mode.  Each filtered collection is the raw one with
    the non-matching items removed, order kept: a workload stays iff the
    query is empty or occurs in its name or status, a pod iff it is
    empty or occurs in its name, status or node, a namespace iff it is
    empty or occurs in its name; the resource types are never filtered;
    with an empty query each filtered collection is the raw one. *)
Theorem C9_filter_case_insensitive_substring (n : Navigator.t) :
  let q := Navigator.searchQuery n in
  (exists keep,
      Navigator.filteredWorkloads n = filter keep (Navigator.workloads n)
      /\ forall w, keep w = true <->
           (q = "" \/ Spec.ci_contains (K8s.wName w) q
            \/ Spec.ci_contains (K8s.wStatus w) q))
  /\ (exists keep,
      Navigator.filteredPods n = filter keep (Navigator.pods n)
      /\ forall p, keep p = true <->
           (q = "" \/ Spec.ci_contains (K8s.pName p) q
            \/ Spec.ci_contains (K8s.pStatus p) q
            \/ Spec.ci_contains (K8s.pNode p) q))
  /\ (exists keep,
      Navigator.filteredNamespaces n = filter keep (Navigator.namespaces n)
      /\ forall ns, keep ns = true <-> (q = "" \/ Spec.ci_contains ns q))
  /\ (Navigator.mode n = Navigator.ModeResourceType ->
      Navigator.maxItems n = Go.len K8s.AllResourceTypes)
  /\ (forall q', Navigator.SelectedResourceType (Navigator.with_searchQuery q' n)
                 = Navigator.SelectedResourceType n)
  /\ (q = "" ->
      Navigator.filteredWorkloads n = Navigator.workloads n
      /\ Navigator.filteredPods n = Navigator.pods n
      /\ Navigator.filteredNamespaces n = Navigator.namespaces n).
Proof.
  intros q. subst q.
  unfold Navigator.filteredWorkloads, Navigator.filteredPods,
    Navigator.filteredNamespaces.
  destruct (String.eqb_spec (Navigator.searchQuery n) "") as [Hq|Hq].
  - repeat split; try reflexivity.
    + exists (fun _ => true). split; [now rewrite filter_all|].
      intros w. split; [now left | reflexivity].
    + exists (fun _ => true). split; [now rewrite filter_all|].
      intros w. split; [now left | reflexivity].
    + exists (fun _ => true). split; [now rewrite filter_all|].
      intros w. split; [now left | reflexivity].
    + intros Hm. unfold Navigator.maxItems. now rewrite Hm.
  - repeat split; try contradiction; try reflexivity.
    + eexists. split; [reflexivity|]. intros w.
      rewrite orb_true_iff, !ci_contains_iff. tauto.
    + eexists. split; [reflexivity|]. intros p.
      rewrite !orb_true_iff, !ci_contains_iff. tauto.
    + eexists. split; [reflexivity|]. intros ns.
      rewrite ci_contains_iff. tauto.
    + intros Hm. unfold Navigator.maxItems. now rewrite Hm.
Qed.

(** C10.  The selection accessors never index out of bounds: each one
    returns, and when the cursor is outside the filtered collection
    (always so when it is empty) SelectedWorkload and SelectedPod return
    nil, SelectedNamespace the empty string and SelectedResourceType the
    deployments default; inside, they return the element under the
    cursor. *)
Theorem C10_selection_accessors_total (n : Navigator.t) :
  let c := Navigator.cursor n in
  (exists r, Navigator.SelectedWorkload n = Go.Done r
     /\ (~ Spec.in_bounds c (Go.len (Navigator.filteredWorkloads n)) -> r = None)
     /\ (Spec.in_bounds c (Go.len (Navigator.filteredWorkloads n)) ->
         r <> None /\ r = nth_error (Navigator.filteredWorkloads n) (Z.to_nat c)))
  /\ (exists r, Navigator.SelectedPod n = Go.Done r
     /\ (~ Spec.in_bounds c (Go.len (Navigator.filteredPods n)) -> r = None)
     /\ (Spec.in_bounds c (Go.len (Navigator.filteredPods n)) ->
         r <> None /\ r = nth_error (Navigator.filteredPods n) (Z.to_nat c)))
  /\ (exists s, Navigator.SelectedNamespace n = Go.Done s
     /\ (~ Spec.in_bounds c (Go.len (Navigator.filteredNamespaces n)) -> s = "")
     /\ (Spec.in_bounds c (Go.len (Navigator.filteredNamespaces n)) ->
         Some s = nth_error (Navigator.filteredNamespaces n) (Z.to_nat c)))
  /\ (exists rt, Navigator.SelectedResourceType n = Go.Done rt
     /\ (~ Spec.in_bounds c (Go.len K8s.AllResourceTypes) ->
         rt = K8s.ResourceDeployments)
     /\ (Spec.in_bounds c (Go.len K8s.AllResourceTypes) ->
         Some rt = nth_error K8s.AllResourceTypes (Z.to_nat c))).
Proof.
  intros c. subst c.
  unfold Navigator.SelectedWorkload, Navigator.SelectedPod,
    Navigator.SelectedNamespace, Navigator.SelectedResourceType, Spec.in_bounds.
  repeat split.
  all: match goal with
       | |- context [(0 <=? ?c) && (?c <? Go.len ?l)] =>
           destruct (Z.leb_spec 0 c); destruct (Z.ltb_spec c (Go.len l)); simpl;
           try (eexists; split; [reflexivity|]; split; intros; [reflexivity | lia])
       end.
  all: match goal with
       | |- context [Go.index ?l ?c] =>
           let a := fresh "a" in let Hi := fresh "Hi" in let Hn := fresh "Hn" in
           destruct (index_in_range l c) as (a & Hi & Hn); [lia|];
           rewrite Hi; simpl; eexists; split; [reflexivity|]; split; intros;
           [lia | rewrite Hn; try split; try congruence]
       end.
Qed.

End NavigatorFilter.

(** ** Navigator: the visible window *)

Lemma small_is_int (z : Z) : -2 ^ 63 <= z < 2 ^ 63 -> Go.is_int z.
Proof. unfold Go.is_int, Go.min_int, Go.max_int. lia. Qed.

Lemma half_bounds (z : Z) :
  0 <= z -> 0 <= Z.quot z 2 /\ 2 * Z.quot z 2 <= z < 2 * Z.quot z 2 + 2.
Proof.
  intros Hz. rewrite Z.quot_div_nonneg by lia.
  pose proof (Z.div_mod z 2 ltac:(lia)). pose proof (Z.mod_pos_bound z 2 ltac:(lia)).
  lia.
Qed.

(** Removes the wrap-around of an operation whose exact result fits. *)
Ltac exact_arith :=
  unfold Go.sub, Go.add, Go.div;
  repeat match goal with
         | |- context [Go.wrap ?z] => rewrite (wrap_id z) by (apply small_is_int; lia)
         end.

Section NavigatorWindow.
Context `{E : Externals}.

Lemma visibleRange_rows (n : Navigator.t) :
  Spec.small (Navigator.height n) ->
  (if Go.sub (Navigator.height n) 8 <? 5 then 15
   else Go.sub (Navigator.height n) 8)
  = Spec.rows (Navigator.height n).
Proof.
  unfold Spec.small, Spec.rows. intros H. now exact_arith.
Qed.

(** C8 (as the code has it).  The visible window depends on the total,
    the cursor and the navigator height only.  With [rows] the height
    minus the 8 rows of frame (15 when fewer than 5 would remain): a
    list of at most [rows] items is shown whole; a longer one shows
    exactly [rows] items, starting [rows/2] above the cursor, moved back
    inside when that would pass either end, so 0 <= start <= end <=
    total.  total=50, cursor=25, height=18 (10 rows) gives [20,30);
    total=10, cursor=0, height=20 gives [0,10). *)
Theorem C8_visibleRange_window (n : Navigator.t) (total : Z) :
  0 <= total < 2 ^ 62 ->
  Spec.small (Navigator.height n) ->
  Spec.small (Navigator.cursor n) ->
  let r := Navigator.visibleRange total n in
  let c := Navigator.cursor n in
  let rows := Spec.rows (Navigator.height n) in
  (forall n' : Navigator.t,
      Navigator.cursor n' = c -> Navigator.height n' = Navigator.height n ->
      Navigator.visibleRange total n' = r)
  /\ 0 <= Navigator.start r <= Navigator.end_ r
  /\ Navigator.end_ r <= total
  /\ (total <= rows -> Navigator.start r = 0 /\ Navigator.end_ r = total)
  /\ (rows < total ->
      Navigator.end_ r - Navigator.start r = rows
      /\ (0 <= c - Z.quot rows 2 -> c - Z.quot rows 2 + rows <= total ->
          Navigator.start r = c - Z.quot rows 2)
      /\ (c - Z.quot rows 2 < 0 -> Navigator.start r = 0)
      /\ (total < c - Z.quot rows 2 + rows -> Navigator.end_ r = total))
  /\ (total = 50 -> c = 25 -> Navigator.height n = 18 ->
      r = {| Navigator.start := 20; Navigator.end_ := 30 |})
  /\ (total = 10 -> c = 0 -> Navigator.height n = 20 ->
      r = {| Navigator.start := 0; Navigator.end_ := 10 |}).
Proof.
  intros Ht Hh Hc r c rows.
  split.
  { intros n' Hc' Hh'. subst r c. unfold Navigator.visibleRange.
    now rewrite Hc', Hh'. }
  assert (Hrows : 5 <= rows < 2 ^ 62).
  { subst rows. unfold Spec.rows, Spec.small in *.
    destruct (Z.ltb_spec (Navigator.height n - 8) 5); lia. }
  assert (Hr : r =
    if rows <? total then
      let s := if c - Z.quot rows 2 <? 0 then 0 else c - Z.quot rows 2 in
      if total <? s + rows
      then {| Navigator.start := total - rows; Navigator.end_ := total |}
      else {| Navigator.start := s; Navigator.end_ := s + rows |}
    else {| Navigator.start := 0; Navigator.end_ := total |}).
  { subst r. unfold Navigator.visibleRange. cbv zeta.
    rewrite !(visibleRange_rows n Hh). fold rows. fold c.
    pose proof (half_bounds rows ltac:(lia)) as Hq.
    unfold Spec.small in Hc. fold c in Hc.
    destruct (Z.ltb_spec rows total); [|reflexivity].
    cbv zeta. exact_arith.
    destruct (Z.ltb_spec (c - Z.quot rows 2) 0); exact_arith;
      match goal with |- context [total <? ?e] => destruct (Z.ltb_spec total e) end;
      try reflexivity;
      destruct (Z.ltb_spec (total - rows) 0); try lia; reflexivity. }
  pose proof (half_bounds rows ltac:(lia)) as Hq.
  assert (Hex : forall t0 c0 h0 : Z,
             total = t0 -> c = c0 -> Navigator.height n = h0 ->
             r = (if Spec.rows h0 <? t0 then
                    let s := if c0 - Z.quot (Spec.rows h0) 2 <? 0 then 0
                             else c0 - Z.quot (Spec.rows h0) 2 in
                    if t0 <? s + Spec.rows h0
                    then {| Navigator.start := t0 - Spec.rows h0;
                            Navigator.end_ := t0 |}
                    else {| Navigator.start := s;
                            Navigator.end_ := s + Spec.rows h0 |}
                  else {| Navigator.start := 0; Navigator.end_ := t0 |})).
  { intros t0 c0 h0 <- <- <-. exact Hr. }
  repeat match goal with |- _ /\ _ => split end;
    try (intros Ht0 Hc0 Hh0; rewrite (Hex _ _ _ Ht0 Hc0 Hh0); reflexivity);
    clear Hex; rewrite Hr; clear Hr;
    destruct (Z.ltb_spec rows total) as [Hlt|Hge]; cbv zeta;
    try (destruct (Z.ltb_spec (c - Z.quot rows 2) 0) as [Hs|Hs];
         match goal with
         | |- context [total <? ?e] => destruct (Z.ltb_spec total e)
         end);
    simpl; intros; lia.
Qed.

End NavigatorWindow.

(** C8, the claim as written: a navigator 10 rows high, the cursor on
    item 25 of 50, shows [18,33) and not [20,30). *)
Lemma C8_counterexample_height_10 :
  let n := Navigator.with_height 10
             (Navigator.with_cursor 25 (Navigator.NewNavigator (E := Sample.externals))) in
  Navigator.cursor n = 25 /\ Navigator.height n = 10
  /\ Navigator.visibleRange 50 n = {| Navigator.start := 18; Navigator.end_ := 33 |}
  /\ Navigator.visibleRange 50 n <> {| Navigator.start := 20; Navigator.end_ := 30 |}.
Proof. vm_compute. repeat split; discriminate. Qed.

Lemma C8_visibleRange_window_witness :
  let n := Navigator.with_height 18
             (Navigator.with_cursor 25 (Navigator.NewNavigator (E := Sample.externals))) in
  Navigator.visibleRange 50 n = {| Navigator.start := 20; Navigator.end_ := 30 |}.
Proof.
  intros n.
  assert (Ht : 0 <= 50 < 2 ^ 62) by lia.
  assert (Hh : Spec.small (Navigator.height n)) by (vm_compute; split; congruence).
  assert (Hc : Spec.small (Navigator.cursor n)) by (vm_compute; split; congruence).
  destruct (C8_visibleRange_window n 50 Ht Hh Hc) as (_ & _ & _ & _ & _ & Hex & _).
  apply Hex; reflexivity.
Defined.

(** ** Navigator: the cursor stays on the list *)

Section NavigatorCursor.
Context `{E : Externals}.

Lemma maxItems_nonneg (n : Navigator.t) : 0 <= Navigator.maxItems n.
Proof. unfold Navigator.maxItems. destruct (Navigator.mode n); apply len_nonneg. Qed.

Lemma cursor_ok_zero (n : Navigator.t) :
  Navigator.cursor n = 0 -> Navigator.cursor_ok n.
Proof. unfold Navigator.cursor_ok. intros ->. split; intros; lia. Qed.

Lemma cursor_ok_range (n : Navigator.t) :
  Navigator.cursor_ok n ->
  0 <= Navigator.cursor n
  /\ (Navigator.cursor n = 0 \/ Navigator.cursor n < Navigator.maxItems n).
Proof.
  unfold Navigator.cursor_ok. intros [H1 H0].
  pose proof (maxItems_nonneg n). lia.
Qed.

Lemma cursor_ok_move (c : Z) (n : Navigator.t) :
  0 <= c -> (c = 0 \/ c < Navigator.maxItems n) ->
  Navigator.cursor_ok (Navigator.with_cursor c n).
Proof.
  intros Hc Hm. unfold Navigator.cursor_ok.
  change (Navigator.maxItems (Navigator.with_cursor c n)) with (Navigator.maxItems n).
  change (Navigator.cursor (Navigator.with_cursor c n)) with c.
  pose proof (maxItems_nonneg n). split; intros; lia.
Qed.

(** Every key the Navigator handles keeps the cursor on the filtered
    list of the current mode. *)
Lemma cursor_ok_Update (k : string) (n : Navigator.t) :
  Navigator.maxItems n < 2 ^ 62 ->
  Navigator.cursor_ok n ->
  Navigator.cursor_ok (fst (Navigator.Update (Tea.KeyMsg k) n)).
Proof.
  intros Hsmall Hok. pose proof (cursor_ok_range n Hok) as [H0 Hm].
  pose proof (maxItems_nonneg n) as Hn.
  unfold Navigator.Update.
  destruct (Navigator.searching n).
  { destruct (_ || _); [now apply cursor_ok_zero|].
    destruct (ti_Update _ _). now apply cursor_ok_zero. }
  repeat match goal with
         | |- context [Keys.Matches k ?b] => destruct (Keys.Matches k b)
         end; simpl fst; try assumption.
  - unfold Navigator.moveUp. destruct (Z.ltb_spec 0 (Navigator.cursor n)); [|assumption].
    apply cursor_ok_move; exact_arith; lia.
  - unfold Navigator.moveDown. revert Hm. exact_arith. intros Hm.
    destruct (Z.ltb_spec (Navigator.cursor n) (Navigator.maxItems n - 1)); [|assumption].
    apply cursor_ok_move; exact_arith; lia.
  - now apply cursor_ok_zero.
  - exact_arith. apply cursor_ok_move;
      destruct (Z.ltb_spec (Navigator.maxItems n - 1) 0); lia.
  - unfold Navigator.pageUp. exact_arith. apply cursor_ok_move;
      destruct (Z.ltb_spec (Navigator.cursor n - 10) 0); lia.
  - unfold Navigator.pageDown. exact_arith. apply cursor_ok_move;
      destruct (Z.ltb_spec (Navigator.maxItems n - 1) (Navigator.cursor n + 10));
      match goal with |- context [?e <? 0] => destruct (Z.ltb_spec e 0) end; lia.
  - now apply cursor_ok_zero.
Qed.

(** [SetMode], [SetPods] and [SetWorkloads] keep it there as well, in
    every mode; [SetNamespaces] does so outside the namespace list. *)
Lemma cursor_ok_setters (n : Navigator.t) :
  Navigator.cursor_ok n ->
  (forall m, Navigator.cursor_ok (Navigator.SetMode m n))
  /\ (forall ps, Navigator.cursor_ok (Navigator.SetPods ps n))
  /\ (forall ws, Navigator.cursor_ok (Navigator.SetWorkloads ws n))
  /\ (forall nss, Navigator.mode n <> Navigator.ModeNamespace ->
                  Navigator.cursor_ok (Navigator.SetNamespaces nss n)).
Proof.
  intros Hok. pose proof (cursor_ok_range n Hok) as [H0 Hm].
  split; [|split; [|split]].
  - intros m. now apply cursor_ok_zero.
  - intros ps. now apply cursor_ok_zero.
  - intros ws. unfold Navigator.SetWorkloads.
    match goal with |- context [?a <=? ?b] => destruct (Z.leb_spec a b) as [Hle|Hgt] end;
      [now apply cursor_ok_zero|].
    revert Hgt Hok Hm H0.
    unfold Navigator.cursor_ok, Navigator.maxItems, Navigator.filteredWorkloads,
      Navigator.filteredPods, Navigator.filteredNamespaces, Navigator.with_workloads.
    destruct n as [ws0 ps nss c [] w h si sg sq rt ks]; simpl;
      intros Hgt Hok Hm H0; lia.
  - intros nss Hmode. revert Hok.
    unfold Navigator.cursor_ok, Navigator.maxItems, Navigator.filteredWorkloads,
      Navigator.filteredPods, Navigator.filteredNamespaces, Navigator.SetNamespaces,
      Navigator.with_namespaces.
    destruct n as [ws ps nss0 c [] w h si sg sq rt ks]; simpl; try congruence; tauto.
Qed.

End NavigatorCursor.

(** C6, at the failing input.  The navigator lists three namespaces with
    the cursor on the last one (reached from NewNavigator by SetNamespaces,
    SetMode and two "j" keys); SetNamespaces with a single namespace then
    leaves the cursor at 2 on a list of length 1. *)
Theorem C6_SetNamespaces_leaves_cursor_outside :
  let n := Sample.n_namespaces in
  let n' := Navigator.SetNamespaces ["default"] n in
  Navigator.cursor_ok n
  /\ Navigator.mode n' = Navigator.ModeNamespace
  /\ Navigator.filteredNamespaces n' = ["default"]
  /\ Navigator.maxItems n' = 1
  /\ Navigator.cursor n' = 2
  /\ ~ Navigator.cursor_ok n'
  /\ Navigator.SelectedNamespace n' = Go.Done "".
Proof.
  cbv zeta. unfold Navigator.cursor_ok.
  replace (Navigator.maxItems Sample.n_namespaces) with 3 by (vm_compute; reflexivity).
  replace (Navigator.cursor Sample.n_namespaces) with 2 by (vm_compute; reflexivity).
  replace (Navigator.maxItems (Navigator.SetNamespaces ["default"] Sample.n_namespaces))
    with 1 by (vm_compute; reflexivity).
  replace (Navigator.cursor (Navigator.SetNamespaces ["default"] Sample.n_namespaces))
    with 2 by (vm_compute; reflexivity).
  repeat split; try reflexivity; lia.
Qed.

(** ** The menus never index past their items *)

Lemma shortcut_index_nonneg (k : string) (i : Z) :
  shortcut_index k = Some i -> 0 <= i.
Proof.
  unfold shortcut_index. destruct k as [|c [|]]; try discriminate.
  destruct (_ && _)%bool; [|discriminate]. intros [= <-]. lia.
Qed.

Lemma PodActionMenu_Update_total (msg : Tea.Msg) (m : PodActionMenu.t) :
  exists m' c, PodActionMenu.Update msg m = Go.Done (m', c)
               /\ (c = Tea.CmdNil \/ exists item, c = Tea.CmdEmit (Tea.PodActionMenuResult item)).
Proof.
  assert (Hchoose : forall i, 0 <= i < Go.len (PodActionMenu.items m) ->
            exists m' c, PodActionMenu.choose i m = Go.Done (m', c)
              /\ (c = Tea.CmdNil
                  \/ exists item, c = Tea.CmdEmit (Tea.PodActionMenuResult item))).
  { intros i Hi. unfold PodActionMenu.choose.
    destruct (index_in_range _ _ Hi) as (a & -> & _). simpl. eauto 6. }
  unfold PodActionMenu.Update.
  destruct (negb _); [eauto 6|]. destruct msg; eauto 6.
  repeat match goal with
         | |- context [if ?b then _ else _] =>
             lazymatch b with
             | orb _ _ => destruct b
             | String.eqb _ _ => destruct b
             end
         end; eauto 6.
  - destruct (Z.leb_spec 0 (PodActionMenu.selected m));
      destruct (Z.ltb_spec (PodActionMenu.selected m) (Go.len (PodActionMenu.items m)));
      simpl; eauto 6; apply Hchoose; lia.
  - destruct (shortcut_index key) as [idx|] eqn:Hs; eauto 6.
    apply shortcut_index_nonneg in Hs.
    destruct (Z.ltb_spec idx (Go.len (PodActionMenu.items m))); eauto 6;
      apply Hchoose; lia.
Qed.

Section MenuFacts.
Context `{E : Externals}.

Lemma ActionMenu_Update_total (msg : Tea.Msg) (m : ActionMenu.t) :
  exists m' c effs, ActionMenu.Update msg m = Go.Done (m', c, effs)
    /\ (c = Tea.CmdNil
        \/ exists item err, c = Tea.CmdEmit (Tea.ActionMenuResult item true err)).
Proof.
  assert (Hchoose : forall i, 0 <= i < Go.len (ActionMenu.items m) ->
            exists m' c effs, ActionMenu.choose i m = Go.Done (m', c, effs)
              /\ (c = Tea.CmdNil
                  \/ exists item err,
                       c = Tea.CmdEmit (Tea.ActionMenuResult item true err))).
  { intros i Hi. unfold ActionMenu.choose.
    destruct (index_in_range _ _ Hi) as (a & -> & _). simpl. eauto 8. }
  unfold ActionMenu.Update.
  destruct (negb _); [eauto 8|]. destruct msg; eauto 8.
  repeat match goal with
         | |- context [if ?b then _ else _] =>
             lazymatch b with
             | orb _ _ => destruct b
             | String.eqb _ _ => destruct b
             end
         end; eauto 8.
  - destruct (Z.leb_spec 0 (ActionMenu.selected m));
      destruct (Z.ltb_spec (ActionMenu.selected m) (Go.len (ActionMenu.items m)));
      simpl; eauto 8; apply Hchoose; lia.
  - destruct (shortcut_index key) as [idx|] eqn:Hs; eauto 8.
    apply shortcut_index_nonneg in Hs.
    destruct (Z.ltb_spec idx (Go.len (ActionMenu.items m))); eauto 8;
      apply Hchoose; lia.
Qed.

Lemma ResultViewer_Update_cmd (msg : Tea.Msg) (r : ResultViewer.t) :
  exists c, snd (ResultViewer.Update msg r) = lib_cmd c.
Proof.
  unfold ResultViewer.Update. destruct (negb _); [now exists None|].
  destruct (vp_Update msg (ResultViewer.viewport r)) as [v c].
  destruct msg; simpl; try (now exists c).
  repeat match goal with
         | |- context [if ?b then _ else _] => destruct b
         end; simpl; solve [now exists None | now exists c].
Qed.

End MenuFacts.

(** ** Dashboard: overlays claim the keys *)

Section DashboardOverlays.
Context `{E : Externals}.

(** C2.  While an overlay reports visible, a key handled by the
    Dashboard goes to one component only, the visible overlay that comes
    first in Confirm > ResultViewer > PodActionMenu > ActionMenu > Help:
    the step is that overlay's own key handling, nothing but that
    overlay's state can change, and the logs, events, metrics and
    manifest panels are left as they were. *)
Theorem C2_overlay_priority_routing (d : Dashboard.t) (k : string) :
  Dashboard.HasActiveOverlay d = true ->
  exists o d' c effs,
    Overlay.top d = Some o
    /\ Dashboard.Update (Tea.KeyMsg k) d = Go.Done (d', c, effs)
    /\ Overlay.deliver o k d = Go.Done (d', c, effs)
    /\ Overlay.only_changes o d d'
    /\ Overlay.panels_kept d d'.
Proof.
  unfold Dashboard.HasActiveOverlay, Overlay.top, Overlay.priority,
    Overlay.panels_kept. simpl find. unfold Dashboard.Update.
  destruct (ConfirmDialog.IsVisible (Dashboard.confirmDialog d)) eqn:Hc.
  { intros _. exists Overlay.Confirm. simpl.
    destruct (confirm_Update _ _) as [cd c]. do 3 eexists.
    repeat split; reflexivity. }
  destruct (ResultViewer.IsVisible (Dashboard.resultViewer d)) eqn:Hr.
  { intros _. exists Overlay.Result. simpl.
    destruct (ResultViewer.Update _ _) as [rv c]. do 3 eexists.
    repeat split; reflexivity. }
  destruct (PodActionMenu.IsVisible (Dashboard.podActionMenu d)) eqn:Hp.
  { intros _. exists Overlay.PodActions. simpl.
    destruct (PodActionMenu_Update_total (Tea.KeyMsg k) (Dashboard.podActionMenu d))
      as (m' & c & -> & _). simpl. do 3 eexists.
    repeat split; reflexivity. }
  destruct (ActionMenu.IsVisible (Dashboard.actionMenu d)) eqn:Ha.
  { intros _. exists Overlay.Actions. simpl.
    destruct (ActionMenu_Update_total (Tea.KeyMsg k) (Dashboard.actionMenu d))
      as (m' & c & effs & -> & _). simpl. do 3 eexists.
    repeat split; reflexivity. }
  destruct (HelpPanel.IsVisible (Dashboard.help d)) eqn:Hh; [|discriminate].
  intros _. exists Overlay.Help. simpl.
  destruct ((k =? "?")%string || (k =? "esc")%string); do 3 eexists;
    repeat split; try reflexivity.
  now destruct d.
Qed.

End DashboardOverlays.

Lemma C2_overlay_priority_routing_witness :
  let d := Dashboard.with_actionMenu
             (ActionMenu.Show "Copy kubectl command" [] ActionMenu.New)
             (Dashboard.with_confirmDialog
                (ConfirmDialog.Show "Delete Pod" "?" "delete"
                   (Tea.PodPtr (Some Sample.web_7f9)) ConfirmDialog.New)
                Sample.d0) in
  Dashboard.HasActiveOverlay d = true
  /\ exists d' c effs,
       Dashboard.Update (E := Sample.externals) (Tea.KeyMsg "esc") d
       = Go.Done (d', c, effs)
       /\ Overlay.only_changes Overlay.Confirm d d'
       /\ Dashboard.actionMenu d' = Dashboard.actionMenu d.
Proof.
  intros d. split; [reflexivity|].
  destruct (C2_overlay_priority_routing d "esc" eq_refl)
    as (o & d' & c & effs & Htop & Hupd & _ & Honly & _).
  assert (Ho : o = Overlay.Confirm) by (vm_compute in Htop; congruence).
  subst o. exists d', c, effs. repeat split; try assumption.
  unfold Overlay.only_changes in Honly. rewrite Honly. reflexivity.
Defined.

(** ** Dashboard: confirm before execute *)

Section DashboardConfirm.
Context `{E : Externals}.

Lemma harmless_lib (c : option string) : harmless (lib_cmd c).
Proof. destruct c; split; reflexivity. Qed.

Lemma harmless_batch_lib (c : option string) : harmless (Tea.CmdBatch [lib_cmd c]).
Proof. destruct c; split; reflexivity. Qed.

Lemma harmless_confirm (c : option (bool * string * Tea.Payload)) :
  harmless (confirm_cmd c).
Proof. destruct c as [[[? ?] ?]|]; split; reflexivity. Qed.

Lemma harmless_toFocusedPanel (msg : Tea.Msg) (d : Dashboard.t) :
  harmless (snd (Dashboard.toFocusedPanel msg d)).
Proof.
  unfold Dashboard.toFocusedPanel.
  repeat match goal with
         | |- context [if ?b then _ else _] => destruct b
         | |- context [let '(_, _) := ?x in _] => destruct x
         end; simpl; try apply harmless_batch_lib. split; reflexivity.
Qed.

Lemma harmless_onKey (k : string) (d d' : Dashboard.t) (c : Tea.Cmd)
      (effs : list Tea.Effect) :
  Dashboard.onKey k d = Go.Done (d', c, effs) -> harmless c.
Proof.
  unfold Dashboard.onKey.
  repeat match goal with
         | |- context [Keys.Matches k ?b] => destruct (Keys.Matches k b)
         end;
    try (intros [= <- <- <-]; split; reflexivity).
  - destruct (Dashboard.pod _); intros [= <- <- <-]; split; reflexivity.
  - destruct (Dashboard.pod _); [|intros [= <- <- <-]; split; reflexivity].
    destruct (ActionMenu.KubectlCommands _ _ _ _); simpl; [|discriminate].
    intros [= <- <- <-]; split; reflexivity.
  - pose proof (harmless_toFocusedPanel (Tea.KeyMsg k)
                  (Dashboard.with_statusMsg "" d)) as H.
    destruct (Dashboard.toFocusedPanel _ _). now intros [= <- <- <-].
Qed.

Lemma harmless_onPodAction (item : Tea.PodActionItem) (d d' : Dashboard.t)
      (c : Tea.Cmd) (effs : list Tea.Effect) :
  Dashboard.onPodAction item d = Go.Done (d', c, effs) -> harmless c.
Proof.
  unfold Dashboard.onPodAction, Dashboard.podName.
  repeat match goal with
         | |- context [String.eqb ?a ?b] => destruct (String.eqb a b)
         end; simpl;
    try (destruct (Dashboard.pod d); simpl; [|discriminate]);
    intros [= <- <- <-]; split; reflexivity.
Qed.

(** What a step of the Dashboard may start: nothing that deletes or
    executes, unless the message is a confirmation. *)
Lemma Update_cmd_cases (msg : Tea.Msg) (d d' : Dashboard.t) (c : Tea.Cmd)
      (effs : list Tea.Effect) :
  Dashboard.Update msg d = Go.Done (d', c, effs) ->
  harmless c
  \/ (exists p, msg = Tea.ConfirmResult true "delete" (Tea.PodPtr p)
                /\ c = Tea.CmdDeletePodRequest p)
  \/ (exists action data item,
         msg = Tea.ConfirmResult true action data
         /\ (action = "exec" \/ action = "port-forward")
         /\ Dashboard.pendingAction d = Some item
         /\ c = Tea.CmdExecProcess (Tea.Command item)).
Proof.
  destruct msg; unfold Dashboard.Update;
    try match goal with
        | |- context [Dashboard.toFocusedPanel ?m d] =>
            let H := fresh "H" in
            pose proof (harmless_toFocusedPanel m d) as H;
            destruct (Dashboard.toFocusedPanel m d); intros [= <- <- <-]; now left
        end.
  - (* KeyMsg *)
    destruct (ConfirmDialog.IsVisible _).
    { destruct (confirm_Update _ _). intros [= <- <- <-]. left. apply harmless_confirm. }
    destruct (ResultViewer.IsVisible _).
    { pose proof (ResultViewer_Update_cmd (Tea.KeyMsg key) (Dashboard.resultViewer d))
        as [c0 Hc0].
      destruct (ResultViewer.Update _ _). simpl in Hc0. subst.
      intros [= <- <- <-]. left. apply harmless_lib. }
    destruct (PodActionMenu.IsVisible _).
    { destruct (PodActionMenu_Update_total (Tea.KeyMsg key) (Dashboard.podActionMenu d))
        as (m' & c0 & -> & Hc0). simpl. intros [= <- <- <-]. left.
      destruct Hc0 as [->|[item ->]]; split; reflexivity. }
    destruct (ActionMenu.IsVisible _).
    { destruct (ActionMenu_Update_total (Tea.KeyMsg key) (Dashboard.actionMenu d))
        as (m' & c0 & effs0 & -> & Hc0). simpl. intros [= <- <- <-]. left.
      destruct Hc0 as [->|(item & err & ->)]; split; reflexivity. }
    destruct (HelpPanel.IsVisible _).
    { destruct (_ || _); intros [= <- <- <-]; left; split; reflexivity. }
    destruct (_ && _).
    { destruct (logs_Update _ _). intros [= <- <- <-]. left. apply harmless_lib. }
    intros H. left. eapply harmless_onKey, H.
  - (* ExecFinishedMsg *) intros [= <- <- <-]. left. split; reflexivity.
  - (* DescribeOutputMsg *)
    destruct err; intros [= <- <- <-]; left; split; reflexivity.
  - (* ActionMenuResult *)
    destruct err; [|destruct copied]; intros [= <- <- <-]; left; split; reflexivity.
  - (* PodActionMenuResult *) intros H. left. eapply harmless_onPodAction, H.
  - (* ConfirmResult *)
    unfold Dashboard.onConfirmResult.
    destruct confirmed; [|intros [= <- <- <-]; left; split; reflexivity].
    destruct (String.eqb_spec action "delete") as [->|Hd].
    { destruct data; intros [= <- <- <-].
      - right. left. eauto.
      - left. split; reflexivity. }
    destruct (String.eqb_spec action "exec") as [He|He];
      destruct (String.eqb_spec action "port-forward") as [Hp|Hp]; simpl;
      try (intros [= <- <- <-]; left; split; reflexivity);
      (destruct (Dashboard.pendingAction d) as [item|] eqn:Hpa;
       intros [= <- <- <-];
       [right; right; exists action, data, item; repeat split; auto
       | left; split; reflexivity]).
Qed.

(** C1.  With a pod on display, choosing a "delete", "exec" or
    "port-forward" entry starts no command and has no effect in that
    step: it opens the confirm dialog with the action kind and the pod as
    payload, and for exec and port-forward records the entry as pending
    action.  A "copy" entry writes the clipboard at once and a "describe"
    entry starts the describe command at once, neither touching the
    dialog.  A command deleting a pod comes out of a step only when the
    message is a ConfirmResult with confirmed = true and action "delete".
    A ConfirmResult with confirmed = false clears the pending action,
    starts no command and changes nothing else. *)
Theorem C1_confirm_before_execute (d : Dashboard.t) (p : K8s.PodInfo)
        (item : Tea.PodActionItem) :
  Dashboard.pod d = Some p ->
  let act := Tea.Action item in
  let select := Dashboard.Update (Tea.PodActionMenuResult item) d in
  let payload := Tea.PodPtr (Some p) in
  (act = "delete" ->
     exists title message,
       select = Go.Done
         (Dashboard.with_confirmDialog
            (ConfirmDialog.Show title message "delete" payload
               (Dashboard.confirmDialog d)) d,
          Tea.CmdNil, []))
  /\ (act = "exec" \/ act = "port-forward" ->
     exists title message,
       select = Go.Done
         (Dashboard.with_confirmDialog
            (ConfirmDialog.Show title message act payload
               (Dashboard.confirmDialog d))
            (Dashboard.with_pendingAction (Some item) d),
          Tea.CmdNil, []))
  /\ (act = "copy" ->
     exists status,
       select = Go.Done (Dashboard.with_statusMsg status d, Tea.CmdNil,
                         [Tea.EffClipboard (Tea.Command item)]))
  /\ (act = "describe" ->
     select = Go.Done (Dashboard.with_statusMsg "Loading describe..." d,
                       Tea.CmdDescribe (Tea.Command item) (K8s.pName p), []))
  /\ (forall msg d' c effs,
        Dashboard.Update msg d = Go.Done (d', c, effs) ->
        existsb Tea.is_delete (Tea.atoms c) = true ->
        exists q, msg = Tea.ConfirmResult true "delete" (Tea.PodPtr q))
  /\ (forall action data,
        Dashboard.Update (Tea.ConfirmResult false action data) d
        = Go.Done (Dashboard.with_pendingAction None d, Tea.CmdNil, [])).
Proof.
  intros Hpod act select payload. subst act select payload.
  unfold Dashboard.Update, Dashboard.onPodAction, Dashboard.podName.
  repeat match goal with |- _ /\ _ => split end.
  - intros ->. simpl. rewrite Hpod. simpl. eauto.
  - intros [-> | ->]; simpl; rewrite Hpod; simpl; eauto.
  - intros ->. simpl. eauto.
  - intros ->. simpl. rewrite Hpod. reflexivity.
  - intros msg d' c effs Hupd Hdel.
    destruct (Update_cmd_cases msg d d' c effs Hupd)
      as [[Hd _] | [(q & -> & _) | (a & data & it & _ & _ & _ & ->)]].
    + congruence.
    + eauto.
    + discriminate.
  - reflexivity.
Qed.

End DashboardConfirm.

Lemma C1_confirm_before_execute_witness :
  Dashboard.pod Sample.d0 = Some Sample.web_7f9
  /\ exists d',
       Dashboard.Update (E := Sample.externals)
         (Tea.PodActionMenuResult (Sample.an_item "delete")) Sample.d0
       = Go.Done (d', Tea.CmdNil, [])
       /\ ConfirmDialog.IsVisible (Dashboard.confirmDialog d') = true
       /\ ConfirmDialog.action (Dashboard.confirmDialog d') = "delete"
       /\ ConfirmDialog.data (Dashboard.confirmDialog d')
          = Tea.PodPtr (Some Sample.web_7f9).
Proof.
  split; [reflexivity|].
  destruct (C1_confirm_before_execute Sample.d0 Sample.web_7f9
              (Sample.an_item "delete") eq_refl) as [Hdelete _].
  destruct (Hdelete eq_refl) as (title & message & Hstep).
  eexists. split; [exact Hstep|]. repeat split.
Defined.

(** ** Root controller: a load error stays on screen *)

(** Splits every [match], [if] and destructuring [let] of the goal. *)
Ltac split_matches :=
  repeat match goal with
         | |- context [match ?x with _ => _ end] =>
             first [ is_var x; destruct x | let H := fresh "Hm" in destruct x eqn:H ]
         end.

Section RootErrors.
Context `{E : Externals}.

Lemma handleBack_err (m : App.t) : App.err (fst (App.handleBack m)) = App.err m.
Proof. unfold App.handleBack. split_matches; reflexivity. Qed.

Lemma refresh_err (m : App.t) : App.err (fst (App.refresh m)) = App.err m.
Proof. unfold App.refresh. split_matches; reflexivity. Qed.

Lemma handleEnter_err (m m' : App.t) (c : Tea.Cmd) :
  App.handleEnter m = Go.Done (m', c) -> App.err m' = App.err m.
Proof.
  unfold App.handleEnter, Go.bind. split_matches;
    try discriminate; intros [= <- <-]; reflexivity.
Qed.

Lemma toView_err (msg : Tea.Msg) (m m' : App.t) (c : Tea.Cmd)
      (effs : list Tea.Effect) :
  App.toView msg m = Go.Done (m', c, effs) -> App.err m' = App.err m.
Proof.
  unfold App.toView, Go.bind.
  destruct (App.view m).
  - destruct (_ && _); [intros [= <- <- <-]; reflexivity|].
    destruct (Navigator.Update msg (App.navigator m)).
    intros [= <- <- <-]; reflexivity.
  - destruct (Dashboard.Update msg (App.dashboard m)) as [[[d c0] e0]|];
      [|discriminate]. intros [= <- <- <-]; reflexivity.
Qed.

(** No step clears [err]: it changes only when a load result brings a
    new error. *)
Lemma Update_err (msg : Tea.Msg) (m m' : App.t) (c : Tea.Cmd)
      (effs : list Tea.Effect) :
  App.Update msg m = Go.Done (m', c, effs) ->
  App.err m' = App.err m
  \/ exists e, App.err m' = Some e
               /\ ((exists ws nss, msg = Tea.loadedMsg ws nss (Some e))
                   \/ (exists ps, msg = Tea.podsLoadedMsg ps (Some e))).
Proof.
  destruct msg; unfold App.Update;
    try (intros H; left; exact (toView_err _ _ _ _ _ H)).
  - (* KeyMsg *)
    destruct (HelpPanel.IsVisible _).
    { destruct (_ || _); intros [= <- <- <-]; now left. }
    destruct (_ && _).
    { repeat match goal with
             | |- context [String.eqb key ?s] => destruct (String.eqb key s)
             end; try (intros [= <- <- <-]; now left).
      destruct (Navigator.Update _ _). intros [= <- <- <-]; now left. }
    repeat match goal with
           | |- context [Keys.Matches key ?b] => destruct (Keys.Matches key b)
           end; try (intros [= <- <- <-]; now left).
    + pose proof (refresh_err m) as H. destruct (App.refresh m).
      intros [= <- <- <-]; now left.
    + destruct (App.view m); [intros [= <- <- <-]; now left|].
      intros H; left; exact (toView_err _ _ _ _ _ H).
    + pose proof (handleBack_err m) as H. destruct (App.handleBack m).
      intros [= <- <- <-]; now left.
    + destruct (App.handleEnter m) as [[m1 c1]|] eqn:He; simpl; [|discriminate].
      intros [= <- <- <-]. left. exact (handleEnter_err _ _ _ He).
    + intros H; left; exact (toView_err _ _ _ _ _ H).
  - (* WindowSizeMsg *) intros [= <- <- <-]; now left.
  - (* SpinnerTickMsg *) destruct (sp_Update _ _). intros [= <- <- <-]; now left.
  - (* loadedMsg *)
    destruct err as [e|]; intros [= <- <- <-]; [right|now left].
    exists e. split; [reflexivity|]. left. eauto.
  - (* podsLoadedMsg *)
    destruct err as [e|]; intros [= <- <- <-]; [right|now left].
    exists e. split; [reflexivity|]. right. eauto.
  - (* dashboardDataMsg *) intros [= <- <- <-]; now left.
  - (* tickMsg *)
    destruct (App.view m); [|destruct (App.pod m)]; intros [= <- <- <-]; now left.
Qed.

(** C3 (as the code has it).  A namespaces/workloads or pods load result
    carrying an error makes View draw the full-screen error.  From then
    on every step that returns leaves an error on screen: no message
    clears it.  An explicit refresh in the Navigator view re-issues a
    workloads load (whichever load had failed) and sets the loading
    flag, but the successful result that follows leaves the error
    screen in place. *)
Theorem C3_load_error_stays_on_screen (m : App.t) :
  (forall ws nss e,
      exists m', App.Update (Tea.loadedMsg ws nss (Some e)) m
                 = Go.Done (m', Tea.CmdNil, [])
                 /\ App.View m' = App.ScreenError e)
  /\ (forall ps e,
      exists m', App.Update (Tea.podsLoadedMsg ps (Some e)) m
                 = Go.Done (m', Tea.CmdNil, [])
                 /\ App.View m' = App.ScreenError e)
  /\ (forall e msg m' c effs,
      App.err m = Some e ->
      App.Update msg m = Go.Done (m', c, effs) ->
      exists e', App.View m' = App.ScreenError e')
  /\ (forall e,
      App.err m = Some e -> App.view m = App.ViewNavigator ->
      App.refresh m
      = (App.with_loading true m,
         Tea.CmdLoadWorkloads (Navigator.ResourceType (App.navigator m)))
      /\ App.View (App.with_loading true m) = App.ScreenError e)
  /\ (forall e ws nss,
      App.err m = Some e ->
      exists m', App.Update (Tea.loadedMsg ws nss None) m
                 = Go.Done (m', Tea.CmdNil, [])
                 /\ App.View m' = App.ScreenError e).
Proof.
  repeat match goal with |- _ /\ _ => split end.
  - intros ws nss e. eexists. split; reflexivity.
  - intros ps e. eexists. split; reflexivity.
  - intros e msg m' c effs He Hupd.
    destruct (Update_err _ _ _ _ _ Hupd) as [H | (e' & H & _)].
    + exists e. unfold App.View. now rewrite H, He.
    + exists e'. unfold App.View. now rewrite H.
  - intros e He Hv. unfold App.refresh, App.View. rewrite Hv. simpl.
    now rewrite He.
  - intros e ws nss He. eexists. split; [reflexivity|].
    unfold App.View. simpl. now rewrite He.
Qed.

End RootErrors.

(** C3, the claim as written: the first load fails, the user presses "r",
    the retried load succeeds, and the screen still shows the error. *)
Lemma C3_counterexample_refresh_does_not_recover :
  exists l,
    Loop.run (E := Sample.externals) Sample.failed_load_then_refresh
             (Loop.start Sample.m0) = Go.Done l
    /\ Navigator.workloads (App.navigator (Loop.model l)) = [Sample.web; Sample.db]
    /\ App.loading (Loop.model l) = false
    /\ App.View (Loop.model l) = App.ScreenError "connection refused"
    /\ App.View (Loop.model l) <> App.ScreenNavigator.
Proof.
  set (get := fun o : Go.outcome (Loop.t (E := Sample.externals)) =>
                match o with
                | Go.Done l => l
                | Go.Panic => Loop.start Sample.m0
                end).
  exists (get (Loop.run Sample.failed_load_then_refresh (Loop.start Sample.m0))).
  repeat match goal with
         | |- _ /\ _ => split; [vm_compute; reflexivity|]
         end.
  vm_compute. discriminate.
Qed.

Lemma C3_load_error_stays_on_screen_witness :
  let m := App.with_err (Some "connection refused") Sample.m0 in
  App.err m = Some "connection refused"
  /\ exists m',
       App.Update (E := Sample.externals)
         (Tea.loadedMsg [Sample.web] ["default"] None) m
       = Go.Done (m', Tea.CmdNil, [])
       /\ App.View m' = App.ScreenError "connection refused".
Proof.
  intros m. split; [reflexivity|].
  destruct (C3_load_error_stays_on_screen m) as (_ & _ & _ & _ & Hok).
  exact (Hok "connection refused" [Sample.web] ["default"] eq_refl).
Defined.

(** ** Root controller: the refresh timer *)

Section RootTimer.
Context `{E : Externals}.

(** C4 (as the code has it).  A tick handled while a pod is viewed
    leaves the model as it is and returns one batch of two commands that
    run concurrently: the dashboard-data fetch for the current pod and
    exactly one further tick after the configured interval.  The tick
    is scheduled in that same step; the message that completes a fetch
    schedules nothing. *)
Theorem C4_tick_batches_fetch_and_next_tick (m : App.t) (p : K8s.PodInfo) :
  App.view m = App.ViewDashboard ->
  App.pod m = Some p ->
  let interval := Config.RefreshInterval (App.config m) in
  (exists c,
      App.Update Tea.tickMsg m = Go.Done (m, c, [])
      /\ c = Tea.CmdBatch [Tea.CmdLoadDashboardData p; Tea.CmdTick interval]
      /\ Tea.atoms c = [Tea.CmdLoadDashboardData p; Tea.CmdTick interval])
  /\ (forall logs events metrics related helpers,
      exists m',
        App.Update (Tea.dashboardDataMsg logs events metrics related helpers) m
        = Go.Done (m', Tea.CmdNil, [])
        /\ App.view m' = App.ViewDashboard /\ App.pod m' = Some p).
Proof.
  intros Hv Hp interval. split.
  - eexists. unfold App.Update. rewrite Hv, Hp. repeat split.
  - intros. eexists. unfold App.Update. repeat split; assumption.
Qed.

(** C5 (as the code has it).  Back while viewing returns to the
    Navigator, clears the selected pod, shows the pods list (the
    workloads list when no workload is selected) and returns no command;
    the timer is not stopped, for the next tick handled there schedules
    a further tick, without a fetch.  Back in Pods mode clears the
    selected workload, returns to Workloads mode and issues a workloads
    reload.  Back in NamespaceSelect or ResourceTypeSelect mode returns
    to Workloads mode and issues nothing. *)
Theorem C5_back_transitions (m : App.t) :
  (App.view m = App.ViewDashboard ->
     exists m',
       App.handleBack m = (m', Tea.CmdNil)
       /\ App.view m' = App.ViewNavigator
       /\ App.pod m' = None
       /\ Navigator.mode (App.navigator m')
          = match App.workload m with
            | Some _ => Navigator.ModePods
            | None => Navigator.ModeWorkloads
            end
       /\ App.Update Tea.tickMsg m'
          = Go.Done (m', Tea.CmdTick (Config.RefreshInterval (App.config m')), []))
  /\ (App.view m = App.ViewNavigator ->
      Navigator.mode (App.navigator m) = Navigator.ModePods ->
      exists m',
        App.handleBack m
        = (m', Tea.CmdLoadWorkloads (Navigator.ResourceType (App.navigator m)))
        /\ App.view m' = App.ViewNavigator
        /\ App.workload m' = None
        /\ Navigator.mode (App.navigator m') = Navigator.ModeWorkloads)
  /\ (App.view m = App.ViewNavigator ->
      Navigator.mode (App.navigator m) = Navigator.ModeNamespace
      \/ Navigator.mode (App.navigator m) = Navigator.ModeResourceType ->
      exists m',
        App.handleBack m = (m', Tea.CmdNil)
        /\ App.view m' = App.ViewNavigator
        /\ Navigator.mode (App.navigator m') = Navigator.ModeWorkloads).
Proof.
  unfold App.handleBack, Navigator.Mode. repeat match goal with |- _ /\ _ => split end.
  - intros ->. destruct (App.workload m) eqn:Hw; eexists;
      (split; [cbn; rewrite Hw; reflexivity|]); repeat split.
  - intros Hv Hm. rewrite Hv, Hm. eexists; repeat split; exact Hv.
  - intros Hv [Hm | Hm]; rewrite Hv, Hm; eexists; repeat split; exact Hv.
Qed.

End RootTimer.

(** C4, the claim as written: pod "web-7f9" is on display with one fetch
    and one tick in flight.  The tick fires before the fetch completes:
    a second fetch starts and the next tick is in flight already; after
    one more tick three fetches run at once.  When instead the fetch
    completes first, its message schedules nothing. *)
Lemma C4_counterexample_tick_does_not_wait :
  exists l0 l1 l2 l0',
    Loop.run (E := Sample.externals) Sample.viewing_pod (Loop.start Sample.m0)
    = Go.Done l0
    /\ Loop.inflight l0
       = [Tea.CmdLib "spinner.Tick"; Tea.CmdLoadDashboardData Sample.web_7f9;
          Tea.CmdTick 5]
    /\ Loop.step (Loop.Completes 2 Tea.tickMsg) l0 = Go.Done l1
    /\ Loop.inflight l1
       = [Tea.CmdLib "spinner.Tick"; Tea.CmdLoadDashboardData Sample.web_7f9;
          Tea.CmdLoadDashboardData Sample.web_7f9; Tea.CmdTick 5]
    /\ Loop.step (Loop.Completes 3 Tea.tickMsg) l1 = Go.Done l2
    /\ Loop.count Tea.is_fetch l2 = 3%nat
    /\ Loop.count Tea.is_tick l2 = 1%nat
    /\ Loop.step (Loop.Completes 1 (Tea.dashboardDataMsg [] [] None None [])) l0
       = Go.Done l0'
    /\ Loop.inflight l0' = [Tea.CmdLib "spinner.Tick"; Tea.CmdTick 5].
Proof.
  set (get := fun o : Go.outcome (Loop.t (E := Sample.externals)) =>
                match o with
                | Go.Done l => l
                | Go.Panic => Loop.start Sample.m0
                end).
  set (l0 := get (Loop.run Sample.viewing_pod (Loop.start Sample.m0))).
  set (l1 := get (Loop.step (Loop.Completes 2 Tea.tickMsg) l0)).
  exists l0, l1, (get (Loop.step (Loop.Completes 3 Tea.tickMsg) l1)),
    (get (Loop.step (Loop.Completes 1 (Tea.dashboardDataMsg [] [] None None [])) l0)).
  repeat match goal with
         | |- _ /\ _ => split; [vm_compute; reflexivity|]
         end.
  vm_compute. reflexivity.
Qed.

Lemma C4_tick_batches_fetch_and_next_tick_witness :
  App.view Sample.m_viewing = App.ViewDashboard
  /\ App.pod Sample.m_viewing = Some Sample.web_7f9
  /\ App.Update (E := Sample.externals) Tea.tickMsg Sample.m_viewing
     = Go.Done (Sample.m_viewing,
                Tea.CmdBatch [Tea.CmdLoadDashboardData Sample.web_7f9; Tea.CmdTick 5],
                []).
Proof.
  split; [reflexivity|]. split; [reflexivity|].
  destruct (C4_tick_batches_fetch_and_next_tick Sample.m_viewing Sample.web_7f9
              eq_refl eq_refl) as [(c & Hstep & Hc & _) _].
  rewrite Hstep, Hc. reflexivity.
Defined.

(** C5, the claim as written: after Back from pod "web-7f9" the pending
    tick still fires, and handling it puts a further tick in flight. *)
Lemma C5_counterexample_timer_survives_back :
  exists l0 l1 l2,
    Loop.run (E := Sample.externals) Sample.viewing_pod (Loop.start Sample.m0)
    = Go.Done l0
    /\ Loop.step (Loop.Press "esc") l0 = Go.Done l1
    /\ App.view (Loop.model l1) = App.ViewNavigator
    /\ App.pod (Loop.model l1) = None
    /\ Loop.count Tea.is_tick l1 = 1%nat
    /\ Loop.step (Loop.Completes 2 Tea.tickMsg) l1 = Go.Done l2
    /\ Loop.count Tea.is_tick l2 = 1%nat
    /\ App.Update Tea.tickMsg (Loop.model l2)
       = Go.Done (Loop.model l2, Tea.CmdTick 5, []).
Proof.
  set (get := fun o : Go.outcome (Loop.t (E := Sample.externals)) =>
                match o with
                | Go.Done l => l
                | Go.Panic => Loop.start Sample.m0
                end).
  set (l0 := get (Loop.run Sample.viewing_pod (Loop.start Sample.m0))).
  set (l1 := get (Loop.step (Loop.Press "esc") l0)).
  exists l0, l1, (get (Loop.step (Loop.Completes 2 Tea.tickMsg) l1)).
  repeat match goal with
         | |- _ /\ _ => split; [vm_compute; reflexivity|]
         end.
  vm_compute. reflexivity.
Qed.

Lemma C5_back_transitions_witness :
  App.view Sample.m_viewing = App.ViewDashboard
  /\ exists m',
       App.handleBack (E := Sample.externals) Sample.m_viewing = (m', Tea.CmdNil)
       /\ App.view m' = App.ViewNavigator
       /\ App.pod m' = None
       /\ Navigator.mode (App.navigator m') = Navigator.ModePods.
Proof.
  split; [reflexivity|].
  destruct (C5_back_transitions Sample.m_viewing) as [Hback _].
  destruct (Hback eq_refl) as (m' & Hstep & Hview & Hpod & Hmode & _).
  exists m'. repeat split; assumption.
Defined.

(** ** Root controller: keys while the filter has the focus *)

Section RootSearch.
Context `{E : Externals}.

(** C7 (as the code has it).  While the Navigator is on screen and its
    text filter has the focus (the help overlay being closed), three
    keys are taken at the global level: Escape and Enter leave search
    mode and commit the text of the input as the active filter, and
    Ctrl+C saves the preferences and quits.  Every other key reaches the
    filter input, after which the active filter is the text of the input
    and the cursor is 0. *)
Theorem C7_keys_while_searching (m : App.t) (k : string) :
  HelpPanel.IsVisible (App.help m) = false ->
  App.view m = App.ViewNavigator ->
  Navigator.IsSearching (App.navigator m) = true ->
  let n := App.navigator m in
  (k = "esc" \/ k = "enter" ->
     App.Update (Tea.KeyMsg k) m
     = Go.Done (App.with_navigator (Navigator.CloseSearch n) m, Tea.CmdNil, [])
     /\ Navigator.searching (Navigator.CloseSearch n) = false
     /\ Navigator.searchQuery (Navigator.CloseSearch n)
        = ti_Value (Navigator.searchInput n)
     /\ Navigator.searchInput (Navigator.CloseSearch n) = Navigator.searchInput n)
  /\ (k = "ctrl+c" ->
      App.Update (Tea.KeyMsg k) m
      = Go.Done (m, Tea.CmdQuit, [Tea.EffSaveConfig (App.config m)]))
  /\ (k <> "esc" -> k <> "enter" -> k <> "ctrl+c" ->
      exists n',
        App.Update (Tea.KeyMsg k) m
        = Go.Done (App.with_navigator n' m,
                   lib_cmd (snd (ti_Update (Tea.KeyMsg k) (Navigator.searchInput n))),
                   [])
        /\ Navigator.searchInput n'
           = fst (ti_Update (Tea.KeyMsg k) (Navigator.searchInput n))
        /\ Navigator.searchQuery n' = ti_Value (Navigator.searchInput n')
        /\ Navigator.cursor n' = 0
        /\ Navigator.searching n' = true).
Proof.
  intros Hh Hv Hs n. subst n. unfold App.Update.
  rewrite Hh, Hv, Hs. simpl andb. cbv iota.
  repeat match goal with |- _ /\ _ => split end.
  - intros [-> | ->]; repeat split; reflexivity.
  - intros ->. reflexivity.
  - intros Hesc Henter Hquit.
    apply String.eqb_neq in Hesc, Henter, Hquit. rewrite Hesc, Henter, Hquit.
    unfold Navigator.Update. unfold Navigator.IsSearching in Hs. rewrite Hs.
    rewrite Henter, Hesc. simpl orb. cbv iota.
    destruct (ti_Update (Tea.KeyMsg k) (Navigator.searchInput (App.navigator m)))
      as [ti c]. eexists. repeat split. simpl. exact Hs.
Qed.

End RootSearch.

(** C7, the claim as written: Ctrl+C typed into the filter is taken at the
    global level as well: the program saves its preferences and quits, and
    the input does not receive the key. *)
Lemma C7_counterexample_ctrl_c_intercepted :
  Navigator.IsSearching (App.navigator Sample.m_searching) = true
  /\ App.Update (E := Sample.externals) (Tea.KeyMsg "ctrl+c") Sample.m_searching
     = Go.Done (Sample.m_searching, Tea.CmdQuit,
                [Tea.EffSaveConfig Config.DefaultConfig])
  /\ "ctrl+c" <> "esc" /\ "ctrl+c" <> "enter".
Proof. repeat split; discriminate. Qed.

Lemma C7_keys_while_searching_witness :
  exists n',
    App.Update (E := Sample.externals) (Tea.KeyMsg "n") Sample.m_searching
    = Go.Done (App.with_navigator n' Sample.m_searching, Tea.CmdNil, [])
    /\ Navigator.searchQuery n' = "n"
    /\ Navigator.cursor n' = 0.
Proof.
  destruct (C7_keys_while_searching Sample.m_searching "n" eq_refl eq_refl eq_refl)
    as (_ & _ & Hkey).
  destruct (Hkey ltac:(discriminate) ltac:(discriminate) ltac:(discriminate))
    as (n' & Hstep & Hin & Hq & Hc & _).
  exists n'. split; [exact Hstep|]. split; [|exact Hc].
  rewrite Hq, Hin. reflexivity.
Defined.

(** * Further properties of the code *)

(** ** Navigator *)

Lemma cursor_ok_Update_witness :
  Navigator.cursor_ok
    (fst (Navigator.Update (E := Sample.externals) (Tea.KeyMsg "k")
            Sample.n_namespaces)).
Proof.
  assert (Hok : Navigator.cursor_ok Sample.n_namespaces).
  { unfold Navigator.cursor_ok.
    replace (Navigator.maxItems Sample.n_namespaces) with 3 by (vm_compute; reflexivity).
    replace (Navigator.cursor Sample.n_namespaces) with 2 by (vm_compute; reflexivity).
    lia. }
  apply (cursor_ok_Update "k" Sample.n_namespaces); [|exact Hok].
  replace (Navigator.maxItems Sample.n_namespaces) with 3 by (vm_compute; reflexivity).
  lia.
Defined.

Lemma cursor_ok_setters_witness :
  Navigator.cursor_ok
    (Navigator.SetWorkloads (E := Sample.externals) [Sample.web] Sample.n_namespaces).
Proof.
  assert (Hok : Navigator.cursor_ok Sample.n_namespaces).
  { unfold Navigator.cursor_ok.
    replace (Navigator.maxItems Sample.n_namespaces) with 3 by (vm_compute; reflexivity).
    replace (Navigator.cursor Sample.n_namespaces) with 2 by (vm_compute; reflexivity).
    lia. }
  destruct (cursor_ok_setters Sample.n_namespaces Hok) as (_ & _ & Hws & _).
  apply Hws.
Defined.

Section NavigatorMore.
Context `{E : Externals}.

Lemma index_In {A : Type} (l : list A) (i : Z) (a : A) :
  Go.index l i = Go.Done a -> In a l.
Proof.
  unfold Go.index. destruct (_ || _); [discriminate|].
  destruct (nth_error l (Z.to_nat i)) eqn:Hn; [|discriminate].
  intros [= <-]. eapply nth_error_In, Hn.
Qed.

(** A selection accessor that returns an item returns one of the filtered
    collection: an item of the raw collection which, when a filter is
    active, matches it. *)
Theorem selection_is_filter_relative (n : Navigator.t) :
  let q := Navigator.searchQuery n in
  (forall w, Navigator.SelectedWorkload n = Go.Done (Some w) ->
     In w (Navigator.filteredWorkloads n) /\ In w (Navigator.workloads n)
     /\ (q <> "" -> Spec.ci_contains (K8s.wName w) q
                   \/ Spec.ci_contains (K8s.wStatus w) q))
  /\ (forall p, Navigator.SelectedPod n = Go.Done (Some p) ->
     In p (Navigator.filteredPods n) /\ In p (Navigator.pods n)
     /\ (q <> "" -> Spec.ci_contains (K8s.pName p) q
                   \/ Spec.ci_contains (K8s.pStatus p) q
                   \/ Spec.ci_contains (K8s.pNode p) q))
  /\ (forall s, Navigator.SelectedNamespace n = Go.Done s -> s <> "" ->
     In s (Navigator.filteredNamespaces n) /\ In s (Navigator.namespaces n)
     /\ (q <> "" -> Spec.ci_contains s q)).
Proof.
  intros q. subst q.
  assert (Hw : forall w, In w (Navigator.filteredWorkloads n) ->
            In w (Navigator.workloads n)
            /\ (Navigator.searchQuery n <> "" ->
                Spec.ci_contains (K8s.wName w) (Navigator.searchQuery n)
                \/ Spec.ci_contains (K8s.wStatus w) (Navigator.searchQuery n))).
  { intros w. unfold Navigator.filteredWorkloads.
    destruct (String.eqb_spec (Navigator.searchQuery n) ""); [tauto|].
    rewrite filter_In, orb_true_iff, !ci_contains_iff. tauto. }
  assert (Hp : forall p, In p (Navigator.filteredPods n) ->
            In p (Navigator.pods n)
            /\ (Navigator.searchQuery n <> "" ->
                Spec.ci_contains (K8s.pName p) (Navigator.searchQuery n)
                \/ Spec.ci_contains (K8s.pStatus p) (Navigator.searchQuery n)
                \/ Spec.ci_contains (K8s.pNode p) (Navigator.searchQuery n))).
  { intros p. unfold Navigator.filteredPods.
    destruct (String.eqb_spec (Navigator.searchQuery n) ""); [tauto|].
    rewrite filter_In, !orb_true_iff, !ci_contains_iff. tauto. }
  assert (Hn : forall s, In s (Navigator.filteredNamespaces n) ->
            In s (Navigator.namespaces n)
            /\ (Navigator.searchQuery n <> "" ->
                Spec.ci_contains s (Navigator.searchQuery n))).
  { intros s. unfold Navigator.filteredNamespaces.
    destruct (String.eqb_spec (Navigator.searchQuery n) ""); [tauto|].
    rewrite filter_In, ci_contains_iff. tauto. }
  unfold Navigator.SelectedWorkload, Navigator.SelectedPod, Navigator.SelectedNamespace.
  split; [|split].
  - intros w. destruct (_ && _); [|discriminate].
    destruct (Go.index _ _) as [a|] eqn:Hi; simpl; [|discriminate].
    intros [= <-]. apply index_In in Hi. specialize (Hw a Hi). tauto.
  - intros p. destruct (_ && _); [|discriminate].
    destruct (Go.index _ _) as [a|] eqn:Hi; simpl; [|discriminate].
    intros [= <-]. apply index_In in Hi. specialize (Hp a Hi). tauto.
  - intros s. destruct (_ && _); [|intros [= <-]; congruence].
    intros Hi _. apply index_In in Hi. specialize (Hn s Hi). tauto.
Qed.

Lemma visibleRange_closed_form (n : Navigator.t) (total : Z) :
  0 <= total < 2 ^ 62 ->
  Spec.small (Navigator.height n) ->
  Spec.small (Navigator.cursor n) ->
  let c := Navigator.cursor n in
  let rows := Spec.rows (Navigator.height n) in
  5 <= rows < 2 ^ 62
  /\ Navigator.visibleRange total n =
     if rows <? total then
       let s := if c - Z.quot rows 2 <? 0 then 0 else c - Z.quot rows 2 in
       if total <? s + rows
       then {| Navigator.start := total - rows; Navigator.end_ := total |}
       else {| Navigator.start := s; Navigator.end_ := s + rows |}
     else {| Navigator.start := 0; Navigator.end_ := total |}.
Proof.
  intros Ht Hh Hc c rows.
  assert (Hrows : 5 <= rows < 2 ^ 62).
  { subst rows. unfold Spec.rows, Spec.small in *.
    destruct (Z.ltb_spec (Navigator.height n - 8) 5); lia. }
  split; [exact Hrows|].
  unfold Navigator.visibleRange. cbv zeta.
  rewrite !(visibleRange_rows n Hh). fold rows. fold c.
  pose proof (half_bounds rows ltac:(lia)) as Hq.
  unfold Spec.small in Hc. fold c in Hc.
  destruct (Z.ltb_spec rows total); [|reflexivity].
  exact_arith.
  destruct (Z.ltb_spec (c - Z.quot rows 2) 0); exact_arith;
    match goal with |- context [total <? ?e] => destruct (Z.ltb_spec total e) end;
    try reflexivity;
    destruct (Z.ltb_spec (total - rows) 0); try lia; reflexivity.
Qed.

(** The row under the cursor is always drawn: when the cursor addresses
    an item of the list, it lies inside the visible window. *)
Theorem cursor_inside_visible_window (n : Navigator.t) (total : Z) :
  total < 2 ^ 62 ->
  Spec.small (Navigator.height n) ->
  Spec.in_bounds (Navigator.cursor n) total ->
  let r := Navigator.visibleRange total n in
  Navigator.start r <= Navigator.cursor n < Navigator.end_ r.
Proof.
  intros Ht Hh Hc r. subst r. unfold Spec.in_bounds in Hc.
  destruct (visibleRange_closed_form n total) as [Hrows ->];
    [lia | exact Hh | unfold Spec.small; lia |].
  pose proof (half_bounds (Spec.rows (Navigator.height n)) ltac:(lia)) as Hq.
  destruct (Z.ltb_spec (Spec.rows (Navigator.height n)) total); cbv zeta;
    [|simpl; lia].
  destruct (Z.ltb_spec (Navigator.cursor n - Z.quot (Spec.rows (Navigator.height n)) 2) 0);
    match goal with |- context [total <? ?e] => destruct (Z.ltb_spec total e) end;
    simpl; lia.
Qed.

End NavigatorMore.

Lemma cursor_inside_visible_window_witness :
  let n := Navigator.with_height 18
             (Navigator.with_cursor 49 (Navigator.NewNavigator (E := Sample.externals))) in
  Navigator.start (Navigator.visibleRange 50 n) <= 49
  < Navigator.end_ (Navigator.visibleRange 50 n).
Proof.
  intros n.
  apply (cursor_inside_visible_window n 50); [lia | |].
  - unfold Spec.small. change (Navigator.height n) with 18. lia.
  - unfold Spec.in_bounds. change (Navigator.cursor n) with 49. lia.
Defined.

(** ** The pod action menu *)

Lemma map_Action_execs {A : Type} (f : A -> Tea.PodActionItem) (l : list A) :
  (forall a, Tea.Action (f a) = "exec") ->
  map Tea.Action (map f l) = repeat "exec" (List.length l).
Proof.
  intros Hf. induction l as [|a l IH]; simpl; [reflexivity|]. now rewrite Hf, IH.
Qed.

(** The entries [PodActions] offers, by kind: "Delete Pod" first, then the
    exec entries (two for a pod with one container, one per container for
    a pod with several, none for a pod without), then port-forward,
    describe and copy, in this order.  Every kind is one the Dashboard
    handles. *)
Theorem PodActions_kinds (namespace podName : string) (containers : list string) :
  let items := PodActionMenu.PodActions namespace podName containers in
  let execs := match List.length containers with
               | O => O
               | S O => 2%nat
               | n => n
               end in
  map Tea.Action items
  = ("delete" :: repeat "exec" execs ++ ["port-forward"; "describe"; "copy"])%list
  /\ List.length items = (4 + execs)%nat
  /\ (forall it, In it items ->
        Tea.Action it = "delete" \/ Tea.Action it = "exec"
        \/ Tea.Action it = "port-forward" \/ Tea.Action it = "describe"
        \/ Tea.Action it = "copy").
Proof.
  intros items execs.
  assert (Hk : map Tea.Action items
               = ("delete" :: repeat "exec" execs
                    ++ ["port-forward"; "describe"; "copy"])%list).
  { subst items execs. unfold PodActionMenu.PodActions, Go.len.
    destruct containers as [|c1 [|c2 cs]]; try reflexivity.
    replace (Z.of_nat (List.length (c1 :: c2 :: cs)) =? 1) with false
      by (symmetry; apply Z.eqb_neq; simpl List.length; lia).
    replace (1 <? Z.of_nat (List.length (c1 :: c2 :: cs))) with true
      by (symmetry; apply Z.ltb_lt; simpl List.length; lia).
    cbn [app map]. rewrite map_app, map_Action_execs by reflexivity.
    reflexivity. }
  split; [exact Hk|]. split.
  - rewrite <- (length_map Tea.Action), Hk. simpl.
    rewrite length_app, repeat_length. simpl. lia.
  - intros it Hin. apply (in_map Tea.Action) in Hin. rewrite Hk in Hin.
    destruct Hin as [<-|Hin]; [tauto|].
    apply in_app_or in Hin as [Hin|Hin].
    + apply repeat_spec in Hin. tauto.
    + simpl in Hin. intuition congruence.
Qed.

(** A step of the pod action menu keeps its entries and keeps the
    selection on them; a hidden menu ignores every message; the only
    command a step can return reports one of the menu's own entries, and
    the menu is closed when it does. *)
Theorem PodActionMenu_Update_selection (msg : Tea.Msg) (m : PodActionMenu.t) :
  Go.len (PodActionMenu.items m) < 2 ^ 62 ->
  0 <= PodActionMenu.selected m <= Z.max 0 (Go.len (PodActionMenu.items m) - 1) ->
  exists m' c,
    PodActionMenu.Update msg m = Go.Done (m', c)
    /\ PodActionMenu.items m' = PodActionMenu.items m
    /\ 0 <= PodActionMenu.selected m' <= Z.max 0 (Go.len (PodActionMenu.items m) - 1)
    /\ (PodActionMenu.visible m = false -> m' = m /\ c = Tea.CmdNil)
    /\ (c = Tea.CmdNil
        \/ exists item, c = Tea.CmdEmit (Tea.PodActionMenuResult item)
                        /\ In item (PodActionMenu.items m)
                        /\ PodActionMenu.visible m = true
                        /\ PodActionMenu.visible m' = false).
Proof.
  intros Hlen Hsel. pose proof (len_nonneg (PodActionMenu.items m)) as Hnn.
  assert (Hchoose : forall i, 0 <= i < Go.len (PodActionMenu.items m) ->
            PodActionMenu.visible m = true ->
            exists m' c, PodActionMenu.choose i m = Go.Done (m', c)
              /\ PodActionMenu.items m' = PodActionMenu.items m
              /\ 0 <= PodActionMenu.selected m'
                 <= Z.max 0 (Go.len (PodActionMenu.items m) - 1)
              /\ (PodActionMenu.visible m = false -> m' = m /\ c = Tea.CmdNil)
              /\ (c = Tea.CmdNil
                  \/ exists item, c = Tea.CmdEmit (Tea.PodActionMenuResult item)
                                  /\ In item (PodActionMenu.items m)
                                  /\ PodActionMenu.visible m = true
                                  /\ PodActionMenu.visible m' = false)).
  { intros i Hi Hv. unfold PodActionMenu.choose.
    destruct (index_in_range _ _ Hi) as (a & Ha & Hn). rewrite Ha. simpl.
    do 2 eexists. split; [reflexivity|]. repeat split; try (simpl; lia).
    - congruence.
    - congruence.
    - right. exists a. repeat split; auto. eapply nth_error_In, Hn. }
  assert (Hsame : forall m0, PodActionMenu.items m0 = PodActionMenu.items m ->
            0 <= PodActionMenu.selected m0
            <= Z.max 0 (Go.len (PodActionMenu.items m) - 1) ->
            (PodActionMenu.visible m = false -> m0 = m) ->
            exists m' c, Go.Done (m0, Tea.CmdNil) = Go.Done (m', c)
              /\ PodActionMenu.items m' = PodActionMenu.items m
              /\ 0 <= PodActionMenu.selected m'
                 <= Z.max 0 (Go.len (PodActionMenu.items m) - 1)
              /\ (PodActionMenu.visible m = false -> m' = m /\ c = Tea.CmdNil)
              /\ (c = Tea.CmdNil
                  \/ exists item, c = Tea.CmdEmit (Tea.PodActionMenuResult item)
                                  /\ In item (PodActionMenu.items m)
                                  /\ PodActionMenu.visible m = true
                                  /\ PodActionMenu.visible m' = false)).
  { intros m0 Hi Hs Hv. exists m0, Tea.CmdNil. repeat split; auto; tauto. }
  unfold PodActionMenu.Update.
  destruct (PodActionMenu.visible m) eqn:Hv; simpl negb; cbv iota;
    [|apply Hsame; auto].
  destruct msg; try (apply Hsame; auto; congruence).
  repeat match goal with
         | |- context [if ?b then _ else _] =>
             lazymatch b with
             | orb _ _ => destruct b
             | String.eqb _ _ => destruct b
             end
         end.
  - apply Hsame; simpl; auto; congruence.
  - destruct (Z.ltb_spec 0 (PodActionMenu.selected m)); apply Hsame; simpl; auto;
      try congruence. exact_arith. lia.
  - revert Hsel. exact_arith. intros Hsel.
    destruct (Z.ltb_spec (PodActionMenu.selected m)
                (Go.len (PodActionMenu.items m) - 1));
      apply Hsame; simpl; auto; try congruence. exact_arith. lia.
  - destruct (Z.leb_spec 0 (PodActionMenu.selected m));
      destruct (Z.ltb_spec (PodActionMenu.selected m) (Go.len (PodActionMenu.items m)));
      simpl; try (apply Hsame; auto; congruence). apply Hchoose; auto; lia.
  - destruct (shortcut_index key) as [idx|] eqn:Hs;
      [|apply Hsame; auto; congruence].
    apply shortcut_index_nonneg in Hs.
    destruct (Z.ltb_spec idx (Go.len (PodActionMenu.items m)));
      [apply Hchoose; auto; lia | apply Hsame; auto; congruence].
Qed.

Lemma PodActionMenu_Update_selection_witness :
  let m := PodActionMenu.Show "Pod Actions"
             (PodActionMenu.PodActions "default" "web-7f9" ["web"])
             PodActionMenu.New in
  exists m' c,
    PodActionMenu.Update (Tea.KeyMsg "j") m = Go.Done (m', c)
    /\ PodActionMenu.items m' = PodActionMenu.items m.
Proof.
  intros m.
  destruct (PodActionMenu_Update_selection (Tea.KeyMsg "j") m)
    as (m' & c & Hstep & Hitems & _).
  - vm_compute. reflexivity.
  - vm_compute. split; discriminate.
  - exists m', c. split; assumption.
Defined.

(** The number keys: key "1".."9" picks the entry at that position and
    closes the menu; when the menu has no entry there the key does
    nothing and the menu stays open. *)
Theorem PodActionMenu_number_shortcut (i : nat) (m : PodActionMenu.t) :
  (i < 9)%nat ->
  PodActionMenu.visible m = true ->
  let k := String (ascii_of_nat (49 + i)) EmptyString in
  PodActionMenu.Update (Tea.KeyMsg k) m
  = match nth_error (PodActionMenu.items m) i with
    | Some item =>
        Go.Done (PodActionMenu.Hide m, Tea.CmdEmit (Tea.PodActionMenuResult item))
    | None => Go.Done (m, Tea.CmdNil)
    end.
Proof.
  intros Hi Hv k. subst k. unfold PodActionMenu.Update. rewrite Hv. simpl negb. cbv iota.
  assert (Hidx : shortcut_index (String (ascii_of_nat (49 + i)) EmptyString)
                 = Some (Z.of_nat i)
                 /\ (String (ascii_of_nat (49 + i)) EmptyString =? "esc")%string = false
                 /\ (String (ascii_of_nat (49 + i)) EmptyString =? "q")%string = false
                 /\ (String (ascii_of_nat (49 + i)) EmptyString =? "up")%string = false
                 /\ (String (ascii_of_nat (49 + i)) EmptyString =? "k")%string = false
                 /\ (String (ascii_of_nat (49 + i)) EmptyString =? "down")%string = false
                 /\ (String (ascii_of_nat (49 + i)) EmptyString =? "j")%string = false
                 /\ (String (ascii_of_nat (49 + i)) EmptyString =? "enter")%string
                    = false).
  { do 9 (destruct i as [|i]; [repeat split; reflexivity|]). lia. }
  destruct Hidx as (-> & -> & -> & -> & -> & -> & -> & ->). simpl orb. cbv iota.
  unfold PodActionMenu.choose, Go.index, Go.len.
  destruct (nth_error (PodActionMenu.items m) i) as [item|] eqn:Hn.
  - assert (i < List.length (PodActionMenu.items m))%nat
      by (apply nth_error_Some; congruence).
    destruct (Z.ltb_spec (Z.of_nat i) (Z.of_nat (List.length (PodActionMenu.items m))));
      [|lia].
    destruct (Z.ltb_spec (Z.of_nat i) 0); [lia|].
    destruct (Z.leb_spec (Z.of_nat (List.length (PodActionMenu.items m))) (Z.of_nat i));
      [lia|]. simpl. rewrite Nat2Z.id, Hn. reflexivity.
  - apply nth_error_None in Hn.
    destruct (Z.ltb_spec (Z.of_nat i) (Z.of_nat (List.length (PodActionMenu.items m))));
      [lia | reflexivity].
Qed.

Lemma PodActionMenu_number_shortcut_witness :
  let m := PodActionMenu.Show "Pod Actions"
             (PodActionMenu.PodActions "default" "web-7f9" ["web"])
             PodActionMenu.New in
  exists item,
    PodActionMenu.Update (Tea.KeyMsg "1") m
    = Go.Done (PodActionMenu.Hide m, Tea.CmdEmit (Tea.PodActionMenuResult item))
    /\ Tea.Action item = "delete".
Proof.
  intros m.
  pose proof (PodActionMenu_number_shortcut 0 m ltac:(lia) eq_refl) as H.
  eexists. split; [exact H | reflexivity].
Defined.

(** ** The copy-command menu *)

Lemma KubectlCommands_done (namespace podName containerName : string)
        (containers : list string) :
  exists items,
    ActionMenu.KubectlCommands namespace podName containerName containers
    = Go.Done items.
Proof.
  unfold ActionMenu.KubectlCommands. cbv zeta.
  destruct (1 <? Go.len containers);
    destruct (containerName =? "")%string; simpl negb; simpl andb;
    simpl orb; cbv iota.
  all: try (eexists; reflexivity).
  all: destruct containers as [|c0 cs]; [eexists; reflexivity|].
  all: replace (0 <? Go.len (c0 :: cs)) with true
         by (symmetry; apply Z.ltb_lt; unfold Go.len; simpl List.length; lia);
       replace (Go.index (c0 :: cs) 0) with (Go.Done c0)
         by (unfold Go.index, Go.len;
             destruct (Z.leb_spec (Z.of_nat (List.length (c0 :: cs))) 0);
             [simpl List.length in *; lia | reflexivity]);
       simpl Go.bind; eexists; reflexivity.
Qed.

(** [KubectlCommands] never indexes an empty container list: it always
    returns, with the seven pod commands, two more in front when the pod
    has several containers and one is selected, and the previous-logs
    command at the end when a container is selected or the pod has one;
    every entry is a kubectl command line. *)
Theorem KubectlCommands_total (namespace podName containerName : string)
        (containers : list string) :
  exists items,
    ActionMenu.KubectlCommands namespace podName containerName containers
    = Go.Done items
    /\ List.length items
       = (7 + (if ((1 <? Go.len containers)%Z && negb (containerName =? "")%string)%bool
               then 2 else 0)
            + (if (negb (containerName =? "")%string || (0 <? Go.len containers)%Z)%bool
               then 1 else 0))%nat
    /\ (forall it, In it items -> String.prefix "kubectl " (Tea.miValue it) = true).
Proof.
  unfold ActionMenu.KubectlCommands. cbv zeta.
  destruct (1 <? Go.len containers) eqn:Hmany;
    destruct (containerName =? "")%string eqn:Hname; simpl negb; simpl andb;
    simpl orb; cbv iota.
  all: try (eexists; split; [reflexivity|]; split; [reflexivity|];
            intros it Hin; simpl in Hin;
            repeat (destruct Hin as [<-|Hin]; [reflexivity|]); contradiction).
  all: destruct containers as [|c0 cs];
    [ eexists; split; [reflexivity|]; split; [reflexivity|]
    | replace (0 <? Go.len (c0 :: cs)) with true
        by (symmetry; apply Z.ltb_lt; unfold Go.len; simpl List.length; lia);
      replace (Go.index (c0 :: cs) 0) with (Go.Done c0)
        by (unfold Go.index, Go.len;
            destruct (Z.leb_spec (Z.of_nat (List.length (c0 :: cs))) 0);
            [simpl List.length in *; lia | reflexivity]);
      simpl Go.bind; eexists; split; [reflexivity|]; split; [reflexivity|] ];
    intros it Hin; simpl in Hin;
    repeat (destruct Hin as [<-|Hin]; [reflexivity|]); contradiction.
Qed.

(** ** Dashboard: focus, layout and what a step leaves alone *)

Section DashboardMore.
Context `{E : Externals}.

Lemma focus_cases (z : Z) : 0 <= z <= 3 -> z = 0 \/ z = 1 \/ z = 2 \/ z = 3.
Proof. lia. Qed.

(** Tab and Shift+Tab walk the four panels in a cycle and undo each
    other. *)
Theorem panel_cycle (d : Dashboard.t) :
  0 <= Dashboard.focus d <= 3 ->
  0 <= Dashboard.focus (Dashboard.nextPanel d) <= 3
  /\ 0 <= Dashboard.focus (Dashboard.prevPanel d) <= 3
  /\ Dashboard.focus (Dashboard.nextPanel d) <> Dashboard.focus d
  /\ Dashboard.focus (Dashboard.prevPanel (Dashboard.nextPanel d)) = Dashboard.focus d
  /\ Dashboard.focus (Dashboard.nextPanel (Dashboard.prevPanel d)) = Dashboard.focus d
  /\ Dashboard.focus
       (Dashboard.nextPanel (Dashboard.nextPanel
          (Dashboard.nextPanel (Dashboard.nextPanel d)))) = Dashboard.focus d.
Proof.
  intros H. unfold Dashboard.nextPanel, Dashboard.prevPanel. simpl.
  destruct (focus_cases _ H) as [-> | [-> | [-> | ->]]]; vm_compute;
    repeat split; congruence.
Qed.

Lemma toFocusedPanel_frame (msg : Tea.Msg) (d d1 : Dashboard.t) (c1 : Tea.Cmd) :
  Dashboard.toFocusedPanel msg d = (d1, c1) ->
  Dashboard.pod d1 = Dashboard.pod d
  /\ Dashboard.keys d1 = Dashboard.keys d
  /\ Dashboard.namespace d1 = Dashboard.namespace d
  /\ Dashboard.context d1 = Dashboard.context d
  /\ Dashboard.focus d1 = Dashboard.focus d
  /\ Dashboard.fullscreen d1 = Dashboard.fullscreen d
  /\ Dashboard.statusMsg d1 = Dashboard.statusMsg d
  /\ Dashboard.pendingAction d1 = Dashboard.pendingAction d.
Proof.
  unfold Dashboard.toFocusedPanel. split_matches; intros [= <- <-]; repeat split.
Qed.

Lemma onConfirmResult_frame (confirmed : bool) (action : string)
      (data : Tea.Payload) (d d1 : Dashboard.t) (c1 : Tea.Cmd) :
  Dashboard.onConfirmResult confirmed action data d = (d1, c1) ->
  Dashboard.pod d1 = Dashboard.pod d
  /\ Dashboard.keys d1 = Dashboard.keys d
  /\ Dashboard.namespace d1 = Dashboard.namespace d
  /\ Dashboard.context d1 = Dashboard.context d
  /\ Dashboard.focus d1 = Dashboard.focus d
  /\ Dashboard.fullscreen d1 = Dashboard.fullscreen d.
Proof.
  unfold Dashboard.onConfirmResult. split_matches; intros [= <- <-]; repeat split.
Qed.

(** What no step of the Dashboard touches, and what it keeps in range:
    the pod on display, the key map, the namespace and the context stay,
    and the focus stays on one of the four panels. *)
Lemma Update_frame (msg : Tea.Msg) (d d' : Dashboard.t) (c : Tea.Cmd)
      (effs : list Tea.Effect) :
  Dashboard.Update msg d = Go.Done (d', c, effs) ->
  Dashboard.pod d' = Dashboard.pod d
  /\ Dashboard.keys d' = Dashboard.keys d
  /\ Dashboard.namespace d' = Dashboard.namespace d
  /\ Dashboard.context d' = Dashboard.context d
  /\ (0 <= Dashboard.focus d <= 3 -> 0 <= Dashboard.focus d' <= 3)
  /\ (Dashboard.fullscreen d' = Dashboard.fullscreen d
      \/ (Dashboard.focus d' = Dashboard.focus d
          /\ Overlay.panels_kept d d')).
Proof.
  destruct msg;
    unfold Dashboard.Update, Dashboard.onPodAction,
      Dashboard.onKey, Dashboard.podName,
      Dashboard.nextPanel, Dashboard.prevPanel, Go.bind, Overlay.panels_kept,
      Dashboard.FocusLogs, Dashboard.FocusEvents, Dashboard.FocusMetrics,
      Dashboard.FocusManifest;
    split_matches; try discriminate; intros [= <- <- <-];
    try match goal with
        | H : Dashboard.toFocusedPanel _ _ = (_, _) |- _ =>
            apply toFocusedPanel_frame in H;
            destruct H as (-> & -> & -> & -> & -> & -> & _)
        | H : Dashboard.onConfirmResult _ _ _ _ = (_, _) |- _ =>
            apply onConfirmResult_frame in H;
            destruct H as (-> & -> & -> & -> & -> & ->)
        end;
    simpl;
    (repeat match goal with |- _ /\ _ => split end);
    try reflexivity; try (intros; assumption); try (intros; lia);
    try (left; reflexivity); try (right; repeat split; reflexivity).
  all: intros H; destruct (focus_cases _ H) as [-> | [-> | [-> | ->]]];
    vm_compute; split; congruence.
Qed.

Theorem Dashboard_keeps_pod_and_focus (msg : Tea.Msg) (d d' : Dashboard.t)
        (c : Tea.Cmd) (effs : list Tea.Effect) :
  0 <= Dashboard.focus d <= 3 ->
  Dashboard.Update msg d = Go.Done (d', c, effs) ->
  0 <= Dashboard.focus d' <= 3
  /\ Dashboard.pod d' = Dashboard.pod d
  /\ Dashboard.namespace d' = Dashboard.namespace d
  /\ Dashboard.context d' = Dashboard.context d
  /\ Dashboard.keys d' = Dashboard.keys d.
Proof.
  intros Hf Hupd.
  destruct (Update_frame _ _ _ _ _ Hupd) as (Hp & Hk & Hn & Hc & Hfocus & _).
  auto.
Qed.

(** A step that changes the fullscreen flag leaves the focus where it was
    and touches no panel. *)
Theorem fullscreen_toggle_keeps_focus (msg : Tea.Msg) (d d' : Dashboard.t)
        (c : Tea.Cmd) (effs : list Tea.Effect) :
  Dashboard.Update msg d = Go.Done (d', c, effs) ->
  Dashboard.fullscreen d' <> Dashboard.fullscreen d ->
  Dashboard.focus d' = Dashboard.focus d /\ Overlay.panels_kept d d'.
Proof.
  intros Hupd Hfs.
  destruct (Update_frame _ _ _ _ _ Hupd) as (_ & _ & _ & _ & _ & [H | H]);
    [contradiction | exact H].
Qed.

End DashboardMore.

Lemma panel_cycle_witness :
  Dashboard.focus (Dashboard.prevPanel (E := Sample.externals)
                     (Dashboard.nextPanel Sample.d0))
  = Dashboard.focus Sample.d0.
Proof.
  assert (H : 0 <= Dashboard.focus Sample.d0 <= 3)
    by (change (Dashboard.focus Sample.d0) with 0; lia).
  destruct (panel_cycle Sample.d0 H) as (_ & _ & _ & Hback & _). exact Hback.
Defined.

Lemma Dashboard_keeps_pod_and_focus_witness :
  exists d' c effs,
    Dashboard.Update (E := Sample.externals) (Tea.KeyMsg "tab") Sample.d0
    = Go.Done (d', c, effs)
    /\ 0 <= Dashboard.focus d' <= 3
    /\ Dashboard.pod d' = Some Sample.web_7f9.
Proof.
  assert (H : 0 <= Dashboard.focus Sample.d0 <= 3)
    by (change (Dashboard.focus Sample.d0) with 0; lia).
  do 3 eexists. split; [reflexivity|].
  destruct (Dashboard_keeps_pod_and_focus (Tea.KeyMsg "tab") Sample.d0 _ _ _ H eq_refl)
    as (Hf & Hp & _).
  split; [exact Hf | exact Hp].
Defined.

Lemma fullscreen_toggle_keeps_focus_witness :
  exists d' c effs,
    Dashboard.Update (E := Sample.externals) (Tea.KeyMsg "v") Sample.d0
    = Go.Done (d', c, effs)
    /\ Dashboard.fullscreen d' = true
    /\ Dashboard.focus d' = Dashboard.focus Sample.d0.
Proof.
  do 3 eexists. split; [reflexivity|]. split; [reflexivity|].
  refine (proj1 (fullscreen_toggle_keeps_focus (Tea.KeyMsg "v") Sample.d0 _ _ _
                   eq_refl _)).
  discriminate.
Defined.

Section DashboardWorkflows.
Context `{E : Externals}.

Lemma Dashboard_Update_panic_cases (msg : Tea.Msg) (d : Dashboard.t) :
  Dashboard.Update msg d = Go.Panic ->
  Dashboard.pod d = None
      /\ exists item,
           msg = Tea.PodActionMenuResult item
           /\ (Tea.Action item = "delete" \/ Tea.Action item = "exec"
               \/ Tea.Action item = "port-forward"
               \/ Tea.Action item = "describe").
Proof.
  destruct msg; unfold Dashboard.Update;
      try (destruct (Dashboard.toFocusedPanel _ d); discriminate).
    + (* KeyMsg *)
      destruct (ConfirmDialog.IsVisible _).
      { destruct (confirm_Update _ _); discriminate. }
      destruct (ResultViewer.IsVisible _).
      { destruct (ResultViewer.Update _ _); discriminate. }
      destruct (PodActionMenu.IsVisible _).
      { destruct (PodActionMenu_Update_total (Tea.KeyMsg key) (Dashboard.podActionMenu d))
          as (m' & c0 & -> & _). discriminate. }
      destruct (ActionMenu.IsVisible _).
      { destruct (ActionMenu_Update_total (Tea.KeyMsg key) (Dashboard.actionMenu d))
          as (m' & c0 & e0 & -> & _). discriminate. }
      destruct (HelpPanel.IsVisible _); [destruct (_ || _); discriminate|].
      destruct (_ && _); [destruct (logs_Update _ _); discriminate|].
      unfold Dashboard.onKey.
      repeat match goal with
             | |- context [Keys.Matches key ?b] => destruct (Keys.Matches key b)
             end; try discriminate.
      * destruct (Dashboard.pod _); discriminate.
      * destruct (Dashboard.pod _) as [p|]; [|discriminate].
        destruct (KubectlCommands_done
                    (Dashboard.namespace (Dashboard.with_statusMsg "" d))
                    (K8s.pName p)
                    (logs_SelectedContainer (Dashboard.logs (Dashboard.with_statusMsg "" d)))
                    (Dashboard.containerNames p)) as (items & ->).
        discriminate.
      * destruct (Dashboard.toFocusedPanel _ _); discriminate.
    + discriminate.
    + destruct err; discriminate.
    + destruct err; [|destruct copied]; discriminate.
    + (* PodActionMenuResult *)
      unfold Dashboard.onPodAction, Dashboard.podName.
      destruct (String.eqb_spec (Tea.Action item) "delete");
        [|destruct (String.eqb_spec (Tea.Action item) "exec");
          [|destruct (String.eqb_spec (Tea.Action item) "port-forward");
            [|destruct (String.eqb_spec (Tea.Action item) "describe");
              [|destruct (String.eqb (Tea.Action item) "copy"); discriminate]]]];
        simpl; destruct (Dashboard.pod d); simpl; try discriminate;
        intros _; (split; [reflexivity|]); exists item; tauto.
    + destruct (Dashboard.onConfirmResult _ _ _ _); discriminate.
Qed.

(** The Dashboard crashes on a message in one case only: no pod is set
    and the message reports a delete, exec, port-forward or describe entry
    of the pod menu, whose handling reads the pod's name. *)
Theorem Dashboard_Update_panics_iff (msg : Tea.Msg) (d : Dashboard.t) :
  Dashboard.Update msg d = Go.Panic
  <-> Dashboard.pod d = None
      /\ exists item,
           msg = Tea.PodActionMenuResult item
           /\ (Tea.Action item = "delete" \/ Tea.Action item = "exec"
               \/ Tea.Action item = "port-forward"
               \/ Tea.Action item = "describe").
Proof.
  split; [apply Dashboard_Update_panic_cases|].
  intros (Hpod & item & -> & Hact).
  unfold Dashboard.Update, Dashboard.onPodAction, Dashboard.podName.
  destruct Hact as [-> | [-> | [-> | ->]]]; simpl; rewrite Hpod; reflexivity.
Qed.

(** Selecting an exec or port-forward entry and confirming it runs that
    entry's command, once: the confirmation hands the terminal to the
    command of the selected entry and clears the pending action, so a
    second confirmation starts nothing; a cancellation clears it as well,
    after which a confirmation starts nothing either. *)
Theorem confirmed_exec_runs_selected_command_once (d : Dashboard.t)
        (p : K8s.PodInfo) (item : Tea.PodActionItem) (data : Tea.Payload) :
  Dashboard.pod d = Some p ->
  Tea.Action item = "exec" \/ Tea.Action item = "port-forward" ->
  exists d1 d2,
    Dashboard.Update (Tea.PodActionMenuResult item) d = Go.Done (d1, Tea.CmdNil, [])
    /\ Dashboard.Update (Tea.ConfirmResult true (Tea.Action item) data) d1
       = Go.Done (d2, Tea.CmdExecProcess (Tea.Command item), [])
    /\ Dashboard.pendingAction d2 = None
    /\ Dashboard.Update (Tea.ConfirmResult true (Tea.Action item) data) d2
       = Go.Done (d2, Tea.CmdNil, [])
    /\ Dashboard.Update (Tea.ConfirmResult false (Tea.Action item) data) d1
       = Go.Done (d2, Tea.CmdNil, []).
Proof.
  intros Hpod Hact.
  unfold Dashboard.Update, Dashboard.onPodAction, Dashboard.podName,
    Dashboard.onConfirmResult.
  destruct Hact as [-> | ->]; simpl; rewrite Hpod; simpl;
    do 2 eexists; repeat split.
Qed.

(** Any key handled while no overlay is open (and the logs panel is not
    searching) clears the status line. *)
Theorem key_clears_status (k : string) (d : Dashboard.t) :
  Dashboard.HasActiveOverlay d = false ->
  (Dashboard.focus d =? Dashboard.FocusLogs) && logs_IsSearching (Dashboard.logs d)
  = false ->
  exists d' c effs,
    Dashboard.Update (Tea.KeyMsg k) d = Go.Done (d', c, effs)
    /\ Dashboard.statusMsg d' = "".
Proof.
  unfold Dashboard.HasActiveOverlay. intros Hov Hsearch.
  apply orb_false_iff in Hov as [Hov Hhelp].
  apply orb_false_iff in Hov as [Hov Hact].
  apply orb_false_iff in Hov as [Hov Hpam].
  apply orb_false_iff in Hov as [Hrv Hcd].
  unfold Dashboard.Update. rewrite Hcd, Hrv, Hpam, Hact, Hhelp, Hsearch.
  unfold Dashboard.onKey.
  repeat match goal with
         | |- context [Keys.Matches k ?b] => destruct (Keys.Matches k b)
         end; try (do 3 eexists; split; reflexivity).
  - destruct (Dashboard.pod _); do 3 eexists; split; reflexivity.
  - destruct (Dashboard.pod _) as [p|]; [|do 3 eexists; split; reflexivity].
    destruct (KubectlCommands_done
                (Dashboard.namespace (Dashboard.with_statusMsg "" d))
                (K8s.pName p)
                (logs_SelectedContainer (Dashboard.logs (Dashboard.with_statusMsg "" d)))
                (Dashboard.containerNames p)) as (items & ->).
    do 3 eexists; split; reflexivity.
  - destruct (Dashboard.toFocusedPanel _ _) as [d1 c1] eqn:Hp.
    apply toFocusedPanel_frame in Hp.
    destruct Hp as (_ & _ & _ & _ & _ & _ & Hs & _).
    do 3 eexists. split; [reflexivity|]. exact Hs.
Qed.

End DashboardWorkflows.

(** ** Root controller: invariants and crashes *)

(** Splits a step of the root controller into its branches, keeping the
    calls to its helpers as hypotheses. *)
Ltac root_cases :=
  unfold App.Update, Go.bind; split_matches; try discriminate;
  try match goal with
      | |- App.toView _ _ = _ -> _ => let Hm := fresh "Hm" in intros Hm
      | |- _ = _ -> _ => intros [= <- <- <-]
      end.

Section RootInvariants.
Context `{E : Externals}.

Lemma handleBack_view_has_pod (m : App.t) :
  Inv.view_has_pod m -> Inv.view_has_pod (fst (App.handleBack m)).
Proof.
  unfold Inv.view_has_pod, App.handleBack.
  destruct (App.view m) eqn:Hv; intros H.
  - destruct (Navigator.Mode _); simpl; rewrite ?Hv; exact H.
  - destruct (App.workload _); reflexivity.
Qed.

Lemma refresh_view_has_pod (m : App.t) :
  Inv.view_has_pod m -> Inv.view_has_pod (fst (App.refresh m)).
Proof.
  unfold Inv.view_has_pod, App.refresh.
  destruct (App.view m) eqn:Hv; intros H; [simpl; rewrite Hv; exact H|].
  destruct (App.pod m) eqn:Hp; simpl; rewrite Hv, ?Hp; exact H.
Qed.

Lemma handleEnter_view_has_pod (m m' : App.t) (c : Tea.Cmd) :
  Inv.view_has_pod m -> App.handleEnter m = Go.Done (m', c) ->
  Inv.view_has_pod m'.
Proof.
  intros H. unfold App.handleEnter, Go.bind.
  destruct (App.view m) eqn:Hv; [|intros [= <- <-]; exact H].
  split_matches; try discriminate; intros [= <- <-];
    unfold Inv.view_has_pod in *; simpl; rewrite ?Hv in *; try exact H.
  eexists. split; reflexivity.
Qed.

Lemma toView_view_has_pod (msg : Tea.Msg) (m m' : App.t) (c : Tea.Cmd)
      (effs : list Tea.Effect) :
  Inv.view_has_pod m -> App.toView msg m = Go.Done (m', c, effs) ->
  Inv.view_has_pod m'.
Proof.
  unfold Inv.view_has_pod, App.toView, Go.bind.
  destruct (App.view m) eqn:Hv; intros H.
  - destruct (_ && _); [intros [= <- <- <-]; simpl; rewrite Hv; exact H|].
    destruct (Navigator.Update msg (App.navigator m)).
    intros [= <- <- <-]; simpl; rewrite Hv; exact H.
  - destruct (Dashboard.Update msg (App.dashboard m)) as [[[d c0] e0]|] eqn:Hd;
      [|discriminate].
    intros [= <- <- <-]; simpl; rewrite Hv.
    destruct (Update_frame _ _ _ _ _ Hd) as (Hp & _). rewrite Hp. exact H.
Qed.

(** The Dashboard view always has a pod, the same pod in the root
    controller and in the Dashboard, and the Navigator view has none: this
    holds for the initial model and after every step that returns. *)
Theorem view_has_pod_invariant :
  (forall client cfg, Inv.view_has_pod (App.New client cfg))
  /\ (forall msg m m' c effs,
        Inv.view_has_pod m -> App.Update msg m = Go.Done (m', c, effs) ->
        Inv.view_has_pod m').
Proof.
  split; [reflexivity|].
  intros msg m m' c effs H.
  destruct msg; root_cases;
    try match goal with
        | Hm : App.toView _ _ = Go.Done _ |- _ =>
            exact (toView_view_has_pod _ _ _ _ _ H Hm)
        | Hm : App.handleEnter _ = Go.Done _ |- _ =>
            exact (handleEnter_view_has_pod _ _ _ H Hm)
        | Hm : App.handleBack _ = _ |- _ =>
            let H' := fresh in
            pose proof (handleBack_view_has_pod _ H) as H'; rewrite Hm in H'; exact H'
        | Hm : App.refresh _ = _ |- _ =>
            let H' := fresh in
            pose proof (refresh_view_has_pod _ H) as H'; rewrite Hm in H'; exact H'
        end;
    try exact H;
    unfold Inv.view_has_pod in *; simpl;
    repeat match goal with Hv : App.view m = _ |- _ => rewrite Hv in * end;
    try exact H.
Qed.

Lemma SelectedPod_total (n : Navigator.t) :
  exists r, Navigator.SelectedPod n = Go.Done r.
Proof.
  unfold Navigator.SelectedPod.
  destruct (Z.leb_spec 0 (Navigator.cursor n));
    destruct (Z.ltb_spec (Navigator.cursor n) (Go.len (Navigator.filteredPods n)));
    simpl; eauto.
  destruct (index_in_range (Navigator.filteredPods n) (Navigator.cursor n))
    as (a & -> & _); [lia|]. simpl. eauto.
Qed.

Lemma Selected_total (n : Navigator.t) :
  (exists r, Navigator.SelectedWorkload n = Go.Done r)
  /\ (exists r, Navigator.SelectedNamespace n = Go.Done r)
  /\ (exists r, Navigator.SelectedResourceType n = Go.Done r).
Proof.
  unfold Navigator.SelectedWorkload, Navigator.SelectedNamespace,
    Navigator.SelectedResourceType.
  repeat split.
  all: match goal with
       | |- context [(0 <=? ?c) && (?c <? Go.len ?l)] =>
           destruct (Z.leb_spec 0 c); destruct (Z.ltb_spec c (Go.len l)); simpl;
           eauto;
           destruct (index_in_range l c) as (a & -> & _); [lia|]; simpl; eauto
       end.
Qed.

(** The one crash of the root controller.  In a model that satisfies the
    view/pod invariant a step panics only on the Enter key, in the pods
    list, with a pod under the cursor and no workload selected (the
    breadcrumb reads the workload's name); and Enter in that situation
    does panic.  The situation arises when a pods result arrives after
    the user has gone back to the workloads. *)
Theorem root_panics_only_on_enter_without_workload (msg : Tea.Msg) (m : App.t) :
  Inv.view_has_pod m ->
  (App.Update msg m = Go.Panic ->
     (exists k, msg = Tea.KeyMsg k /\ Keys.Matches k (Keys.Enter (App.keys m)) = true)
     /\ App.view m = App.ViewNavigator
     /\ Navigator.Mode (App.navigator m) = Navigator.ModePods
     /\ App.workload m = None
     /\ exists p, Navigator.SelectedPod (App.navigator m) = Go.Done (Some p))
  /\ (App.view m = App.ViewNavigator ->
      Navigator.Mode (App.navigator m) = Navigator.ModePods ->
      App.workload m = None ->
      (exists p, Navigator.SelectedPod (App.navigator m) = Go.Done (Some p)) ->
      App.handleEnter m = Go.Panic).
Proof.
  intros Hinv.
  assert (HtoView : forall msg0, App.toView msg0 m <> Go.Panic).
  { intros msg0. unfold App.toView, Go.bind.
    destruct (App.view m) eqn:Hv.
    - destruct (_ && _); [discriminate|].
      destruct (Navigator.Update msg0 (App.navigator m)). discriminate.
    - destruct (Dashboard.Update msg0 (App.dashboard m)) as [[[d c0] e0]|] eqn:Hd;
        [discriminate|].
      apply Dashboard_Update_panic_cases in Hd as [Hnone _].
      unfold Inv.view_has_pod in Hinv. rewrite Hv in Hinv.
      destruct Hinv as (p & _ & Hp). congruence. }
  assert (Henter : App.handleEnter m = Go.Panic ->
            App.view m = App.ViewNavigator
            /\ Navigator.Mode (App.navigator m) = Navigator.ModePods
            /\ App.workload m = None
            /\ exists p, Navigator.SelectedPod (App.navigator m) = Go.Done (Some p)).
  { unfold App.handleEnter, Go.bind.
    destruct (Selected_total (App.navigator m)) as ((rw & Hw) & (rn & Hn) & (rr & Hr)).
    destruct (SelectedPod_total (App.navigator m)) as (rp & Hp).
    rewrite Hw, Hn, Hr, Hp.
    destruct (App.view m); [|discriminate].
    destruct (Navigator.Mode (App.navigator m)).
    - destruct rw; discriminate.
    - destruct rp as [p|]; [|discriminate]. simpl.
      destruct (App.workload m); [discriminate|]. intros _. eauto.
    - destruct (negb _); discriminate.
    - discriminate. }
  split.
  - destruct msg; unfold App.Update; try (intros H; now apply HtoView in H).
    + (* KeyMsg *)
      destruct (HelpPanel.IsVisible _); [destruct (_ || _); discriminate|].
      destruct (_ && _).
      { repeat match goal with
               | |- context [String.eqb key ?s] => destruct (String.eqb key s)
               end; try discriminate.
        destruct (Navigator.Update _ _). discriminate. }
      repeat match goal with
             | |- context [Keys.Matches key ?b] =>
                 let Hk := fresh "Hk" in destruct (Keys.Matches key b) eqn:Hk
             end; try discriminate; try (intros H; now apply HtoView in H).
      * destruct (App.refresh m). discriminate.
      * destruct (App.view m); [discriminate|]. intros H; now apply HtoView in H.
      * destruct (App.handleBack m). discriminate.
      * destruct (App.handleEnter m) as [[m1 c1]|] eqn:He; [discriminate|].
        intros _. split; [eauto|]. now apply Henter.
    + discriminate.
    + destruct (sp_Update _ _). discriminate.
    + destruct err; discriminate.
    + destruct err; discriminate.
    + discriminate.
    + destruct (App.view m); [|destruct (App.pod m)]; discriminate.
  - intros Hv Hmode Hw (p & Hp). unfold App.handleEnter, Go.bind.
    rewrite Hv, Hmode, Hp. simpl. rewrite Hw. reflexivity.
Qed.

End RootInvariants.

Lemma view_has_pod_invariant_witness :
  Inv.view_has_pod Sample.m_viewing
  /\ exists m' c effs,
       App.Update (E := Sample.externals) (Tea.KeyMsg "esc") Sample.m_viewing
       = Go.Done (m', c, effs)
       /\ Inv.view_has_pod m'.
Proof.
  assert (H : Inv.view_has_pod Sample.m_viewing).
  { unfold Inv.view_has_pod. exists Sample.web_7f9. split; vm_compute; reflexivity. }
  split; [exact H|].
  destruct (App.Update (Tea.KeyMsg "esc") Sample.m_viewing) as [[[m' c] effs]|] eqn:Hupd.
  - exists m', c, effs. split; [reflexivity|].
    exact (proj2 view_has_pod_invariant _ _ _ _ _ H Hupd).
  - vm_compute in Hupd. discriminate.
Defined.

Lemma root_panics_only_on_enter_without_workload_witness :
  Inv.view_has_pod Scenario.m_stale
  /\ App.handleEnter (E := Sample.externals) Scenario.m_stale = Go.Panic
  /\ Loop.run (E := Sample.externals)
       (Scenario.stale_pods_result ++ [Loop.Press "enter"])%list
       (Loop.start Sample.m0) = Go.Panic.
Proof.
  assert (H : Inv.view_has_pod Scenario.m_stale) by (vm_compute; reflexivity).
  split; [exact H|]. split; [|vm_compute; reflexivity].
  apply (proj2 (root_panics_only_on_enter_without_workload
                  (Tea.KeyMsg "enter") Scenario.m_stale H)).
  - vm_compute. reflexivity.
  - vm_compute. reflexivity.
  - vm_compute. reflexivity.
  - exists Sample.web_7f9. vm_compute. reflexivity.
Defined.

Section RootInvariants2.
Context `{E : Externals}.

Lemma handleEnter_namespace (m m' : App.t) (c : Tea.Cmd) :
  Inv.namespace_in_sync m -> App.handleEnter m = Go.Done (m', c) ->
  Inv.namespace_in_sync m'.
Proof.
  intros H. unfold App.handleEnter, Go.bind.
  split_matches; try discriminate; intros [= <- <-]; try exact H; reflexivity.
Qed.

Lemma toView_namespace (msg : Tea.Msg) (m m' : App.t) (c : Tea.Cmd)
      (effs : list Tea.Effect) :
  Inv.namespace_in_sync m -> App.toView msg m = Go.Done (m', c, effs) ->
  Inv.namespace_in_sync m'.
Proof.
  intros H. unfold App.toView, Go.bind.
  split_matches; try discriminate; intros [= <- <- <-]; exact H.
Qed.

(** The namespace the cluster client queries and the last namespace in
    the preferences are the same, initially and after every step: Enter
    in the namespace list changes both together and nothing else changes
    either. *)
Theorem namespace_in_sync_invariant :
  (forall client cfg, Inv.namespace_in_sync (App.New client cfg))
  /\ (forall msg m m' c effs,
        Inv.namespace_in_sync m -> App.Update msg m = Go.Done (m', c, effs) ->
        Inv.namespace_in_sync m').
Proof.
  split; [reflexivity|].
  intros msg m m' c effs H.
  destruct msg; root_cases;
    try match goal with
        | Hm : App.toView _ _ = Go.Done _ |- _ =>
            exact (toView_namespace _ _ _ _ _ H Hm)
        | Hm : App.handleEnter _ = Go.Done _ |- _ =>
            exact (handleEnter_namespace _ _ _ H Hm)
        | Hm : App.handleBack _ = _ |- _ =>
            revert Hm; unfold App.handleBack; split_matches; intros [= <- <-]; exact H
        | Hm : App.refresh _ = _ |- _ =>
            revert Hm; unfold App.refresh; split_matches; intros [= <- <-]; exact H
        end;
    exact H.
Qed.

Lemma handleEnter_not_searching (m m' : App.t) (c : Tea.Cmd) :
  Navigator.IsSearching (App.navigator m) = false ->
  App.handleEnter m = Go.Done (m', c) ->
  Navigator.IsSearching (App.navigator m') = false.
Proof.
  intros H. unfold App.handleEnter, Go.bind.
  split_matches; try discriminate; intros [= <- <-]; try exact H; reflexivity.
Qed.

Lemma handleBack_not_searching (m : App.t) :
  Navigator.IsSearching (App.navigator m) = false ->
  Navigator.IsSearching (App.navigator (fst (App.handleBack m))) = false.
Proof.
  intros H. unfold App.handleBack. split_matches; try exact H; reflexivity.
Qed.

Lemma Navigator_Update_not_key (msg : Tea.Msg) (n : Navigator.t) :
  (forall k, msg <> Tea.KeyMsg k) -> Navigator.Update msg n = (n, Tea.CmdNil).
Proof. intros H. destruct msg; try reflexivity. now destruct (H key). Qed.

Lemma toView_search_exclusive (msg : Tea.Msg) (m m' : App.t) (c : Tea.Cmd)
      (effs : list Tea.Effect) :
  Inv.search_exclusive m ->
  ((exists k, msg = Tea.KeyMsg k) -> HelpPanel.IsVisible (App.help m) = false) ->
  App.toView msg m = Go.Done (m', c, effs) ->
  Inv.search_exclusive m'.
Proof.
  intros H Hhelp. unfold App.toView, Go.bind.
  destruct (App.view m) eqn:Hv.
  - destruct (_ && _).
    { intros [= <- <- <-]. intros Hs. discriminate Hs. }
    destruct msg;
      try (rewrite Navigator_Update_not_key by (intros k; discriminate);
           intros [= <- <- <-]; exact H).
    destruct (Navigator.Update _ _). intros [= <- <- <-].
    intros _. split; [exact Hv | apply Hhelp; eauto].
  - destruct (Dashboard.Update _ _) as [[[d c0] e0]|]; [|discriminate].
    intros [= <- <- <-]. exact H.
Qed.

(** The text filter has the focus only in the Navigator view and never
    while the help overlay is open, initially and after every step. *)
Theorem search_exclusive_invariant :
  (forall client cfg, Inv.search_exclusive (App.New client cfg))
  /\ (forall msg m m' c effs,
        Inv.search_exclusive m -> App.Update msg m = Go.Done (m', c, effs) ->
        Inv.search_exclusive m').
Proof.
  split; [intros client cfg Hs; discriminate Hs|].
  intros msg m m' c effs H.
  destruct msg; unfold App.Update;
    try (apply toView_search_exclusive; [exact H | intros [k Hk]; discriminate Hk]).
  - (* KeyMsg *)
    destruct (HelpPanel.IsVisible (App.help m)) eqn:Hh.
    { assert (Hs : Navigator.IsSearching (App.navigator m) = false).
      { destruct (Navigator.IsSearching (App.navigator m)) eqn:Hs; [|reflexivity].
        destruct (H Hs) as [_ Hh']. congruence. }
      destruct (_ || _); intros [= <- <- <-]; intros Hs'; simpl in Hs'; congruence. }
    destruct (App.view m) eqn:Hv.
    + destruct (Navigator.IsSearching (App.navigator m)) eqn:Hs; simpl andb; cbv iota.
      * repeat match goal with
               | |- context [String.eqb key ?s] => destruct (String.eqb key s)
               end; try (intros [= <- <- <-]; intros Hs'; discriminate Hs').
        -- intros [= <- <- <-]. exact H.
        -- destruct (Navigator.Update _ _). intros [= <- <- <-].
           intros _. simpl. auto.
      * repeat match goal with
               | |- context [Keys.Matches key ?b] => destruct (Keys.Matches key b)
               end;
          try (apply toView_search_exclusive; [exact H | intros _; exact Hh]);
          try (intros [= <- <- <-]; intros Hs'; simpl in Hs'; congruence).
        -- unfold App.refresh. rewrite Hv. intros [= <- <- <-].
           intros Hs'; simpl in Hs'; congruence.
        -- pose proof (handleBack_not_searching m Hs) as Hb.
           destruct (App.handleBack m). intros [= <- <- <-].
           intros Hs'. simpl in Hb. congruence.
        -- destruct (App.handleEnter m) as [[m1 c1]|] eqn:He; [|discriminate].
           intros [= <- <- <-]. intros Hs'.
           pose proof (handleEnter_not_searching _ _ _ Hs He). congruence.
    + assert (Hs : Navigator.IsSearching (App.navigator m) = false).
      { destruct (Navigator.IsSearching (App.navigator m)) eqn:Hs; [|reflexivity].
        destruct (H Hs) as [Hv' _]. congruence. }
      simpl andb. cbv iota.
      repeat match goal with
             | |- context [Keys.Matches key ?b] => destruct (Keys.Matches key b)
             end;
        try (apply toView_search_exclusive; [exact H | intros _; exact Hh]);
        try (intros [= <- <- <-]; intros Hs'; simpl in Hs'; congruence).
      * destruct (App.refresh m) as [m1 c1] eqn:Hr. intros [= <- <- <-].
        revert Hr. unfold App.refresh. rewrite Hv.
        destruct (App.pod m); intros [= <- <-]; intros Hs'; simpl in Hs'; congruence.
      * pose proof (handleBack_not_searching m Hs) as Hb.
        destruct (App.handleBack m). intros [= <- <- <-].
        intros Hs'. simpl in Hb. congruence.
      * destruct (App.handleEnter m) as [[m1 c1]|] eqn:He; [|discriminate].
        intros [= <- <- <-]. intros Hs'.
        pose proof (handleEnter_not_searching _ _ _ Hs He). congruence.
  - (* WindowSizeMsg *)
    intros [= <- <- <-]. intros Hs. simpl in Hs. destruct (H Hs) as [Hv Hh].
    split; simpl; assumption.
  - destruct (sp_Update _ _). intros [= <- <- <-]. exact H.
  - (* loadedMsg *)
    destruct err; intros [= <- <- <-]; intros Hs; apply H; revert Hs;
      unfold Navigator.IsSearching, Navigator.SetNamespaces, Navigator.SetWorkloads;
      simpl; try tauto.
    destruct (_ <=? _); simpl; tauto.
  - (* podsLoadedMsg *)
    destruct err; intros [= <- <- <-]; intros Hs; [apply H; exact Hs|].
    discriminate Hs.
  - intros [= <- <- <-]. exact H.
  - destruct (App.view m); [|destruct (App.pod m)]; intros [= <- <- <-]; exact H.
Qed.

End RootInvariants2.

(** ** Keys the root controller keeps for itself *)

Section RootKeys.
Context `{E : Externals}.

(** While the help overlay is open every key except "?" and "esc" is
    dropped: the model, the running commands and the effects stay as they
    are, so neither "q" nor "ctrl+c" quits. *)
Theorem help_absorbs_keys (l : Loop.t) (ks : list string) :
  HelpPanel.IsVisible (App.help (Loop.model l)) = true ->
  Forall (fun k => k <> "?" /\ k <> "esc")%string ks ->
  Loop.run (map Loop.Press ks) l = Go.Done l.
Proof.
  destruct l as [m fl ef]. simpl. intros Hh Hks.
  induction Hks as [|k ks [H1 H2] _ IH]; [reflexivity|].
  simpl. unfold Loop.handle, App.Update, Go.bind. simpl. rewrite Hh.
  apply String.eqb_neq in H1, H2. rewrite H1, H2. simpl.
  rewrite !app_nil_r. exact IH.
Qed.

(** In the Dashboard view the root controller handles the quit, help,
    refresh, back and enter keys itself: the Dashboard, with whatever menu,
    dialog or log search it has open, never sees them and stays as it is.
    A key bound to Enter only is lost altogether. *)
Theorem root_keys_never_reach_dashboard (k : string) (m m' : App.t)
        (c : Tea.Cmd) (effs : list Tea.Effect) :
  App.view m = App.ViewDashboard ->
  HelpPanel.IsVisible (App.help m) = false ->
  Keys.Matches k (Keys.Namespace (App.keys m)) = false ->
  Keys.Matches k (Keys.Quit (App.keys m))
  || Keys.Matches k (Keys.Help (App.keys m))
  || Keys.Matches k (Keys.Refresh (App.keys m))
  || Keys.Matches k (Keys.Back (App.keys m))
  || Keys.Matches k (Keys.Enter (App.keys m)) = true ->
  App.Update (Tea.KeyMsg k) m = Go.Done (m', c, effs) ->
  App.dashboard m' = App.dashboard m
  /\ (Keys.Matches k (Keys.Quit (App.keys m))
      || Keys.Matches k (Keys.Help (App.keys m))
      || Keys.Matches k (Keys.Refresh (App.keys m))
      || Keys.Matches k (Keys.Back (App.keys m)) = false ->
      m' = m /\ c = Tea.CmdNil /\ effs = []).
Proof.
  intros Hv Hh Hns Hk. unfold App.Update. rewrite Hh, Hv, Hns. simpl andb. cbv iota.
  destruct (Keys.Matches k (Keys.Quit (App.keys m))).
  { intros [= <- <- <-]. split; [reflexivity | discriminate]. }
  destruct (Keys.Matches k (Keys.Help (App.keys m))).
  { intros [= <- <- <-]. split; [reflexivity | discriminate]. }
  destruct (Keys.Matches k (Keys.Refresh (App.keys m))).
  { unfold App.refresh. rewrite Hv. destruct (App.pod m);
      intros [= <- <- <-]; (split; [reflexivity | discriminate]). }
  destruct (Keys.Matches k (Keys.Back (App.keys m))).
  { unfold App.handleBack. rewrite Hv. simpl.
    destruct (App.workload m); intros [= <- <- <-];
      (split; [reflexivity | discriminate]). }
  simpl in Hk. rewrite Hk. unfold App.handleEnter. rewrite Hv. simpl.
  intros [= <- <- <-]. auto.
Qed.

End RootKeys.

Lemma help_absorbs_keys_witness :
  let l := {| Loop.model := Scenario.m_help; Loop.inflight := [];
              Loop.effects := [] |} in
  Loop.run (map Loop.Press ["q"; "ctrl+c"; "enter"]%string) l = Go.Done l.
Proof.
  intros l. apply (help_absorbs_keys (E := Sample.externals) l).
  - vm_compute. reflexivity.
  - repeat constructor; discriminate.
Defined.

Lemma root_keys_never_reach_dashboard_witness :
  exists m' c effs,
    App.Update (Tea.KeyMsg "enter") Sample.m_viewing = Go.Done (m', c, effs)
    /\ App.dashboard m' = App.dashboard Sample.m_viewing
    /\ m' = Sample.m_viewing /\ c = Tea.CmdNil.
Proof.
  destruct (App.Update (Tea.KeyMsg "enter") Sample.m_viewing)
    as [[[m' c] effs]|] eqn:Hu; [| vm_compute in Hu; discriminate Hu].
  exists m', c, effs. split; [reflexivity|].
  destruct (root_keys_never_reach_dashboard (E := Sample.externals)
              "enter" Sample.m_viewing m' c effs) as [Hd Hsame].
  - vm_compute. reflexivity.
  - vm_compute. reflexivity.
  - vm_compute. reflexivity.
  - vm_compute. reflexivity.
  - exact Hu.
  - destruct Hsame as (Hm & Hc & _); [vm_compute; reflexivity|].
    split; [exact Hd | split; [exact Hm | exact Hc]].
Defined.

Lemma confirmed_exec_runs_selected_command_once_witness :
  exists d1 d2,
    Dashboard.Update (Tea.PodActionMenuResult (Sample.an_item "exec")) Sample.d0
    = Go.Done (d1, Tea.CmdNil, [])
    /\ Dashboard.Update
         (Tea.ConfirmResult true (Tea.Action (Sample.an_item "exec")) Tea.OtherPayload) d1
       = Go.Done (d2, Tea.CmdExecProcess (Tea.Command (Sample.an_item "exec")), [])
    /\ Dashboard.pendingAction d2 = None
    /\ Dashboard.Update
         (Tea.ConfirmResult true (Tea.Action (Sample.an_item "exec")) Tea.OtherPayload) d2
       = Go.Done (d2, Tea.CmdNil, [])
    /\ Dashboard.Update
         (Tea.ConfirmResult false (Tea.Action (Sample.an_item "exec")) Tea.OtherPayload) d1
       = Go.Done (d2, Tea.CmdNil, []).
Proof.
  apply (confirmed_exec_runs_selected_command_once (E := Sample.externals)
           Sample.d0 Sample.web_7f9 (Sample.an_item "exec") Tea.OtherPayload).
  - reflexivity.
  - left. reflexivity.
Defined.

Lemma key_clears_status_witness :
  exists d' c effs,
    Dashboard.Update (Tea.KeyMsg "x") (Dashboard.with_statusMsg "Copied" Sample.d0)
    = Go.Done (d', c, effs)
    /\ Dashboard.statusMsg d' = ""%string.
Proof.
  apply (key_clears_status (E := Sample.externals)).
  - vm_compute. reflexivity.
  - vm_compute. reflexivity.
Defined.

(** ** Favourites of the preferences *)

Lemma IsFavorite_In (x : string) (c : Config.t) :
  Favorites.IsFavorite x c = true <-> In x (Config.FavoriteItems c).
Proof.
  unfold Favorites.IsFavorite. rewrite existsb_exists. split.
  - intros [f [Hin Heq]]. apply String.eqb_eq in Heq. now subst.
  - intros Hin. exists x. split; [exact Hin | apply String.eqb_refl].
Qed.

Lemma existsb_app_one (item x : string) (l : list string) :
  existsb (fun f => (f =? x)%string) (l ++ [item])
  = existsb (fun f => (f =? x)%string) l || (item =? x)%string.
Proof. rewrite existsb_app. simpl. now rewrite orb_false_r. Qed.

Lemma remove_first_count (item x : string) (l : list string) :
  count_occ string_dec (Favorites.remove_first item l) x
  = if string_dec x item then Nat.pred (count_occ string_dec l x)
    else count_occ string_dec l x.
Proof.
  induction l as [|f r IH]; simpl.
  - now destruct (string_dec x item).
  - destruct (String.eqb_spec f item) as [-> | Hne].
    + destruct (string_dec item x) as [-> | Hx].
      * destruct (string_dec x x); [reflexivity | congruence].
      * destruct (string_dec x item); [congruence | reflexivity].
    + simpl. rewrite IH.
      destruct (string_dec f x) as [-> | Hfx].
      * destruct (string_dec x item); [congruence | reflexivity].
      * reflexivity.
Qed.

Lemma remove_first_absent (item : string) (l : list string) :
  existsb (fun f => (f =? item)%string) l = false ->
  Favorites.remove_first item l = l.
Proof.
  induction l as [|f r IH]; simpl; [reflexivity|].
  destruct (f =? item)%string; [discriminate|].
  simpl. intros H. now rewrite IH.
Qed.


(** After [AddFavorite] the item is a favourite and every other item is
    one exactly when it was before; adding it again changes nothing. *)
Theorem AddFavorite_membership (item x : string) (c : Config.t) :
  Favorites.IsFavorite x (Favorites.AddFavorite item c)
  = Favorites.IsFavorite x c || (item =? x)%string
  /\ Favorites.AddFavorite item (Favorites.AddFavorite item c)
     = Favorites.AddFavorite item c.
Proof.
  unfold Favorites.AddFavorite, Favorites.IsFavorite.
  destruct (existsb (fun f => (f =? item)%string) (Config.FavoriteItems c)) eqn:Hex.
  - rewrite Hex. split; [|reflexivity].
    destruct (String.eqb_spec item x) as [<- | Hne].
    + rewrite Hex. reflexivity.
    + now rewrite orb_false_r.
  - simpl. rewrite !existsb_app_one, String.eqb_refl, orb_true_r.
    split; reflexivity.
Qed.

(** [RemoveFavorite] takes out one occurrence of the item, the first, and
    leaves the number of occurrences of every other item as it is: an
    item listed twice is still a favourite afterwards. *)
Theorem RemoveFavorite_removes_one (item x : string) (c : Config.t) :
  count_occ string_dec (Config.FavoriteItems (Favorites.RemoveFavorite item c)) x
  = if string_dec x item
    then Nat.pred (count_occ string_dec (Config.FavoriteItems c) x)
    else count_occ string_dec (Config.FavoriteItems c) x.
Proof.
  unfold Favorites.RemoveFavorite.
  destruct (existsb _ _) eqn:Hex; simpl.
  - apply remove_first_count.
  - rewrite <- (remove_first_absent item _ Hex) at 1. apply remove_first_count.
Qed.

(** A list of favourites without repetitions stays without repetitions
    under [AddFavorite] and [RemoveFavorite], and then a removed item is
    no favourite any more. *)
Theorem favorites_stay_distinct (item : string) (c : Config.t) :
  NoDup (Config.FavoriteItems c) ->
  NoDup (Config.FavoriteItems (Favorites.AddFavorite item c))
  /\ NoDup (Config.FavoriteItems (Favorites.RemoveFavorite item c))
  /\ Favorites.IsFavorite item (Favorites.RemoveFavorite item c) = false.
Proof.
  intros Hnd.
  assert (Hcount : forall y,
             count_occ string_dec
               (Config.FavoriteItems (Favorites.RemoveFavorite item c)) y
             = if string_dec y item
               then Nat.pred (count_occ string_dec (Config.FavoriteItems c) y)
               else count_occ string_dec (Config.FavoriteItems c) y).
  { intros y. unfold Favorites.RemoveFavorite.
    destruct (existsb _ _) eqn:Hex; simpl; [apply remove_first_count|].
    rewrite <- (remove_first_absent item _ Hex) at 1. apply remove_first_count. }
  split; [|split].
  - unfold Favorites.AddFavorite.
    destruct (existsb _ _) eqn:Hex; [exact Hnd|]. simpl.
    rewrite (NoDup_count_occ string_dec) in *. intros y.
    rewrite count_occ_app. simpl.
    destruct (string_dec item y) as [<- | Hy]; [|specialize (Hnd y); lia].
    assert (Hnot : ~ In item (Config.FavoriteItems c)).
    { intros Hin. apply (IsFavorite_In item c) in Hin.
      unfold Favorites.IsFavorite in Hin. congruence. }
    apply (count_occ_not_In string_dec) in Hnot. lia.
  - rewrite (NoDup_count_occ string_dec) in *. intros y.
    rewrite Hcount.
    specialize (Hnd y). destruct (string_dec y item); lia.
  - destruct (Favorites.IsFavorite item (Favorites.RemoveFavorite item c)) eqn:Hf;
      [|reflexivity].
    apply IsFavorite_In in Hf. apply (count_occ_In string_dec) in Hf.
    rewrite Hcount in Hf.
    rewrite (NoDup_count_occ string_dec) in Hnd. specialize (Hnd item).
    destruct (string_dec item item); [lia | congruence].
Qed.

Lemma favorites_stay_distinct_witness :
  let c := Favorites.AddFavorite "default/web" Config.DefaultConfig in
  NoDup (Config.FavoriteItems (Favorites.AddFavorite "default/db" c))
  /\ NoDup (Config.FavoriteItems (Favorites.RemoveFavorite "default/db" c))
  /\ Favorites.IsFavorite "default/db" (Favorites.RemoveFavorite "default/db" c)
     = false.
Proof.
  intros c. apply (favorites_stay_distinct "default/db" c).
  repeat constructor. simpl. tauto.
Defined.



(** ** Truncating and padding strings *)

Lemma slen_append (a b : string) : Util.slen (a ++ b) = Util.slen a + Util.slen b.
Proof.
  unfold Util.slen. rewrite <- Nat2Z.inj_add. f_equal.
  induction a as [|x a IH]; simpl; [reflexivity | now rewrite IH].
Qed.

Lemma length_substring0 (n : nat) (s : string) :
  (n <= String.length s)%nat -> String.length (String.substring 0 n s) = n.
Proof.
  revert s. induction n as [|n IH]; intros s Hn.
  - destruct s; reflexivity.
  - destruct s as [|x s]; simpl in *; [lia|]. rewrite IH; [reflexivity | lia].
Qed.


Lemma slice_to_spec (s : string) (n : Z) :
  (n < 0 \/ Util.slen s < n -> Util.slice_to s n = Go.Panic)
  /\ (0 <= n <= Util.slen s ->
      Util.slice_to s n = Go.Done (String.substring 0 (Z.to_nat n) s)
      /\ Util.slen (String.substring 0 (Z.to_nat n) s) = n).
Proof.
  unfold Util.slice_to. split.
  - intros H. destruct (n <? 0) eqn:H1; [reflexivity|].
    destruct (Util.slen s <? n) eqn:H2; [reflexivity|].
    apply Z.ltb_ge in H1, H2. lia.
  - intros H. destruct (n <? 0) eqn:H1; [apply Z.ltb_lt in H1; lia|].
    destruct (Util.slen s <? n) eqn:H2; [apply Z.ltb_lt in H2; lia|].
    split; [reflexivity|].
    unfold Util.slen in *. rewrite length_substring0; lia.
Qed.

(** [TruncateString] panics exactly for a negative limit.  Otherwise the
    result has the length of the string or the limit, whichever is
    smaller: the string itself when it fits, and for a limit above 3 its
    first [maxLen - 3] bytes followed by three dots. *)
Theorem TruncateString_spec (s : string) (maxLen : Z) :
  Go.is_int maxLen ->
  (maxLen < 0 -> Util.TruncateString s maxLen = Go.Panic)
  /\ (0 <= maxLen ->
      exists r, Util.TruncateString s maxLen = Go.Done r
        /\ Util.slen r = Z.min (Util.slen s) maxLen
        /\ (Util.slen s <= maxLen -> r = s)
        /\ (3 < maxLen < Util.slen s ->
            r = (String.substring 0 (Z.to_nat (maxLen - 3)) s ++ "...")%string)).
Proof.
  intros Hint.
  assert (Hlen : 0 <= Util.slen s) by (unfold Util.slen; lia).
  unfold Util.TruncateString. split.
  - intros Hneg. destruct (Util.slen s <=? maxLen) eqn:H1;
      [apply Z.leb_le in H1; lia|].
    destruct (maxLen <=? 3) eqn:H2; [|apply Z.leb_gt in H2; lia].
    apply slice_to_spec. lia.
  - intros Hpos. destruct (Util.slen s <=? maxLen) eqn:H1.
    + apply Z.leb_le in H1. exists s. repeat split; try lia. 
    + apply Z.leb_gt in H1. destruct (maxLen <=? 3) eqn:H2.
      * apply Z.leb_le in H2.
        destruct (proj2 (slice_to_spec s maxLen)) as [-> Hl]; [lia|].
        eexists. split; [reflexivity|]. split; [lia|]. split; intros; lia.
      * apply Z.leb_gt in H2.
        rewrite sub_exact by (unfold Go.is_int, Go.min_int, Go.max_int in *; lia).
        destruct (proj2 (slice_to_spec s (maxLen - 3))) as [-> Hl]; [lia|].
        unfold Go.bind. eexists. split; [reflexivity|].
        split; [|split; [intros; lia | reflexivity]].
        rewrite slen_append, Hl. change (Util.slen "...") with 3. lia.
Qed.

Lemma TruncateString_spec_witness :
  Util.TruncateString "kubernetes" 8 = Go.Done "kuber..."%string
  /\ Util.TruncateString "kubernetes" (-1) = Go.Panic.
Proof.
  assert (Hi : forall z, -1 <= z <= 8 -> Go.is_int z)
    by (intros z Hz; unfold Go.is_int, Go.min_int, Go.max_int; lia).
  split.
  - destruct (proj2 (TruncateString_spec "kubernetes" 8 (Hi 8 ltac:(lia))))
      as (r & Hr & _ & _ & Hcut); [lia|].
    rewrite Hr, Hcut; [reflexivity | change (Util.slen "kubernetes") with 10; lia].
  - apply (proj1 (TruncateString_spec "kubernetes" (-1) (Hi (-1) ltac:(lia)))). lia.
Defined.



(** ** Sorting and filtering log lines *)

Section LogSorting.
Local Open Scope list_scope.

Lemma index_nat {A : Type} (l : list A) (i : nat) :
  Go.index l (Z.of_nat i)
  = match nth_error l i with Some a => Go.Done a | None => Go.Panic end.
Proof.
  unfold Go.index, Go.len.
  destruct (Z.of_nat i <? 0) eqn:H0; [apply Z.ltb_lt in H0; lia|].
  destruct (Z.of_nat (List.length l) <=? Z.of_nat i) eqn:H1; simpl.
  - apply Z.leb_le in H1.
    assert (Hn : nth_error l i = None) by (apply nth_error_None; lia).
    now rewrite Hn.
  - now rewrite Nat2Z.id.
Qed.

Lemma store_app (pre post : list Logs.LogLine) (y x : Logs.LogLine) :
  Logs.store (pre ++ y :: post) (List.length pre) x = Go.Done (pre ++ x :: post).
Proof.
  induction pre as [|p pre IH]; simpl; [reflexivity|]. now rewrite IH.
Qed.

Lemma exchange_head (pre post : list Logs.LogLine) (a b : Logs.LogLine) :
  Logs.exchange 0 (S (List.length pre)) (a :: pre ++ b :: post)
  = Go.Done (if Logs.Timestamp b <? Logs.Timestamp a
             then b :: pre ++ a :: post else a :: pre ++ b :: post).
Proof.
  unfold Logs.exchange. rewrite !index_nat. simpl nth_error.
  rewrite nth_error_app2, Nat.sub_diag by lia. simpl.
  destruct (Logs.Timestamp b <? Logs.Timestamp a); [|reflexivity].
  now rewrite store_app.
Qed.

Lemma exchange_tail (i j : nat) (x : Logs.LogLine) (l : list Logs.LogLine) :
  Logs.exchange (S i) (S j) (x :: l)
  = (r <- Logs.exchange i j l ;; Go.Done (x :: r)).
Proof.
  unfold Logs.exchange. rewrite !index_nat. simpl nth_error.
  destruct (nth_error l j) as [b|]; [|reflexivity].
  destruct (nth_error l i) as [a|]; [|reflexivity]. simpl.
  destruct (Logs.Timestamp b <? Logs.Timestamp a); [|reflexivity].
  destruct (Logs.store l i b) as [l1|]; [|reflexivity]. simpl.
  destruct (Logs.store l1 j a); reflexivity.
Qed.

Lemma for_range_step (from n : nat) body (l l' : list Logs.LogLine) :
  body from l = Go.Done l' ->
  Logs.for_range from (S n) body l = Logs.for_range (S from) n body l'.
Proof. intros H. unfold Logs.for_range. simpl. now rewrite H. Qed.

Lemma for_range_tail (from n : nat) body body' (x : Logs.LogLine)
      (l : list Logs.LogLine) :
  (forall k r, body' (S k) (x :: r) = (r' <- body k r ;; Go.Done (x :: r'))) ->
  Logs.for_range (S from) n body' (x :: l)
  = (r <- Logs.for_range from n body l ;; Go.Done (x :: r)).
Proof.
  intros Hb. unfold Logs.for_range.
  change (Go.Done (x :: l)) with (r <- Go.Done l ;; Go.Done (x :: r)).
  generalize (Go.Done l). revert from.
  induction n as [|n IH]; intros from acc; [reflexivity|].
  simpl. rewrite <- IH. f_equal.
  destruct acc as [r|]; [|reflexivity]. simpl. apply Hb.
Qed.

Lemma inner_tail (i : nat) (x : Logs.LogLine) (l : list Logs.LogLine) :
  Logs.inner (S i) (x :: l) = (r <- Logs.inner i l ;; Go.Done (x :: r)).
Proof.
  unfold Logs.inner. simpl List.length.
  change (S (List.length l) - S (S i))%nat with (List.length l - S i)%nat.
  apply for_range_tail. intros k r. apply exchange_tail.
Qed.

(** One pass of the inner loop brings an earliest line to the front. *)
Lemma inner_sweep (post pre : list Logs.LogLine) (a : Logs.LogLine) :
  exists m rest,
    Logs.for_range (S (List.length pre)) (List.length post) (Logs.exchange 0)
                   (a :: pre ++ post)
    = Go.Done (m :: pre ++ rest)
    /\ List.length rest = List.length post
    /\ Permutation (a :: post) (m :: rest)
    /\ Logs.not_after m a
    /\ Forall (Logs.not_after m) rest.
Proof.
  unfold Logs.not_after.
  revert pre a. induction post as [|b t IH]; intros pre a.
  - exists a, []. repeat split; auto. lia.
  - simpl List.length.
    rewrite (for_range_step _ _ _ _ _ (exchange_head pre t a b)).
    destruct (Logs.Timestamp b <? Logs.Timestamp a) eqn:Hlt.
    + apply Z.ltb_lt in Hlt.
      destruct (IH (pre ++ [a]) b) as (m & rest & Hrun & Hlen & Hperm & Hm & Hall).
      rewrite length_app, Nat.add_1_r, <- !app_assoc in Hrun. simpl in Hrun.
      exists m, (a :: rest).
      split; [exact Hrun|]. split; [simpl; lia|]. split; [|split].
      * transitivity (a :: m :: rest); [now apply perm_skip | apply perm_swap].
      * lia.
      * constructor; [lia | exact Hall].
    + apply Z.ltb_ge in Hlt.
      destruct (IH (pre ++ [b]) a) as (m & rest & Hrun & Hlen & Hperm & Hm & Hall).
      rewrite length_app, Nat.add_1_r, <- !app_assoc in Hrun. simpl in Hrun.
      exists m, (b :: rest).
      split; [exact Hrun|]. split; [simpl; lia|]. split; [|split].
      * transitivity (b :: a :: t); [apply perm_swap|].
        transitivity (b :: m :: rest); [now apply perm_skip | apply perm_swap].
      * lia.
      * constructor; [lia | exact Hall].
Qed.

Lemma sort_cons (a m : Logs.LogLine) (post rest : list Logs.LogLine) :
  Logs.inner 0 (a :: post) = Go.Done (m :: rest) ->
  List.length rest = List.length post ->
  Logs.sortLogsByTime (a :: post)
  = (s <- Logs.sortLogsByTime rest ;; Go.Done (m :: s)).
Proof.
  intros Hin Hlen. unfold Logs.sortLogsByTime.
  destruct post as [|b t].
  - destruct rest; [|discriminate Hlen].
    unfold Logs.inner, Logs.for_range in Hin. simpl in Hin.
    injection Hin as <-. reflexivity.
  - change (List.length (a :: b :: t) - 1)%nat with (S (List.length t)).
    rewrite (for_range_step _ _ _ _ _ Hin).
    rewrite (for_range_tail 0 (List.length t) Logs.inner Logs.inner).
    + simpl in Hlen. rewrite Hlen. simpl. now rewrite Nat.sub_0_r.
    + intros k r. apply inner_tail.
Qed.

(** [sortLogsByTime] never indexes out of range, and leaves the same
    lines in the order of their time stamps, earliest first. *)
Theorem sortLogsByTime_sorts (logs : list Logs.LogLine) :
  exists sorted,
    Logs.sortLogsByTime logs = Go.Done sorted
    /\ Permutation logs sorted
    /\ StronglySorted Logs.not_after sorted.
Proof.
  remember (List.length logs) as n eqn:Hn.
  revert logs Hn. induction n as [n IH] using lt_wf_ind. intros logs Hn.
  destruct logs as [|a post].
  - exists []. repeat split; constructor.
  - destruct (inner_sweep post [] a) as (m & rest & Hrun & Hlen & Hperm & Hm & Hall).
    simpl in Hrun.
    assert (Hin : Logs.inner 0 (a :: post) = Go.Done (m :: rest)).
    { unfold Logs.inner.
      change (List.length (a :: post) - 1)%nat with (List.length post - 0)%nat.
      rewrite Nat.sub_0_r. exact Hrun. }
    destruct (IH (List.length rest)) with (logs := rest)
      as (s & Hs & Hps & Hss); [simpl in Hn; lia | reflexivity |].
    exists (m :: s). rewrite (sort_cons _ _ _ _ Hin Hlen), Hs. simpl.
    split; [reflexivity|]. split.
    + rewrite Hperm. now apply perm_skip.
    + constructor; [exact Hss|].
      eapply Permutation_Forall; [exact Hps | exact Hall].
Qed.

End LogSorting.

Section LogFilters.
Context `{E : Externals}.

(** Searching and keeping the error lines can be done in either order,
    and both keep lines that are in time order in time order. *)
Theorem log_filters_keep_time_order (logs : list Logs.LogLine) (query : string) :
  StronglySorted Logs.not_after logs ->
  StronglySorted Logs.not_after (Logs.SearchLogs logs query)
  /\ StronglySorted Logs.not_after (Logs.FilterErrorLogs logs)
  /\ Logs.FilterErrorLogs (Logs.SearchLogs logs query)
     = Logs.SearchLogs (Logs.FilterErrorLogs logs) query.
Proof.
  assert (Hf : forall f (l : list Logs.LogLine),
             StronglySorted Logs.not_after l ->
             StronglySorted Logs.not_after (filter f l)).
  { intros f l Hs. induction Hs as [|x l Hs IH Hall]; simpl; [constructor|].
    destruct (f x); [|exact IH]. constructor; [exact IH|].
    apply Forall_forall. intros y Hy. apply filter_In in Hy as [Hy _].
    revert y Hy. now apply Forall_forall. }
  intros Hs. unfold Logs.SearchLogs, Logs.FilterErrorLogs.
  destruct (query =? "")%string.
  - repeat split; auto.
  - repeat split; auto.
    induction logs as [|x l IH]; simpl; [reflexivity|].
    inversion Hs; subst.
    destruct (Go.Contains _ _) eqn:Hc, (Logs.IsError x) eqn:He; simpl;
      rewrite ?Hc, ?He, ?IH; auto.
Qed.

End LogFilters.

Lemma log_filters_keep_time_order_witness :
  exists sorted,
    Logs.sortLogsByTime Logs.sample = Go.Done sorted
    /\ StronglySorted Logs.not_after
         (Logs.SearchLogs (E := Sample.externals) sorted "error")
    /\ Logs.FilterErrorLogs (Logs.SearchLogs (E := Sample.externals) sorted "error")
       = Logs.SearchLogs (E := Sample.externals) (Logs.FilterErrorLogs sorted) "error".
Proof.
  eexists. split; [vm_compute; reflexivity|].
  match goal with
  | |- StronglySorted _ (Logs.SearchLogs ?l _) /\ _ =>
      destruct (log_filters_keep_time_order (E := Sample.externals) l "error")
        as (H1 & _ & H3)
  end.
  - repeat constructor; unfold Logs.not_after; simpl; lia.
  - split; [exact H1 | exact H3].
Defined.

Lemma namespace_in_sync_invariant_witness :
  Inv.namespace_in_sync Sample.m_viewing
  /\ exists m' c effs,
       App.Update (E := Sample.externals) (Tea.KeyMsg "esc") Sample.m_viewing
       = Go.Done (m', c, effs)
       /\ Inv.namespace_in_sync m'.
Proof.
  assert (H : Inv.namespace_in_sync Sample.m_viewing) by (vm_compute; reflexivity).
  split; [exact H|].
  destruct (App.Update (Tea.KeyMsg "esc") Sample.m_viewing) as [[[m' c] effs]|] eqn:Hupd.
  - exists m', c, effs. split; [reflexivity|].
    exact (proj2 namespace_in_sync_invariant _ _ _ _ _ H Hupd).
  - vm_compute in Hupd. discriminate.
Defined.

Lemma search_exclusive_invariant_witness :
  Inv.search_exclusive Sample.m_searching
  /\ exists m' c effs,
       App.Update (E := Sample.externals) (Tea.KeyMsg "?") Sample.m_searching
       = Go.Done (m', c, effs)
       /\ Inv.search_exclusive m'.
Proof.
  assert (H : Inv.search_exclusive Sample.m_searching).
  { intros _. split; vm_compute; reflexivity. }
  split; [exact H|].
  destruct (App.Update (Tea.KeyMsg "?") Sample.m_searching) as [[[m' c] effs]|] eqn:Hupd.
  - exists m', c, effs. split; [reflexivity|].
    exact (proj2 search_exclusive_invariant _ _ _ _ _ H Hupd).
  - vm_compute in Hupd. discriminate.
Defined.
